(** * Personal finance tracker: aggregation and derived metrics

    A shallow embedding of the analytics, budget and assistant code of the
    tracker (features/analytics/analytics.py, features/budgets/budgets.py,
    features/smart_assistant/assistant.py, features/transactions/
    transactions.py), and the properties its specification states of it.

    Python's [int] is [Z]; Python's [float] is IEEE 754 binary64, taken
    from the executable specification [SpecFloat] of the Standard Library
    (53 bits of precision, round to nearest, ties to even); a [dict] with
    string keys is a [gmap string Z]; a raised exception is the [Raise]
    case of a result type. *)

From Stdlib Require Import ZArith Lia Bool List String Ascii QArith Qabs.
From Stdlib Require Import Floats.SpecFloat.
From Stdlib Require DecimalString DecimalZ DecimalPos DecimalN DecimalFacts.
From stdpp Require Import gmap strings.

Local Open Scope Z_scope.

(** ** Exceptions and results *)

Inductive exn := ValueError | ZeroDivisionError | OverflowError | KeyError.

Inductive result (A : Type) : Type :=
| Ok (a : A)
| Raise (e : exn).
Arguments Ok {A} a.
Arguments Raise {A} e.

#[global] Instance result_ret : MRet result := fun _ a => Ok a.
#[global] Instance result_bind : MBind result := fun _ _ k r =>
  match r with
  | Ok a => k a
  | Raise e => Raise e
  end.

(** [map_result f l] evaluates [f] on the elements of [l] from left to
    right, as a comprehension does, and stops at the first exception. *)
Fixpoint map_result {A B : Type} (f : A -> result B) (l : list A) : result (list B) :=
  match l with
  | [] => Ok []
  | a :: l' => b ← f a; bs ← map_result f l'; Ok (b :: bs)
  end.

(** ** Python floats *)

Module PyFloat.

Definition prec : Z := 53.
Definition emax : Z := 1024.

Abbreviation float := spec_float.

(** An integer as an unrounded mantissa with exponent 0. *)
Definition raw (z : Z) : float :=
  match z with
  | Z0 => S754_zero false
  | Zpos p => S754_finite false p 0
  | Zneg p => S754_finite true p 0
  end.

Definition is_infinity (f : float) : bool :=
  match f with S754_infinity _ => true | _ => false end.

(** [float(z)], as [int * float] and [float * int] convert their integer
    operand: the nearest double, OverflowError beyond the range. *)
Definition of_int (z : Z) : result float :=
  let f := binary_normalize prec emax z 0 false in
  if is_infinity f then Raise OverflowError else Ok f.

(** [a / b] on two integers: the correctly rounded quotient. *)
Definition true_div (a b : Z) : result float :=
  if b =? 0 then Raise ZeroDivisionError
  else
    let f := SFdiv prec emax (raw a) (raw b) in
    if is_infinity f then Raise OverflowError else Ok f.

(** A decimal literal [n/d] of the source text denotes the nearest double. *)
Definition literal (n d : Z) : float := SFdiv prec emax (raw n) (raw d).

Definition mul (x y : float) : float := SFmul prec emax x y.

(** [x * z] and [z * x] with [z] an integer. *)
Definition mul_int (x : float) (z : Z) : result float :=
  y ← of_int z; Ok (mul x y).

(** Comparison of a float with an integer; Python compares the two
    exactly, without converting the integer. *)
Definition compare_int (f : float) (z : Z) : option comparison :=
  match f with
  | S754_nan => None
  | S754_infinity s => Some (if s then Lt else Gt)
  | S754_zero _ => Some (0 ?= z)
  | S754_finite s m e =>
      let sm := cond_Zopp s (Zpos m) in
      Some (if 0 <=? e then (sm * 2 ^ e ?= z) else (sm ?= z * 2 ^ (- e)))
  end.

Definition ge_int (f : float) (z : Z) : bool :=
  match compare_int f z with Some (Gt | Eq) => true | _ => false end.
Definition gt_int (f : float) (z : Z) : bool :=
  match compare_int f z with Some Gt => true | _ => false end.
Definition lt_int (f : float) (z : Z) : bool :=
  match compare_int f z with Some Lt => true | _ => false end.

(** The integer nearest to [n/d] ([0 < d]), ties to the even one. *)
Definition round_half_even (n d : Z) : Z :=
  let q := n / d in
  let r := n mod d in
  match 2 * r ?= d with
  | Lt => q
  | Gt => q + 1
  | Eq => if Z.even q then q else q + 1
  end.

(** [round(x)] with one argument: an integer, ties to even; ValueError
    on NaN and OverflowError on an infinity. *)
Definition round (f : float) : result Z :=
  match f with
  | S754_nan => Raise ValueError
  | S754_infinity _ => Raise OverflowError
  | S754_zero _ => Ok 0
  | S754_finite s m e =>
      let sm := cond_Zopp s (Zpos m) in
      Ok (if 0 <=? e then sm * 2 ^ e else round_half_even sm (2 ^ (- e)))
  end.

(** The exact value of a finite float, as a rational. *)
Definition to_Q (f : float) : Q :=
  match f with
  | S754_finite s m e =>
      let sm := cond_Zopp s (Zpos m) in
      if 0 <=? e then inject_Z (sm * 2 ^ e) else Qmake sm (Z.to_pos (2 ^ (- e)))
  | _ => 0%Q
  end.

Definition is_finite (f : float) : bool :=
  match f with S754_zero _ | S754_finite _ _ _ => true | _ => false end.

End PyFloat.

Import PyFloat.

(** The literals of the source: [0.7], [0.20] and [0.1]. *)
Definition f0_7 : float := Eval vm_compute in literal 7 10.
Definition f0_20 : float := Eval vm_compute in literal 20 100.
Definition f0_1 : float := Eval vm_compute in literal 1 10.

(** [100], as the float that [x * 100] multiplies by. *)
Definition f100 : float := Eval vm_compute in binary_normalize prec emax 100 0 false.

(** A value that is an [int] on one path and a [float] on another, as
    [utilization_percent] is. *)
Inductive number :=
| Int (z : Z)
| Float (f : float).

Definition number_ge (x : number) (z : Z) : bool :=
  match x with
  | Int a => z <=? a
  | Float f => ge_int f z
  end.

Definition number_lt (x : number) (z : Z) : bool :=
  match x with
  | Int a => a <? z
  | Float f => lt_int f z
  end.

(** Python's [sum]: a left fold from 0. *)
Definition sum (l : list Z) : Z := fold_left Z.add l 0.

(** ** Records of the ledger *)

Module Transaction.
Record t := mk {
  date : string;
  type : string;        (* "expense" or "income" *)
  category : string;
  description : string;
  amount : Z            (* in paisa *)
}.
End Transaction.

Module Budget.
Record t := mk {
  category : string;
  amount : Z            (* in paisa *)
}.
End Budget.

(** ** Dates *)

Record datetime := { year : Z; month : Z; day : Z }.

Definition digit_value (c : ascii) : option Z :=
  let n := Z.of_N (N_of_ascii c) in
  if (48 <=? n) && (n <=? 57) then Some (n - 48) else None.

Definition is_leap (y : Z) : bool :=
  ((y mod 4 =? 0) && negb (y mod 100 =? 0)) || (y mod 400 =? 0).

Definition days_in_month (y m : Z) : Z :=
  if m =? 2 then (if is_leap y then 29 else 28)
  else if (m =? 4) || (m =? 6) || (m =? 9) || (m =? 11) then 30
  else 31.

(** The [%m] field: [1[0-2]|0[1-9]|[1-9]]. *)
Definition month_field (cs : list ascii) : option Z :=
  match cs with
  | [c] => match digit_value c with
           | Some d => if 1 <=? d then Some d else None
           | None => None
           end
  | [c1; c2] =>
      match digit_value c1, digit_value c2 with
      | Some 1, Some d => if d <=? 2 then Some (10 + d) else None
      | Some 0, Some d => if 1 <=? d then Some d else None
      | _, _ => None
      end
  | _ => None
  end.

(** The [%d] field: [3[0-1]|[1-2]\d|0[1-9]|[1-9]| [1-9]]. *)
Definition day_field (cs : list ascii) : option Z :=
  match cs with
  | [c] => match digit_value c with
           | Some d => if 1 <=? d then Some d else None
           | None => None
           end
  | [c1; c2] =>
      match digit_value c2 with
      | Some d =>
          if Ascii.eqb c1 " " then (if 1 <=? d then Some d else None)
          else match digit_value c1 with
               | Some 3 => if d <=? 1 then Some (30 + d) else None
               | Some 2 => Some (20 + d)
               | Some 1 => Some (10 + d)
               | Some 0 => if 1 <=? d then Some d else None
               | _ => None
               end
      | None => None
      end
  | _ => None
  end.

(** Splits at the first ["-"]. *)
Fixpoint split_dash (cs : list ascii) : option (list ascii * list ascii) :=
  match cs with
  | [] => None
  | c :: cs' =>
      if Ascii.eqb c "-" then Some ([], cs')
      else match split_dash cs' with
           | Some (a, b) => Some (c :: a, b)
           | None => None
           end
  end.

(** [datetime.strptime(s, "%Y-%m-%d")] on a string of ASCII characters:
    four digits of year, a month and a day of one or two digits, nothing
    after the day, and the three naming a date of the calendar; anything
    else is a ValueError. *)
Definition strptime (s : string) : result datetime :=
  match list_ascii_of_string s with
  | y1 :: y2 :: y3 :: y4 :: dash :: rest =>
      match digit_value y1, digit_value y2, digit_value y3, digit_value y4,
            Ascii.eqb dash "-", split_dash rest with
      | Some a, Some b, Some c, Some d, true, Some (ms, ds) =>
          match month_field ms, day_field ds with
          | Some m, Some dd =>
              let y := 1000 * a + 100 * b + 10 * c + d in
              if (1 <=? y) && (dd <=? days_in_month y m)
              then Ok {| year := y; month := m; day := dd |}
              else Raise ValueError
          | _, _ => Raise ValueError
          end
      | _, _, _, _, _, _ => Raise ValueError
      end
  | _ => Raise ValueError
  end.

Definition digit_char (d : Z) : ascii := ascii_of_N (Z.to_N (48 + d mod 10)).

(** [today.strftime("%Y-%m")], for a year of four digits. *)
Definition strftime_Y_m (d : datetime) : string :=
  string_of_list_ascii
    [digit_char (year d / 1000); digit_char (year d / 100);
     digit_char (year d / 10); digit_char (year d);
     "-"%char; digit_char (month d / 10); digit_char (month d)].

(** [s.startswith(p)]. *)
Definition startswith (s p : string) : bool := String.prefix p s.

(** ** analytics.py: filters and aggregates *)

(** A comprehension with a condition that can raise. *)
Fixpoint filter_result {A : Type} (p : A -> result bool) (l : list A) : result (list A) :=
  match l with
  | [] => Ok []
  | a :: l' =>
      b ← p a;
      r ← filter_result p l';
      Ok (if (b : bool) then a :: r else r)
  end.

(** The condition of [filter_transactions_by_month]: [and] evaluates its
    second operand, and parses the date again, only when the first holds. *)
Definition in_month (y m : Z) (t : Transaction.t) : result bool :=
  d1 ← strptime (Transaction.date t);
  if year d1 =? y
  then d2 ← strptime (Transaction.date t); Ok (month d2 =? m)
  else Ok false.

Definition filter_transactions_by_month
    (transactions : list Transaction.t) (y m : Z) : result (list Transaction.t) :=
  filter_result (in_month y m) transactions.

Definition is_expense (t : Transaction.t) : bool :=
  String.eqb (Transaction.type t) "expense".
Definition is_income (t : Transaction.t) : bool :=
  String.eqb (Transaction.type t) "income".

(** [d[k] += v] on a [defaultdict(int)]. *)
Definition add_to (k : string) (v : Z) (d : gmap string Z) : gmap string Z :=
  <[k := default 0 (d !! k) + v]> d.

Definition get_monthly_spending_by_category
    (transactions : list Transaction.t) : gmap string Z :=
  fold_left
    (fun (d : gmap string Z) t => if is_expense t
                then add_to (Transaction.category t) (Transaction.amount t) d
                else d)
    transactions ∅.

Definition get_monthly_income_by_source
    (transactions : list Transaction.t) : gmap string Z :=
  fold_left
    (fun (d : gmap string Z) t => if is_income t
                then add_to (Transaction.category t) (Transaction.amount t) d
                else d)
    transactions ∅.

Definition get_total_spending (transactions : list Transaction.t) : Z :=
  sum (map Transaction.amount (List.filter is_expense transactions)).

Definition get_total_income (transactions : list Transaction.t) : Z :=
  sum (map Transaction.amount (List.filter is_income transactions)).

(** [sum(d.values())]. *)
Definition sum_values (d : gmap string Z) : Z :=
  map_fold (fun _ v acc => acc + v) 0 d.

(** ** Spending per budgeted category

    The loop that [view_budgets], [get_spending_alerts],
    [smart_recommendations], [financial_health_score] and
    [generate_monthly_report] all start with: a dictionary with a zero for
    each budget's category, then the expenses of the month (by the prefix
    of the date string) added to the categories it has. *)
Definition category_spending (budgets : list Budget.t)
    (transactions : list Transaction.t) (current_month_str : string) : gmap string Z :=
  fold_left
    (fun (d : gmap string Z) t =>
       if startswith (Transaction.date t) current_month_str && is_expense t
       then match d !! Transaction.category t with
            | Some v => <[Transaction.category t := v + Transaction.amount t]> d
            | None => d
            end
       else d)
    transactions
    (fold_left (fun (d : gmap string Z) b => <[Budget.category b := 0]> d) budgets ∅).

(** [d[k]]. *)
Definition getitem (d : gmap string Z) (k : string) : result Z :=
  match d !! k with
  | Some v => Ok v
  | None => Raise KeyError
  end.

(** [d.get(k, 0)]. *)
Definition get0 (d : gmap string Z) (k : string) : Z := default 0 (d !! k).

(** ** budgets.py: [view_budgets] *)

Inductive status := OK | WARNING | OVER.

(** [(spent / amount * 100) if amount > 0 else 0]. *)
Definition utilization (spent amount : Z) : result number :=
  if 0 <? amount
  then q ← true_div spent amount; u ← mul_int q 100; Ok (Float u)
  else Ok (Int 0).

Definition view_budgets_status (utilization_percent : number) : status :=
  if number_ge utilization_percent 100 then OVER
  else if number_ge utilization_percent 70 then WARNING
  else OK.

Record budget_row := {
  row_category : string;
  row_budget : Z;
  row_spent : Z;
  row_remaining : Z;
  row_utilization : number;
  row_status : status
}.

Definition view_budgets_row (spending : gmap string Z) (budget : Budget.t) : result budget_row :=
  let spent := get0 spending (Budget.category budget) in
  let remaining := Budget.amount budget - spent in
  utilization_percent ← utilization spent (Budget.amount budget);
  Ok {| row_category := Budget.category budget;
        row_budget := Budget.amount budget;
        row_spent := spent;
        row_remaining := remaining;
        row_utilization := utilization_percent;
        row_status := view_budgets_status utilization_percent |}.

Record budget_overview := {
  rows : list budget_row;
  total_budget_amount : Z;
  total_spent_amount : Z;
  overall_utilization_percent : number;
  over_budget_categories : list string
}.

(** [view_budgets]: [None] when there is no budget to show. *)
Definition view_budgets (today : datetime) (transactions : list Transaction.t)
    (budgets : list Budget.t) : result (option budget_overview) :=
  match budgets with
  | [] => Ok None
  | _ =>
      let spending := category_spending budgets transactions (strftime_Y_m today) in
      rs ← map_result (view_budgets_row spending) budgets;
      let total_budget := sum (map row_budget rs) in
      let total_spent := sum (map row_spent rs) in
      overall ← utilization total_spent total_budget;
      Ok (Some {| rows := rs;
                  total_budget_amount := total_budget;
                  total_spent_amount := total_spent;
                  overall_utilization_percent := overall;
                  over_budget_categories :=
                    map row_category
                      (List.filter (fun r => match row_status r with OVER => true | _ => false end) rs) |})
  end.

(** ** analytics.py: budget performance of [generate_monthly_report] *)

(** [spent > budget.amount], then [spent > budget.amount * 0.7]. *)
Definition report_status (spent amount : Z) : result status :=
  if amount <? spent then Ok OVER
  else
    a ← of_int amount;
    if lt_int (mul a f0_7) spent then Ok WARNING else Ok OK.

Record report_row := {
  rep_category : string;
  rep_budget : Z;
  rep_spent : Z;
  rep_status : status
}.

Definition report_budget_row (spending : gmap string Z) (budget : Budget.t) : result report_row :=
  let spent := get0 spending (Budget.category budget) in
  st ← report_status spent (Budget.amount budget);
  Ok {| rep_category := Budget.category budget;
        rep_budget := Budget.amount budget;
        rep_spent := spent;
        rep_status := st |}.

(** Section 4 of the report: the table, [None] without budgets. *)
Definition budget_performance (today : datetime) (transactions : list Transaction.t)
    (budgets : list Budget.t) : result (option (list report_row)) :=
  match budgets with
  | [] => Ok None
  | _ =>
      let spending := category_spending budgets transactions (strftime_Y_m today) in
      rs ← map_result (report_budget_row spending) budgets;
      Ok (Some rs)
  end.

(** ** analytics.py: [financial_health_score] *)

Inductive band := Excellent | Good | Fair | NeedsAttention.

Definition interpretation (score : Z) : band :=
  if 80 <=? score then Excellent
  else if 60 <=? score then Good
  else if 40 <=? score then Fair
  else NeedsAttention.

Record health_report := {
  savings_score : option Z;        (* [None]: "N/A (No income)" *)
  budget_adherence_score : Z;
  income_vs_expense_score : Z;
  debt_score : Z;
  score : Z;
  score_band : band
}.

(** Factor 1; [None] without income. *)
Definition savings_factor (total_income_cm total_spending_cm : Z) : result (option Z) :=
  if 0 <? total_income_cm then
    let monthly_savings := total_income_cm - total_spending_cm in
    q ← true_div monthly_savings total_income_cm;
    savings_rate ← mul_int q 100;
    Ok (Some (if ge_int savings_rate 20 then 30
              else if ge_int savings_rate 10 then 20
              else if gt_int savings_rate 0 then 10
              else 0))
  else Ok None.

Definition over_budget_count (spending : gmap string Z) (budgets : list Budget.t) : Z :=
  Z.of_nat (length (List.filter
    (fun b => Budget.amount b <? get0 spending (Budget.category b)) budgets)).

(** Factor 2. *)
Definition adherence_factor (today : datetime) (transactions : list Transaction.t)
    (budgets : list Budget.t) : result Z :=
  match budgets with
  | [] => Ok 0
  | _ =>
      let spending := category_spending budgets transactions (strftime_Y_m today) in
      let n := over_budget_count spending budgets in
      if n =? 0 then Ok 25
      else
        half ← true_div (Z.of_nat (length budgets)) 2;
        if ge_int half n then Ok 15 else Ok 5
  end.

(** Factor 3. *)
Definition income_vs_expense_factor (total_income_cm total_spending_cm : Z) : Z :=
  if 0 <? total_income_cm then
    if total_spending_cm <? total_income_cm then 25
    else if total_income_cm =? total_spending_cm then 15
    else 5
  else 0.

(** [financial_health_score]: [None] when the ledger is empty. *)
Definition financial_health_score (today : datetime)
    (all_transactions : list Transaction.t) (all_budgets : list Budget.t)
    : result (option health_report) :=
  match all_transactions with
  | [] => Ok None
  | _ =>
      current_month_transactions ←
        filter_transactions_by_month all_transactions (year today) (month today);
      let total_income_cm := get_total_income current_month_transactions in
      let total_spending_cm := get_total_spending current_month_transactions in
      sv ← savings_factor total_income_cm total_spending_cm;
      ad ← adherence_factor today all_transactions all_budgets;
      let iv := income_vs_expense_factor total_income_cm total_spending_cm in
      let debt := 10 in
      let total := default 0 sv + ad + iv + debt in
      Ok (Some {| savings_score := sv;
                  budget_adherence_score := ad;
                  income_vs_expense_score := iv;
                  debt_score := debt;
                  score := total;
                  score_band := interpretation total |})
  end.

(** ** analytics.py: comparison with last month in [spending_analysis]

    The block that follows the two totals, [total_current_month_spending]
    and [total_last_month_spending]; [income_analysis] has the same block
    on the two incomes. *)

Inductive change :=
| Increased (change_percent : float)
| Decreased (change_percent : float)   (* carries [abs(change_percent)] *)
| RemainedSame
| OnlyCurrent                          (* nothing last month, something now *)
| NeitherMonth.                        (* nothing in either month *)

Definition percent_change (current previous : Z) : result float :=
  q ← true_div (current - previous) previous;
  mul_int q 100.

Definition compare_with_last_month (total_current total_last : Z) : result change :=
  if 0 <? total_last then
    change_percent ← percent_change total_current total_last;
    if gt_int change_percent 0 then Ok (Increased change_percent)
    else if lt_int change_percent 0 then Ok (Decreased (SFabs change_percent))
    else Ok RemainedSame
  else if 0 <? total_current then Ok OnlyCurrent
  else Ok NeitherMonth.

(** ** analytics.py: income stability in [income_analysis] *)

Inductive stability := STABLE | FLUCTUATING | NOT_ENOUGH_DATA | NO_DATA.

(** [abs(x - base) <= base * 0.1]. *)
Definition within_tenth (base x : Z) : result bool :=
  b ← of_int base;
  Ok (ge_int (mul b f0_1) (Z.abs (x - base))).

(** The classification of [income_over_months], oldest month first; [all]
    stops at the first month out of the band. *)
Definition income_stability (income_over_months : list Z) : result stability :=
  match income_over_months with
  | [t0; t1; t2] =>
      ok1 ← within_tenth t0 t1;
      ok2 ← (if (ok1 : bool) then within_tenth t0 t2 else Ok false);
      Ok (if (ok2 : bool) then STABLE else FLUCTUATING)
  | [] => Ok NO_DATA
  | _ => Ok NOT_ENOUGH_DATA
  end.

(** ** assistant.py: [get_spending_alerts] *)

Inductive alert :=
| Approaching (category : string) (utilization : number)
| Exceeded (category : string) (utilization : number)
| LargeTransaction (t : Transaction.t).

Definition alert_utilization (spending : gmap string Z) (budget : Budget.t) : result number :=
  if 0 <? Budget.amount budget
  then
    spent ← getitem spending (Budget.category budget);
    q ← true_div spent (Budget.amount budget);
    u ← mul_int q 100;
    Ok (Float u)
  else Ok (Int 0).

Definition budget_alert (spending : gmap string Z) (budget : Budget.t) : result (list alert) :=
  u ← alert_utilization spending budget;
  if number_ge u 80 && number_lt u 100 then Ok [Approaching (Budget.category budget) u]
  else if number_ge u 100 then Ok [Exceeded (Budget.category budget) u]
  else Ok [].





(** ** transactions.py: [to_paisa] *)

(** [int(round(amount * 100))]. *)
Definition to_paisa (amount : float) : result Z :=
  p ← mul_int amount 100;
  round p.

(** ** assistant.py: [smart_recommendations] *)

Inductive recommendation :=
| OverBudget (over_budget_categories : list string)
| LowSavingsRate (savings_rate : float)
| NoBudgets
| GoodPerformance.

(** What is printed: the numbered list, or the line that there is nothing
    to recommend. *)
Inductive recommendations_output :=
| Listed (recommendations : list recommendation)
| NoSpecificRecommendations.

(** Recommendation 1: the budgets with [category_spending[b.category] >
    b.amount]. *)
Definition over_budget_recommendation (today : datetime)
    (all_transactions : list Transaction.t) (all_budgets : list Budget.t)
    : result (list recommendation) :=
  match all_budgets with
  | [] => Ok []
  | _ =>
      let spending := category_spending all_budgets all_transactions (strftime_Y_m today) in
      over ← filter_result
               (fun b => spent ← getitem spending (Budget.category b);
                         Ok (Budget.amount b <? spent))
               all_budgets;
      Ok (match over with
          | [] => []
          | _ => [OverBudget (map Budget.category over)]
          end)
  end.

(** Recommendation 2: a savings rate below 10. *)
Definition low_savings_recommendation (total_income total_spending : Z)
    : result (list recommendation) :=
  if 0 <? total_income then
    q ← true_div (total_income - total_spending) total_income;
    savings_rate ← mul_int q 100;
    Ok (if lt_int savings_rate 10 then [LowSavingsRate savings_rate] else [])
  else Ok [].

Definition smart_recommendations (today : datetime)
    (all_transactions : list Transaction.t) (all_budgets : list Budget.t)
    : result recommendations_output :=
  r1 ← over_budget_recommendation today all_transactions all_budgets;
  current_month_transactions ←
    filter_transactions_by_month all_transactions (year today) (month today);
  let total_income := get_total_income current_month_transactions in
  let total_spending := get_total_spending current_month_transactions in
  r2 ← low_savings_recommendation total_income total_spending;
  let r3 := match all_budgets with [] => [NoBudgets] | _ => [] end in
  let recommendations := r1 ++ r2 ++ r3 in
  let recommendations :=
    match all_budgets, recommendations with
    | _ :: _, [] => [GoodPerformance]
    | _, _ => recommendations
    end in
  Ok (match recommendations with
      | [] => NoSpecificRecommendations
      | _ => Listed recommendations
      end).

(** ** Dates of the trends *)

(** [d - timedelta(days=1)]; OverflowError before the first day of year 1. *)
Definition prev_day (d : datetime) : result datetime :=
  if 1 <? day d then Ok {| year := year d; month := month d; day := day d - 1 |}
  else if 1 <? month d
  then Ok {| year := year d; month := month d - 1;
             day := days_in_month (year d) (month d - 1) |}
  else if 1 <? year d then Ok {| year := year d - 1; month := 12; day := 31 |}
  else Raise OverflowError.

(** [d + timedelta(days=1)]; OverflowError after the last day of year 9999. *)
Definition next_day (d : datetime) : result datetime :=
  if day d <? days_in_month (year d) (month d)
  then Ok {| year := year d; month := month d; day := day d + 1 |}
  else if month d <? 12 then Ok {| year := year d; month := month d + 1; day := 1 |}
  else if year d <? 9999 then Ok {| year := year d + 1; month := 1; day := 1 |}
  else Raise OverflowError.

(** [d - timedelta(days=n)] and [d + timedelta(days=n)]. *)
Fixpoint minus_days (d : datetime) (n : nat) : result datetime :=
  match n with
  | O => Ok d
  | S n' => d' ← prev_day d; minus_days d' n'
  end.

Fixpoint plus_days (d : datetime) (n : nat) : result datetime :=
  match n with
  | O => Ok d
  | S n' => d' ← next_day d; plus_days d' n'
  end.

(** [d.replace(day=1)]. *)
Definition replace_day_1 (d : datetime) : datetime :=
  {| year := year d; month := month d; day := 1 |}.

(** [today.replace(day=1) - timedelta(days=1)]. *)
Definition last_month_date (today : datetime) : result datetime :=
  minus_days (replace_day_1 today) 1.

(** [today.replace(day=1) - timedelta(days=30*i)]. *)
Definition month_date (today : datetime) (i : nat) : result datetime :=
  minus_days (replace_day_1 today) (30 * i).

(** The loop of the three trends, [for i in range(3)], and the reversal
    that follows it: the value of each period with its date, oldest first. *)
Definition over_months {A : Type} (value : list Transaction.t -> A)
    (today : datetime) (all_transactions : list Transaction.t)
    : result (list (datetime * A)) :=
  l ← map_result
        (fun i =>
           d ← month_date today i;
           m_transactions ← filter_transactions_by_month all_transactions (year d) (month d);
           Ok (d, value m_transactions))
        [0; 1; 2]%nat;
  Ok (rev l).

(** [income_over_months] of [income_analysis], and its classification. *)
Definition income_over_months (today : datetime) (all_transactions : list Transaction.t)
    : result (list Z) :=
  l ← over_months get_total_income today all_transactions;
  Ok (map snd l).

Definition income_analysis_stability (today : datetime)
    (all_transactions : list Transaction.t) : result stability :=
  l ← income_over_months today all_transactions;
  income_stability l.

(** The days of the month of [today], as [daily_financial_check] finds
    them: [(today.replace(day=1) + timedelta(days=32)).replace(day=1) -
    timedelta(days=1)], of which the day is taken. *)
Definition days_in_month_of (today : datetime) : result Z :=
  d ← plus_days (replace_day_1 today) 32;
  last ← minus_days (replace_day_1 d) 1;
  Ok (day last).

(** ** transactions.py: the date that [get_valid_date] offers *)

(** [d.strftime("%Y-%m-%d")], for a year of four digits. *)
Definition strftime_Y_m_d (d : datetime) : string :=
  string_of_list_ascii
    [digit_char (year d / 1000); digit_char (year d / 100);
     digit_char (year d / 10); digit_char (year d);
     "-"%char; digit_char (month d / 10); digit_char (month d);
     "-"%char; digit_char (day d / 10); digit_char (day d)].

(** [get_valid_date]: the answers to the prompt are read until one of them
    parses; [None] when the answers run out. *)
Fixpoint get_valid_date (answers : list string) : result (option string) :=
  match answers with
  | [] => Ok None
  | date_str :: rest =>
      match strptime date_str with
      | Ok _ => Ok (Some date_str)
      | Raise ValueError => get_valid_date rest
      | Raise e => Raise e
      end
  end.

(** ** Text and files

    A text is the list of its characters, of code points below 256. The
    two files of the program, [database/budgets.txt] and
    [database/transactions.txt], are each [None] as long as the file does
    not exist and the characters of the file afterwards. *)

Definition LF : ascii := "010"%char.
Definition CR : ascii := "013"%char.

(** [c.isspace()]. *)
Definition isspace (c : ascii) : bool :=
  let n := Z.of_N (N_of_ascii c) in
  ((9 <=? n) && (n <=? 13)) || ((28 <=? n) && (n <=? 32)) || (n =? 133) || (n =? 160).

Fixpoint lstrip (cs : list ascii) : list ascii :=
  match cs with
  | c :: cs' => if isspace c then lstrip cs' else cs
  | [] => []
  end.

Definition rstrip (cs : list ascii) : list ascii := rev (lstrip (rev cs)).

(** [s.strip()]. *)
Definition strip (cs : list ascii) : list ascii := rstrip (lstrip cs).

(** Splits at the first [","]. *)
Fixpoint partition_comma (cs : list ascii) : option (list ascii * list ascii) :=
  match cs with
  | [] => None
  | c :: cs' =>
      if Ascii.eqb c "," then Some ([], cs')
      else match partition_comma cs' with
           | Some (a, b) => Some (c :: a, b)
           | None => None
           end
  end.

(** [s.split(",", maxsplit)]. *)
Fixpoint split_comma (maxsplit : nat) (cs : list ascii) : list (list ascii) :=
  match maxsplit with
  | O => [cs]
  | S n =>
      match partition_comma cs with
      | Some (a, b) => a :: split_comma n b
      | None => [cs]
      end
  end.

(** What may follow a digit of an integer literal: more digits, each
    after at most one underscore. The value and the number of digits. *)
Fixpoint int_digits (cs : list ascii) (acc n : Z) : option (Z * Z) :=
  match cs with
  | [] => Some (acc, n)
  | c :: cs' =>
      if Ascii.eqb c "_"
      then match cs' with
           | d :: cs'' =>
               match digit_value d with
               | Some v => int_digits cs'' (10 * acc + v) (n + 1)
               | None => None
               end
           | [] => None
           end
      else match digit_value c with
           | Some v => int_digits cs' (10 * acc + v) (n + 1)
           | None => None
           end
  end.

(** The digits of an integer literal: a digit first. *)
Definition int_literal (cs : list ascii) : option (Z * Z) :=
  match cs with
  | c :: r =>
      match digit_value c with
      | Some v => int_digits r v 1
      | None => None
      end
  | [] => None
  end.

(** [int(s)] on a string: white space around, a sign, digits; ValueError
    on anything else, and on more than 4300 digits. *)
Definition int_of_string (cs : list ascii) : result Z :=
  let s := strip cs in
  let signed :=
    match s with
    | c :: r => if Ascii.eqb c "-" then (true, r)
                else if Ascii.eqb c "+" then (false, r)
                else (false, s)
    | [] => (false, [])
    end in
  match int_literal (snd signed) with
  | Some (z, n) =>
      if 4300 <? n then Raise ValueError
      else Ok (if fst signed then - z else z)
  | None => Raise ValueError
  end.

(** [str(z)], as an f-string formats an integer: ValueError beyond 4300
    digits. *)
Definition str_int (z : Z) : result (list ascii) :=
  let d := Z.to_int z in
  let digits := match d with Decimal.Pos u | Decimal.Neg u => u end in
  if 4300 <? Z.of_nat (Decimal.nb_digits digits) then Raise ValueError
  else Ok (list_ascii_of_string (DecimalString.NilZero.string_of_int d)).

(** Reading in text mode: ["\r\n"] and ["\r"] are read as ["\n"];
    [pendingcr] tells that the character before was a ["\r"]. *)
Fixpoint decode_newlines (pendingcr : bool) (cs : list ascii) : list ascii :=
  match cs with
  | [] => []
  | c :: cs' =>
      if Ascii.eqb c CR then LF :: decode_newlines true cs'
      else if Ascii.eqb c LF && pendingcr then decode_newlines false cs'
      else c :: decode_newlines false cs'
  end.

Definition translate_newlines (cs : list ascii) : list ascii :=
  decode_newlines false cs.

(** The lines of a text, each with its ["\n"], which the last one may lack. *)
Fixpoint readlines (cs : list ascii) : list (list ascii) :=
  match cs with
  | [] => []
  | c :: cs' =>
      if Ascii.eqb c LF then [c] :: readlines cs'
      else match readlines cs' with
           | [] => [[c]]
           | l :: ls => (c :: l) :: ls
           end
  end.

(** [for line in f], with [try: ... except ValueError: (skip)] around the
    parsing of each line. *)
Fixpoint load_lines {A : Type} (parse : list ascii -> result A)
    (lines : list (list ascii)) : result (list A) :=
  match lines with
  | [] => Ok []
  | line :: rest =>
      match parse line with
      | Ok a => l ← load_lines parse rest; Ok (a :: l)
      | Raise ValueError => load_lines parse rest
      | Raise e => Raise e
      end
  end.

Definition load_file {A : Type} (parse : list ascii -> result A)
    (file : option (list ascii)) : result (list A) :=
  match file with
  | None => Ok []
  | Some content => load_lines parse (readlines (translate_newlines content))
  end.

(** ** budgets.py: [load_budgets], [save_budgets], [set_budget] *)

Definition parse_budget (line : list ascii) : result Budget.t :=
  match split_comma 1 (strip line) with
  | [category; amount_paisa_str] =>
      amount ← int_of_string amount_paisa_str;
      Ok (Budget.mk (string_of_list_ascii category) amount)
  | _ => Raise ValueError
  end.

Definition load_budgets (file : option (list ascii)) : result (list Budget.t) :=
  load_file parse_budget file.

(** [f"{budget.category},{budget.amount}\n"]. *)
Definition budget_line (budget : Budget.t) : result (list ascii) :=
  amount ← str_int (Budget.amount budget);
  Ok (list_ascii_of_string (Budget.category budget) ++ ","%char :: amount ++ [LF]).

(** The writes of [save_budgets] after the characters [written]: the
    text of the file when the loop ends or stops, and how it ended. *)
Fixpoint write_budgets (budgets : list Budget.t) (written : list ascii)
    : list ascii * result unit :=
  match budgets with
  | [] => (written, Ok tt)
  | budget :: rest =>
      match budget_line budget with
      | Ok line => write_budgets rest (written ++ line)
      | Raise e => (written, Raise e)
      end
  end.

(** [save_budgets]: the file is opened for writing, which empties it. *)
Definition save_budgets (budgets : list Budget.t) : option (list ascii) * result unit :=
  let (text, r) := write_budgets budgets [] in (Some text, r).

(** The loop of [set_budget] with its [break]: the first budget of the
    category is replaced; [None] when there is none. *)
Fixpoint replace_budget (category : string) (amount : Z)
    (current_budgets : list Budget.t) : option (list Budget.t) :=
  match current_budgets with
  | [] => None
  | budget :: rest =>
      if String.eqb (Budget.category budget) category
      then Some (Budget.mk category amount :: rest)
      else match replace_budget category amount rest with
           | Some l => Some (budget :: l)
           | None => None
           end
  end.

Definition updated_budgets (category : string) (amount : Z)
    (current_budgets : list Budget.t) : list Budget.t :=
  match replace_budget category amount current_budgets with
  | Some l => l
  | None => current_budgets ++ [Budget.mk category amount]
  end.

(** [set_budget], with the category and the amount that were entered. *)
Definition set_budget (category : string) (amount : Z) (file : option (list ascii))
    : option (list ascii) * result unit :=
  match load_budgets file with
  | Ok current_budgets => save_budgets (updated_budgets category amount current_budgets)
  | Raise e => (file, Raise e)
  end.

(** ** transactions.py: [load_transactions], [save_transaction] *)

Definition parse_transaction (line : list ascii) : result Transaction.t :=
  match split_comma 4 (strip line) with
  | [date_str; type_str; category; description; amount_paisa_str] =>
      amount ← int_of_string amount_paisa_str;
      Ok (Transaction.mk (string_of_list_ascii date_str) (string_of_list_ascii type_str)
            (string_of_list_ascii category) (string_of_list_ascii description) amount)
  | _ => Raise ValueError
  end.

Definition load_transactions (file : option (list ascii)) : result (list Transaction.t) :=
  load_file parse_transaction file.

Definition transaction_line (transaction : Transaction.t) : result (list ascii) :=
  amount ← str_int (Transaction.amount transaction);
  Ok (list_ascii_of_string (Transaction.date transaction) ++ ","%char ::
      list_ascii_of_string (Transaction.type transaction) ++ ","%char ::
      list_ascii_of_string (Transaction.category transaction) ++ ","%char ::
      list_ascii_of_string (Transaction.description transaction) ++ ","%char ::
      amount ++ [LF]).

(** [save_transaction]: the file is opened for appending, which creates
    it, and the line is written at its end. *)
Definition save_transaction (transaction : Transaction.t) (file : option (list ascii))
    : option (list ascii) * result unit :=
  let text := default [] file in
  match transaction_line transaction with
  | Ok line => (Some (text ++ line), Ok tt)
  | Raise e => (Some text, Raise e)
  end.


(** [add_expense] and [add_income], with the answers to their prompts. *)
Definition add_expense (amount : Z) (category description date : string)
    (file : option (list ascii)) : option (list ascii) * result unit :=
  save_transaction (Transaction.mk date "expense" category description amount) file.


(** ** Sorting, as [sorted(..., key=..., reverse=True)] does *)

(** [t] is put before the first element whose key is not above its own:
    among equal keys the order of the input is kept, as Python's stable
    sort keeps it, also with [reverse=True]. *)
Fixpoint insert_desc {A : Type} (key : A -> Z) (t : A) (l : list A) : list A :=
  match l with
  | [] => [t]
  | u :: l' => if key t <? key u then u :: insert_desc key t l' else t :: l
  end.

Definition sorted_desc {A : Type} (key : A -> Z) (l : list A) : list A :=
  fold_right (insert_desc key) [] l.

(** ** analytics.py: the top expenses of [generate_monthly_report] *)

Definition top_expenses (current_month_transactions : list Transaction.t)
    : list Transaction.t :=
  firstn 5
    (sorted_desc Transaction.amount (List.filter is_expense current_month_transactions)).

(** ** transactions.py: [display_balance] and the footer of
    [list_transactions] *)

Record balance := {
  total_income : Z;
  total_expense : Z;
  total_balance : Z
}.

(** [display_balance]: [None] when the ledger is empty. Within the month
    whatever is not an income counts as an expense. *)
Definition display_balance (today : datetime) (transactions : list Transaction.t)
    : option balance :=
  match transactions with
  | [] => None
  | _ =>
      let current_month := strftime_Y_m today in
      let totals :=
        fold_left
          (fun (acc : Z * Z) t =>
             if startswith (Transaction.date t) current_month
             then if is_income t
                  then (fst acc + Transaction.amount t, snd acc)
                  else (fst acc, snd acc + Transaction.amount t)
             else acc)
          transactions (0, 0) in
      Some {| total_income := fst totals;
              total_expense := snd totals;
              total_balance := fst totals - snd totals |}
  end.

(** The footer of the table of [list_transactions], over the rows that
    are shown: whatever is not an expense counts as an income. *)
Definition list_footer (filtered_transactions : list Transaction.t) : balance :=
  let totals :=
    fold_left
      (fun (acc : Z * Z) t =>
         if is_expense t
         then (fst acc, snd acc + Transaction.amount t)
         else (fst acc + Transaction.amount t, snd acc))
      filtered_transactions (0, 0) in
  {| total_income := fst totals;
     total_expense := snd totals;
     total_balance := fst totals - snd totals |}.

(** ** transactions.py: [list_transactions] *)

(** [d.toordinal()]: the number of the day, day 1 being the first of
    January of year 1. *)
Definition days_before_year (y : Z) : Z :=
  (y - 1) * 365 + (y - 1) / 4 - (y - 1) / 100 + (y - 1) / 400.

Definition days_before_month (y m : Z) : Z :=
  match m with
  | 1 => 0 | 2 => 31 | 3 => 59 | 4 => 90 | 5 => 120 | 6 => 151 | 7 => 181
  | 8 => 212 | 9 => 243 | 10 => 273 | 11 => 304 | _ => 334
  end + (if (2 <? m) && is_leap y then 1 else 0).

Definition toordinal (d : datetime) : Z :=
  days_before_year (year d) + days_before_month (year d) (month d) + day d.

Inductive filter_choice := All | Last7Days | OnlyExpenses | OnlyIncome.

(** Whether a row is shown. [(today - transaction_date).days] is the
    difference of the two days, whatever the time of [today] is. *)
Definition include (today : datetime) (choice : filter_choice) (t : Transaction.t)
    : result bool :=
  transaction_date ← strptime (Transaction.date t);
  Ok (match choice with
      | All => true
      | Last7Days => negb (7 <? toordinal today - toordinal transaction_date)
      | OnlyExpenses => is_expense t
      | OnlyIncome => is_income t
      end).


(** * Vocabulary of the properties *)

Definition parseable (s : string) : bool :=
  match strptime s with Ok _ => true | Raise _ => false end.

(** The date of [t] names year [y] and month [m]. *)
Definition has_year_month (y m : Z) (t : Transaction.t) : bool :=
  match strptime (Transaction.date t) with
  | Ok d => (year d =? y) && (month d =? m)
  | Raise _ => false
  end.

(** What is printed for a percent change that was computed. *)
Definition change_of_percent (change_percent : float) : change :=
  if gt_int change_percent 0 then Increased change_percent
  else if lt_int change_percent 0 then Decreased (SFabs change_percent)
  else RemainedSame.

(** [|ti - t0| <= 0.1 * t0], on rationals. *)
Definition in_band (t0 ti : Z) : Prop :=
  (inject_Z (Z.abs (ti - t0)) <= (1 # 10) * inject_Z t0)%Q.


(** [n] is an integer nearest to [v], the even one of the two when [v] is
    halfway. *)
Definition nearest_even (n : Z) (v : Q) : Prop :=
  (Qabs (inject_Z n - v) <= 1 # 2)%Q
  /\ ((Qabs (inject_Z n - v) == 1 # 2)%Q -> Z.even n = true).

(** The remainder [R] left below a mantissa, against the unit [D], as the
    round and sticky bits record it. *)
Definition loc_ok (x : shr_record) (R D : Z) : Prop :=
  match shr_r x, shr_s x with
  | false, false => R = 0
  | false, true => 0 < R /\ 2 * R < D
  | true, false => 2 * R = D
  | true, true => D < 2 * R
  end.

(** [x] holds [X / Y] shifted right by [k] bits. *)
Definition shr_inv (X Y k : Z) (x : shr_record) : Prop :=
  0 <= shr_m x
  /\ 0 <= X - shr_m x * (2 ^ k * Y) < 2 ^ k * Y
  /\ loc_ok x (X - shr_m x * (2 ^ k * Y)) (2 ^ k * Y).

(** The float of sign [sx] and value [m1 * 2 ^ e], for a rounded mantissa
    [0 <= m1 <= 2 ^ 53]. *)
Definition pack (sx : bool) (m1 e : Z) : float :=
  if m1 =? 0 then S754_zero sx
  else if m1 <? 2 ^ 53 then
    (if e <=? 971 then S754_finite sx (Z.to_pos m1) e else S754_infinity sx)
  else
    (if e + 1 <=? 971 then S754_finite sx (Z.to_pos (2 ^ 52)) (e + 1)
     else S754_infinity sx).

(** A budget of [budgets] has the category [c]. *)
Definition budgeted (budgets : list Budget.t) (c : string) : bool :=
  existsb (fun b => String.eqb (Budget.category b) c) budgets.

(** The transactions of category [c] among those that [keep] holds of. *)
Definition of_category (keep : Transaction.t -> bool) (c : string)
    (transactions : list Transaction.t) : list Transaction.t :=
  List.filter (fun t => keep t && String.eqb (Transaction.category t) c) transactions.

(** An expense whose date starts with [current_month_str]. *)
Definition month_expense (current_month_str : string) (t : Transaction.t) : bool :=
  startswith (Transaction.date t) current_month_str && is_expense t.

(** The total of the amounts. *)
Definition total (transactions : list Transaction.t) : Z :=
  sum (map Transaction.amount transactions).

(** The year and the month of a date. *)
Definition year_month (d : datetime) : Z * Z := (year d, month d).

(** The month before the month [m] of the year [y]. *)
Definition month_before (p : Z * Z) : Z * Z :=
  if snd p =? 1 then (fst p - 1, 12) else (fst p, snd p - 1).

(** A date of the calendar with a year of four digits. *)
Definition valid_date (d : datetime) : Prop :=
  1000 <= year d <= 9999
  /\ 1 <= month d <= 12
  /\ 1 <= day d <= days_in_month (year d) (month d).

(** The transaction is dated in the current month by the prefix of its
    date string, as the budget views and [display_balance] read it. *)
Definition in_month_by_prefix (today : datetime) (t : Transaction.t) : bool :=
  startswith (Transaction.date t) (strftime_Y_m today).

(** The date string is written as [strftime("%Y-%m-%d")] writes a date. *)
Definition canonical_date (s : string) : Prop :=
  exists d, valid_date d /\ s = strftime_Y_m_d d.

(** A character that a field of a line can hold: no comma, no end of line. *)
Definition plain (c : ascii) : bool :=
  negb (Ascii.eqb c ",") && negb (Ascii.eqb c LF) && negb (Ascii.eqb c CR).

(** A field that a line can hold. *)
Definition field_ok (s : string) : bool :=
  forallb plain (list_ascii_of_string s).

(** A field that a line can start with: it does not begin with white
    space, which [strip] would remove. *)
Definition first_field_ok (s : string) : bool :=
  field_ok s
  && match list_ascii_of_string s with
     | c :: _ => negb (isspace c)
     | [] => true
     end.

(** The least integer that has more than 4300 digits. *)
Definition digits_limit : Z := 10 ^ 4300.

(** An integer of at most 4300 digits. *)
Definition printable (z : Z) : bool := Z.abs z <? digits_limit.

(** The value of the digits [u] after the digits of value [acc]. *)
Fixpoint uint_value (acc : Z) (u : Decimal.uint) : Z :=
  match u with
  | Decimal.Nil => acc
  | Decimal.D0 r => uint_value (10 * acc + 0) r
  | Decimal.D1 r => uint_value (10 * acc + 1) r
  | Decimal.D2 r => uint_value (10 * acc + 2) r
  | Decimal.D3 r => uint_value (10 * acc + 3) r
  | Decimal.D4 r => uint_value (10 * acc + 4) r
  | Decimal.D5 r => uint_value (10 * acc + 5) r
  | Decimal.D6 r => uint_value (10 * acc + 6) r
  | Decimal.D7 r => uint_value (10 * acc + 7) r
  | Decimal.D8 r => uint_value (10 * acc + 8) r
  | Decimal.D9 r => uint_value (10 * acc + 9) r
  end.


(** The amount of the first budget of the category [c], which is the one
    that [set_budget] replaces. *)
Definition budget_of (budgets : list Budget.t) (c : string) : option Z :=
  option_map Budget.amount
    (find (fun b => String.eqb (Budget.category b) c) budgets).






(** The amounts do not increase along the list. *)
Fixpoint descending {A : Type} (key : A -> Z) (l : list A) : Prop :=
  match l with
  | [] => True
  | t :: l' => Forall (fun u => key u <= key t) l' /\ descending key l'
  end.

(** Every transaction is an income or an expense. *)
Definition typed (transactions : list Transaction.t) : bool :=
  forallb (fun t => is_income t || is_expense t) transactions.

(** A date of the calendar. *)
Definition calendar_date (d : datetime) : Prop :=
  1 <= year d /\ 1 <= month d <= 12 /\ 1 <= day d <= days_in_month (year d) (month d).



(** * Properties *)

(** Reduces a [bind] whose first operand is known. *)
Ltac result_simpl := cbn [mbind result_bind mret result_ret].

Lemma mul_int_100 (x : float) : mul_int x 100 = Ok (mul x f100).
Proof. reflexivity. Qed.

(** ** The model on some inputs *)

Example float_literals :
  f0_7 = S754_finite false 6305039478318694 (-53)
  /\ f0_20 = S754_finite false 7205759403792794 (-55)
  /\ f0_1 = S754_finite false 7205759403792794 (-56)
  /\ f100 = S754_finite false 7036874417766400 (-46)
  /\ (to_Q f100 == 100)%Q.
Proof. vm_compute. repeat split. Qed.

Example float_arithmetic :
  (q ← true_div 7000 10000; mul_int q 100) = Ok (literal 70 1)
  /\ (a ← of_int 10000; Ok (mul a f0_7)) = Ok (literal 7000 1)
  /\ true_div 1 0 = Raise ZeroDivisionError
  /\ true_div (2 ^ 1024) 1 = Raise OverflowError
  /\ of_int (2 ^ 1024) = Raise OverflowError
  /\ of_int (2 ^ 53 + 1) = Ok (literal (2 ^ 53) 1)
  /\ round (literal 5 2) = Ok 2
  /\ round (literal 7 2) = Ok 4
  /\ round (literal (-5) 2) = Ok (-2).
Proof. vm_compute. repeat split. Qed.

Example strptime_examples :
  strptime "2024-05-17" = Ok {| year := 2024; month := 5; day := 17 |}
  /\ strptime "2024-5-7" = Ok {| year := 2024; month := 5; day := 7 |}
  /\ strptime "2024-02-29" = Ok {| year := 2024; month := 2; day := 29 |}
  /\ strptime "2023-02-29" = Raise ValueError
  /\ strptime "2024-13-01" = Raise ValueError
  /\ strptime "2024-01-32" = Raise ValueError
  /\ strptime "2024-01-05 " = Raise ValueError
  /\ strptime "0000-01-01" = Raise ValueError
  /\ strptime "17/05/2024" = Raise ValueError
  /\ strptime "" = Raise ValueError
  /\ strftime_Y_m {| year := 2024; month := 5; day := 17 |} = "2024-05"
  /\ startswith "2024-05-17" "2024-05" = true
  /\ startswith "2024-5-17" "2024-05" = false.
Proof. vm_compute. repeat split. Qed.

Example category_spending_example :
  let budgets := [Budget.mk "Food" 10000; Budget.mk "Bills" 50000] in
  let ledger := [Transaction.mk "2024-05-01" "expense" "Food" "lunch" 3000;
                 Transaction.mk "2024-05-02" "expense" "Fun" "film" 1500;
                 Transaction.mk "2024-05-03" "expense" "Food" "dinner" 4000;
                 Transaction.mk "2024-04-30" "expense" "Food" "snack" 500;
                 Transaction.mk "2024-05-04" "income" "Food" "refund" 100] in
  let spending := category_spending budgets ledger "2024-05" in
  spending !! "Food" = Some 7000
  /\ spending !! "Bills" = Some 0
  /\ spending !! "Fun" = None.
Proof. vm_compute. repeat split. Qed.

(** ** Sums and grouped sums *)

Lemma fold_left_add_acc (l : list Z) (a : Z) : fold_left Z.add l a = a + sum l.
Proof.
  unfold sum. revert a.
  induction l as [|x l IH]; intros a; simpl; [lia|].
  rewrite (IH (a + x)), (IH (0 + x)). lia.
Qed.

Lemma sum_cons (x : Z) (l : list Z) : sum (x :: l) = x + sum l.
Proof. unfold sum at 1. simpl. apply fold_left_add_acc. Qed.

Lemma sum_values_empty : sum_values ∅ = 0.
Proof. apply map_fold_empty. Qed.

Lemma sum_values_insert_fresh (k : string) (v : Z) (d : gmap string Z) :
  d !! k = None -> sum_values (<[k := v]> d) = sum_values d + v.
Proof.
  intros Hk. unfold sum_values.
  rewrite map_fold_insert_L; [reflexivity | intros; lia | exact Hk].
Qed.

Lemma sum_values_delete (k : string) (v : Z) (d : gmap string Z) :
  d !! k = Some v -> sum_values d = sum_values (delete k d) + v.
Proof.
  intros Hk. unfold sum_values.
  rewrite (map_fold_delete_L _ _ k v d); [reflexivity | intros; lia | exact Hk].
Qed.

Lemma sum_values_add_to (k : string) (v : Z) (d : gmap string Z) :
  sum_values (add_to k v d) = sum_values d + v.
Proof.
  unfold add_to. destruct (d !! k) as [old|] eqn:Hk; simpl.
  - rewrite <- insert_delete_eq.
    rewrite sum_values_insert_fresh by apply lookup_delete_eq.
    rewrite (sum_values_delete k old d Hk). lia.
  - rewrite sum_values_insert_fresh by exact Hk. lia.
Qed.

Lemma spending_fold_total (ts : list Transaction.t) (d : gmap string Z) :
  sum_values
    (fold_left
       (fun (d : gmap string Z) t =>
          if is_expense t
          then add_to (Transaction.category t) (Transaction.amount t) d
          else d) ts d)
  = sum_values d + get_total_spending ts.
Proof.
  unfold get_total_spending. revert d.
  induction ts as [|t ts IH]; intros d; simpl.
  - unfold sum. simpl. lia.
  - rewrite IH. destruct (is_expense t); simpl.
    + rewrite sum_values_add_to, sum_cons. lia.
    + reflexivity.
Qed.

(** C7. The values of the expenses grouped by category add up to the total
    of the expenses, for every list of transactions. *)
Theorem spending_by_category_adds_up (transactions : list Transaction.t) :
  sum_values (get_monthly_spending_by_category transactions)
  = get_total_spending transactions.
Proof.
  unfold get_monthly_spending_by_category.
  rewrite spending_fold_total, sum_values_empty. lia.
Qed.

Example grouped_spending_example :
  let ts := [Transaction.mk "2024-05-01" "expense" "Food" "lunch" 3000;
             Transaction.mk "2024-05-02" "income" "Salary" "pay" 90000;
             Transaction.mk "2024-05-03" "expense" "Food" "dinner" 4000;
             Transaction.mk "2024-04-03" "expense" "Fun" "film" 1500] in
  get_monthly_spending_by_category ts !! "Food" = Some 7000
  /\ get_monthly_spending_by_category ts !! "Salary" = None
  /\ sum_values (get_monthly_spending_by_category ts) = 8500.
Proof. vm_compute. auto. Qed.

(** ** The filter by month *)

Lemma strptime_raises (s : string) (e : exn) : strptime s = Raise e -> e = ValueError.
Proof.
  unfold strptime. intros H.
  repeat match type of H with
         | context [match ?x with _ => _ end] => destruct x
         end; congruence.
Qed.

Lemma in_month_parsed (y m : Z) (t : Transaction.t) :
  parseable (Transaction.date t) = true ->
  in_month y m t = Ok (has_year_month y m t).
Proof.
  unfold parseable, in_month, has_year_month.
  destruct (strptime (Transaction.date t)) as [d|e]; [intros _ | discriminate].
  simpl. destruct (year d =? y); reflexivity.
Qed.

Lemma in_month_unparsed (y m : Z) (t : Transaction.t) :
  parseable (Transaction.date t) = false ->
  in_month y m t = Raise ValueError.
Proof.
  unfold parseable, in_month.
  destruct (strptime (Transaction.date t)) as [d|e] eqn:E; [discriminate | intros _].
  simpl. apply strptime_raises in E. congruence.
Qed.

(** The filter, in one equation. *)
Lemma filter_transactions_by_month_eq
    (transactions : list Transaction.t) (y m : Z) :
  filter_transactions_by_month transactions y m =
  if forallb (fun t => parseable (Transaction.date t)) transactions
  then Ok (List.filter (has_year_month y m) transactions)
  else Raise ValueError.
Proof.
  unfold filter_transactions_by_month.
  induction transactions as [|t ts IH]; simpl; [reflexivity|].
  destruct (parseable (Transaction.date t)) eqn:Ep; simpl.
  - rewrite (in_month_parsed y m t Ep). simpl. rewrite IH.
    destruct (forallb _ ts); reflexivity.
  - rewrite (in_month_unparsed y m t Ep). reflexivity.
Qed.

(** C9. [filter_transactions_by_month] returns exactly the transactions
    whose date has the year and the month asked for, in their order, when
    every date of the input parses; when some date does not parse it
    raises ValueError, whatever the other transactions are. *)
Theorem filter_transactions_by_month_spec
    (transactions : list Transaction.t) (y m : Z) :
  (forallb (fun t => parseable (Transaction.date t)) transactions = true ->
   filter_transactions_by_month transactions y m =
     Ok (List.filter (has_year_month y m) transactions))
  /\ (forall t, In t transactions ->
        (exists e, strptime (Transaction.date t) = Raise e) ->
        filter_transactions_by_month transactions y m = Raise ValueError).
Proof.
  rewrite filter_transactions_by_month_eq. split.
  - intros ->. reflexivity.
  - intros t Hin [e He].
    destruct (forallb _ transactions) eqn:Hall; [|reflexivity].
    rewrite forallb_forall in Hall. specialize (Hall t Hin).
    unfold parseable in Hall. rewrite He in Hall. discriminate.
Qed.

Lemma filter_transactions_by_month_spec_witness :
  let a := Transaction.mk "2024-05-01" "expense" "Food" "lunch" 3000 in
  let b := Transaction.mk "2024-04-30" "expense" "Food" "dinner" 4000 in
  let c := Transaction.mk "2024-5-9" "income" "Salary" "pay" 90000 in
  let bad := Transaction.mk "2024-02-30" "expense" "Fun" "film" 1500 in
  filter_transactions_by_month [a; b; c] 2024 5 = Ok [a; c]
  /\ filter_transactions_by_month [a; bad; c] 2024 5 = Raise ValueError.
Proof.
  intros a b c bad. split.
  - apply (proj1 (filter_transactions_by_month_spec [a; b; c] 2024 5)).
    vm_compute. reflexivity.
  - apply (proj2 (filter_transactions_by_month_spec [a; bad; c] 2024 5) bad).
    + cbn [In]. auto.
    + exists ValueError. vm_compute. reflexivity.
Defined.

(** ** Budget status *)

Lemma view_budgets_status_cases (u : number) :
  (view_budgets_status u = OVER <-> number_ge u 100 = true)
  /\ (view_budgets_status u = WARNING <->
        number_ge u 100 = false /\ number_ge u 70 = true)
  /\ (view_budgets_status u = OK <->
        number_ge u 100 = false /\ number_ge u 70 = false).
Proof.
  unfold view_budgets_status.
  destruct (number_ge u 100), (number_ge u 70); intuition congruence.
Qed.

(** C1. At the two boundaries the two classifiers of the program part:
    with a budget of 10000 spent exactly, [view_budgets] says OVER and the
    monthly report says WARNING; with 7000 spent, [view_budgets] says
    WARNING and the monthly report says OK. They agree below (6999) and
    above (10001). *)
Theorem budget_status_at_boundaries :
  let today := {| year := 2024; month := 5; day := 17 |} in
  let food := Budget.mk "Food" 10000 in
  let spent a := [Transaction.mk "2024-05-03" "expense" "Food" "groceries" a] in
  let overview a :=
    o ← view_budgets today (spent a) [food];
    Ok (map row_status (default [] (rows <$> o))) in
  let report a :=
    o ← budget_performance today (spent a) [food];
    Ok (map rep_status (default [] o)) in
  (overview 10000 = Ok [OVER] /\ report 10000 = Ok [WARNING])
  /\ (overview 7000 = Ok [WARNING] /\ report 7000 = Ok [OK])
  /\ (overview 6999 = Ok [OK] /\ report 6999 = Ok [OK])
  /\ (overview 10001 = Ok [OVER] /\ report 10001 = Ok [OVER]).
Proof. vm_compute. repeat split. Qed.



(** ** Rounding to 53 bits

    What [SpecFloat] computes by shifting a mantissa and keeping a round
    bit and a sticky bit, stated on integers: the mantissa of the result
    is [round_half_even] of the exact quotient. *)

Lemma fexp_eq (z : Z) : fexp prec emax z = Z.max (z - 53) (-1074).
Proof. reflexivity. Qed.

Lemma digits2_pos_bounds (p : positive) :
  2 ^ (Zpos (digits2_pos p) - 1) <= Zpos p < 2 ^ Zpos (digits2_pos p).
Proof.
  induction p as [p IH|p IH|]; cbn [digits2_pos].
  - rewrite Pos2Z.inj_succ, (Pos2Z.inj_xI p).
    replace (Z.succ (Zpos (digits2_pos p)) - 1)
      with (Z.succ (Zpos (digits2_pos p) - 1)) by lia.
    rewrite !Z.pow_succ_r by lia. lia.
  - rewrite Pos2Z.inj_succ, (Pos2Z.inj_xO p).
    replace (Z.succ (Zpos (digits2_pos p)) - 1)
      with (Z.succ (Zpos (digits2_pos p) - 1)) by lia.
    rewrite !Z.pow_succ_r by lia. lia.
  - simpl. lia.
Qed.

Lemma Zdigits2_bounds (q : Z) :
  0 < q -> 2 ^ (Zdigits2 q - 1) <= q < 2 ^ Zdigits2 q.
Proof.
  destruct q as [|p|p]; try lia. intros _. apply digits2_pos_bounds.
Qed.

Lemma Zdigits2_pos (q : Z) : 0 < q -> 0 < Zdigits2 q.
Proof. destruct q; simpl; lia. Qed.

Lemma Zdigits2_le (q j : Z) : 0 < q -> q < 2 ^ j -> Zdigits2 q <= j.
Proof.
  intros Hq Hj. pose proof (Zdigits2_bounds q Hq) as [Hlo _].
  destruct (Z.le_gt_cases (Zdigits2 q) j) as [|Hgt]; [assumption|].
  assert (2 ^ j <= 2 ^ (Zdigits2 q - 1)) by (apply Z.pow_le_mono_r; lia).
  lia.
Qed.

Lemma Zdigits2_gt (q j : Z) : 0 <= j -> 2 ^ j <= q -> j < Zdigits2 q.
Proof.
  intros Hj Hq.
  assert (0 < q) by (pose proof (Z.pow_pos_nonneg 2 j); lia).
  pose proof (Zdigits2_bounds q H) as [_ Hhi].
  destruct (Z.lt_ge_cases j (Zdigits2 q)) as [|Hge]; [assumption|].
  assert (2 ^ Zdigits2 q <= 2 ^ j) by (apply Z.pow_le_mono_r; lia).
  lia.
Qed.

Lemma shr_1_inv (X Y k : Z) (x : shr_record) :
  0 < Y -> 0 <= k -> shr_inv X Y k x -> shr_inv X Y (k + 1) (shr_1 x).
Proof.
  intros HY Hk. unfold shr_inv, loc_ok.
  rewrite Z.pow_add_r by lia. change (2 ^ 1) with 2.
  assert (0 < 2 ^ k * Y) as HU by (pose proof (Z.pow_pos_nonneg 2 k); nia).
  set (U := 2 ^ k * Y) in *.
  replace (2 ^ k * 2 * Y) with (2 * U) by (subst U; ring).
  destruct x as [m r s]. cbn [shr_m shr_r shr_s].
  intros (Hm & HR & Hloc).
  destruct m as [|[p|p|]|p]; try lia; cbn [shr_1 shr_m shr_r shr_s];
    rewrite ?(Pos2Z.inj_xI p), ?(Pos2Z.inj_xO p) in *;
    destruct r, s; cbn [orb] in *; lia.
Qed.

Lemma iter_pos_shr_inv (X Y : Z) (n : positive) :
  0 < Y -> forall k x, 0 <= k -> shr_inv X Y k x ->
  shr_inv X Y (k + Zpos n) (SpecFloat.iter_pos shr_1 n x).
Proof.
  intros HY. induction n as [n IH|n IH|]; intros k x Hk Hx; cbn [SpecFloat.iter_pos].
  - replace (k + Zpos n~1) with (k + 1 + Zpos n + Zpos n) by lia.
    apply IH; [lia|]. apply IH; [lia|]. apply shr_1_inv; assumption.
  - replace (k + Zpos n~0) with (k + Zpos n + Zpos n) by lia.
    apply IH; [lia|]. apply IH; assumption.
  - apply shr_1_inv; assumption.
Qed.

Lemma round_nearest_even_inv (X Y k : Z) (x : shr_record) :
  0 < Y -> 0 <= k -> shr_inv X Y k x ->
  round_nearest_even (shr_m x) (loc_of_shr_record x) = round_half_even X (2 ^ k * Y).
Proof.
  intros HY Hk. unfold shr_inv, loc_ok.
  assert (0 < 2 ^ k * Y) as HU by (pose proof (Z.pow_pos_nonneg 2 k); nia).
  set (U := 2 ^ k * Y) in *.
  destruct x as [m r s]. cbn [shr_m shr_r shr_s loc_of_shr_record].
  intros (Hm & HR & Hloc).
  assert (X / U = m) as Hq by (symmetry; apply (Z.div_unique X U m (X - m * U)); lia).
  assert (X mod U = X - m * U) as Hr
    by (symmetry; apply (Z.mod_unique X U m (X - m * U)); lia).
  unfold round_half_even. rewrite Hq, Hr.
  destruct r, s; cbn [round_nearest_even];
    destruct (Z.compare_spec (2 * (X - m * U)) U); try lia; reflexivity.
Qed.

Lemma shr_inv_shr (X Y : Z) (x : shr_record) (e n : Z) :
  0 < Y -> shr_inv X Y 0 x ->
  shr_inv X Y (Z.max n 0) (fst (shr x e n)) /\ snd (shr x e n) = e + Z.max n 0.
Proof.
  intros HY Hx. destruct n as [|p|p]; cbn [shr fst snd].
  - split; [exact Hx | lia].
  - replace (Z.max (Zpos p) 0) with (0 + Zpos p) by lia.
    split; [apply iter_pos_shr_inv; [assumption | lia | assumption] | lia].
  - split; [exact Hx | lia].
Qed.

Lemma shr_inv_exact (q : Z) : 0 <= q -> shr_inv q 1 0 (shr_record_of_loc q loc_Exact).
Proof.
  intros Hq. unfold shr_inv, loc_ok. cbn [shr_record_of_loc shr_m shr_r shr_s].
  change (2 ^ 0 * 1) with 1. lia.
Qed.

Lemma round_half_even_bounds (X D : Z) :
  0 < D -> 0 <= X -> X / D <= round_half_even X D <= X / D + 1.
Proof.
  intros HD HX. unfold round_half_even.
  destruct (2 * (X mod D) ?= D); [destruct (Z.even (X / D))| |]; lia.
Qed.

Lemma shr_exact_no_shift (m e : Z) :
  0 <= m -> m < 2 ^ 53 -> -1074 <= e ->
  shr_fexp prec emax m e loc_Exact = (shr_record_of_loc m loc_Exact, e).
Proof.
  intros Hm Hlt He. unfold shr_fexp. rewrite fexp_eq.
  assert (Zdigits2 m <= 53) as Hd.
  { destruct (Z.eq_dec m 0) as [->|]; [simpl; lia|]. apply Zdigits2_le; lia. }
  destruct (Z.max (Zdigits2 m + e - 53) (-1074) - e) as [|p|p] eqn:En; try lia;
    reflexivity.
Qed.

(** [binary_round_aux] on a mantissa [q] at exponent [E] that stands, with
    its location, for the quotient [X / Y]: the quotient is rounded at the
    exponent of its 53 leading bits. *)
Lemma binary_round_aux_spec (sx : bool) (q E : Z) (l : location) (X Y : Z) :
  0 <= q -> 0 < Y -> shr_inv X Y 0 (shr_record_of_loc q l) ->
  let k := Z.max (fexp prec emax (Zdigits2 q + E) - E) 0 in
  binary_round_aux prec emax sx q E l = pack sx (round_half_even X (2 ^ k * Y)) (E + k).
Proof.
  intros Hq HY Hinv k. unfold binary_round_aux.
  unfold shr_fexp at 1.
  pose proof (shr_inv_shr X Y (shr_record_of_loc q l) E
                (fexp prec emax (Zdigits2 q + E) - E) HY Hinv) as [Hk He].
  fold k in Hk, He.
  destruct (shr (shr_record_of_loc q l) E (fexp prec emax (Zdigits2 q + E) - E))
    as [mrs' e'] eqn:Es.
  cbn [fst snd] in Hk, He. subst e'.
  assert (0 <= k) as Hk0 by lia.
  rewrite (round_nearest_even_inv X Y k mrs' HY Hk0 Hk).
  assert (0 < 2 ^ k * Y) as HD by (pose proof (Z.pow_pos_nonneg 2 k); nia).
  (* the rounded mantissa has at most 53 bits, or is 2^53 *)
  assert (0 <= X < 2 ^ 53 * (2 ^ k * Y)) as HX.
  { destruct Hinv as (_ & HR & _). cbn [shr_m] in HR.
    replace (shr_m (shr_record_of_loc q l)) with q in HR by (destruct l as [|[]]; reflexivity).
    change (2 ^ 0 * Y) with (1 * Y) in HR.
    assert (q + 1 <= 2 ^ (53 + k)) as Hqk.
    { destruct (Z.eq_dec q 0) as [->|Hq0].
      - pose proof (Z.pow_pos_nonneg 2 (53 + k)). lia.
      - assert (0 < q) as Hqpos by lia.
        pose proof (Zdigits2_bounds q Hqpos) as [_ Hhi].
        assert (2 ^ Zdigits2 q <= 2 ^ (53 + k)).
        { apply Z.pow_le_mono_r; [lia|]. unfold k. rewrite fexp_eq. lia. }
        lia. }
    rewrite Z.pow_add_r in Hqk by lia. split; [nia|].
    assert ((q + 1) * Y <= 2 ^ 53 * 2 ^ k * Y) by nia. lia. }
  assert (-1074 <= E + k) as Hemin by (unfold k; rewrite fexp_eq; lia).
  pose proof (round_half_even_bounds X (2 ^ k * Y) HD (proj1 HX)) as Hm1.
  assert (X / (2 ^ k * Y) < 2 ^ 53) as Hdiv
    by (apply Z.div_lt_upper_bound; [lia | nia]).
  assert (0 <= X / (2 ^ k * Y)) as Hdiv0 by (apply Z.div_pos; lia).
  set (m1 := round_half_even X (2 ^ k * Y)) in *.
  unfold pack.
  destruct (Z.eqb_spec m1 0) as [Hz|Hnz].
  - rewrite Hz. rewrite shr_exact_no_shift by lia. reflexivity.
  - destruct (Z.ltb_spec m1 (2 ^ 53)) as [Hlt|Hge].
    + rewrite shr_exact_no_shift by lia.
      cbn [shr_record_of_loc shr_m]. destruct m1 as [|p|p]; try lia.
      reflexivity.
    + assert (m1 = 2 ^ 53) as -> by lia.
      unfold shr_fexp. rewrite fexp_eq.
      change (Zdigits2 (2 ^ 53)) with 54.
      replace (Z.max (54 + (E + k) - 53) (-1074) - (E + k)) with 1 by lia.
      reflexivity.
Qed.

Lemma Zdigits2_unique (q j : Z) : 2 ^ (j - 1) <= q < 2 ^ j -> 0 < j -> Zdigits2 q = j.
Proof.
  intros [Hlo Hhi] Hj.
  assert (0 < q) as Hq by (pose proof (Z.pow_pos_nonneg 2 (j - 1)); lia).
  pose proof (Zdigits2_le q j Hq Hhi).
  pose proof (Zdigits2_gt q (j - 1) ltac:(lia) Hlo). lia.
Qed.

Lemma Zdigits2_shift (q s : Z) : 0 < q -> 0 <= s -> Zdigits2 (q * 2 ^ s) = Zdigits2 q + s.
Proof.
  intros Hq Hs. pose proof (Zdigits2_bounds q Hq) as [Hlo Hhi].
  pose proof (Zdigits2_pos q Hq) as Hd.
  pose proof (Z.pow_pos_nonneg 2 s ltac:(lia) Hs) as Hp.
  apply Zdigits2_unique; [|lia].
  replace (Zdigits2 q + s - 1) with (Zdigits2 q - 1 + s) by lia.
  rewrite !Z.pow_add_r by lia. split; nia.
Qed.

Lemma compare_scale (a b c : Z) : 0 < c -> (a * c ?= b * c) = (a ?= b).
Proof.
  intros Hc. destruct (Z.compare_spec a b) as [->|H|H].
  - apply Z.compare_refl.
  - apply Z.compare_lt_iff. nia.
  - apply Z.compare_gt_iff. nia.
Qed.

Lemma round_half_even_scale (X D c : Z) :
  0 < D -> 0 < c -> round_half_even (X * c) (D * c) = round_half_even X D.
Proof.
  intros HD Hc. unfold round_half_even.
  rewrite Z.div_mul_cancel_r by lia.
  rewrite Z.mul_mod_distr_r by lia.
  replace (2 * (X mod D * c)) with (2 * (X mod D) * c) by ring.
  rewrite compare_scale by lia. reflexivity.
Qed.

Lemma round_half_even_unit (X : Z) : round_half_even X 1 = X.
Proof.
  unfold round_half_even. rewrite Z.div_1_r, Z.mod_1_r. reflexivity.
Qed.

(** The integer [a] is below the rounded quotient as soon as it is below
    the quotient, and the rounded quotient is at most half a unit above. *)
Lemma round_half_even_ge (X D a : Z) :
  0 < D -> a * D <= X -> a <= round_half_even X D.
Proof.
  intros HD Ha.
  assert (a <= X / D) by (apply Z.div_le_lower_bound; lia).
  unfold round_half_even.
  destruct (2 * (X mod D) ?= D); [destruct (Z.even (X / D))| |]; lia.
Qed.

Lemma round_half_even_le (X D : Z) :
  0 < D -> 2 * (round_half_even X D * D) <= 2 * X + D.
Proof.
  intros HD. unfold round_half_even.
  pose proof (Z.div_mod X D ltac:(lia)) as E.
  pose proof (Z.mod_pos_bound X D HD) as B.
  destruct (Z.compare_spec (2 * (X mod D)) D);
    [destruct (Z.even (X / D))| |]; nia.
Qed.

Lemma round_half_even_near (X D : Z) :
  0 < D ->
  2 * Z.abs (round_half_even X D * D - X) <= D
  /\ (2 * Z.abs (round_half_even X D * D - X) = D -> Z.even (round_half_even X D) = true).
Proof.
  intros HD. unfold round_half_even.
  pose proof (Z.div_mod X D ltac:(lia)) as E.
  pose proof (Z.mod_pos_bound X D HD) as B.
  destruct (Z.compare_spec (2 * (X mod D)) D) as [Heq|Hlt|Hgt].
  - destruct (Z.even (X / D)) eqn:Ev.
    + split; [nia | intros _; exact Ev].
    + split; [nia|]. intros _. rewrite Z.even_add, Ev. reflexivity.
  - split; nia.
  - split; nia.
Qed.

Lemma iter_xO (p n : positive) : Zpos (Pos.iter xO p n) = Zpos p * 2 ^ Zpos n.
Proof.
  rewrite <- Z.shiftl_mul_pow2 by lia. cbn [Z.shiftl].
  apply (Pos.iter_swap_gen _ _ Zpos xO (Z.mul 2)). reflexivity.
Qed.

(** [float(z)] is exact below [2 ^ 53]: the mantissa is [z] shifted to 53
    bits. *)
Lemma of_int_exact (z : Z) :
  z <> 0 -> Z.abs z < 2 ^ 53 ->
  of_int z =
    Ok (S754_finite (z <? 0)
          (Z.to_pos (Z.abs z * 2 ^ (53 - Zdigits2 z))) (Zdigits2 z - 53)).
Proof.
  intros Hz Hlt. unfold of_int.
  assert (binary_normalize prec emax z 0 false =
          binary_round prec emax (z <? 0) (Z.to_pos (Z.abs z)) 0) as ->
    by (destruct z; [congruence | reflexivity | reflexivity]).
  set (p := Z.to_pos (Z.abs z)).
  assert (Zdigits2 z = Zpos (digits2_pos p)) as Hd
    by (subst p; destruct z; [congruence | reflexivity | reflexivity]).
  assert (Zpos p = Z.abs z) as Hp by (subst p; rewrite Z2Pos.id; lia).
  assert (0 < Zpos p) as Hppos by lia.
  pose proof (Zdigits2_bounds (Zpos p) Hppos) as Hb.
  assert (Zdigits2 (Zpos p) = Zdigits2 z) as Hdp by (rewrite Hd; reflexivity).
  rewrite Hdp in Hb. rewrite <- Hp in Hlt.
  pose proof (Zdigits2_le (Zpos p) 53 Hppos Hlt) as Hd53. rewrite Hdp in Hd53.
  pose proof (Zdigits2_pos (Zpos p) Hppos) as Hd0. rewrite Hdp in Hd0.
  set (d := Zdigits2 z) in *.
  unfold binary_round. rewrite <- Hd, fexp_eq.
  replace (Z.max (d + 0 - 53) (-1074)) with (d - 53) by lia.
  assert (exists mz, shl_align p 0 (d - 53) = (mz, d - 53)
                     /\ Zpos mz = Zpos p * 2 ^ (53 - d)) as (mz & -> & Hmz).
  { unfold shl_align. destruct (d - 53 - 0) as [|q|q] eqn:Eq; try lia.
    - exists p. replace (d - 53) with 0 by lia. replace (53 - d) with 0 by lia.
      split; [reflexivity | lia].
    - exists (Pos.iter xO p q). split; [reflexivity|].
      rewrite iter_xO. f_equal. f_equal. lia. }
  assert (2 ^ 52 <= Zpos mz < 2 ^ 53) as Hmzb.
  { rewrite Hmz.
    assert (2 ^ 52 = 2 ^ (d - 1) * 2 ^ (53 - d)) as ->
      by (rewrite <- Z.pow_add_r by lia; f_equal; lia).
    assert (2 ^ 53 = 2 ^ d * 2 ^ (53 - d)) as ->
      by (rewrite <- Z.pow_add_r by lia; f_equal; lia).
    pose proof (Z.pow_pos_nonneg 2 (53 - d)). nia. }
  rewrite (binary_round_aux_spec (z <? 0) (Zpos mz) (d - 53) loc_Exact (Zpos mz) 1)
    by (try apply shr_inv_exact; lia).
  rewrite (Zdigits2_unique (Zpos mz) 53) by lia. rewrite fexp_eq.
  replace (Z.max (Z.max (53 + (d - 53) - 53) (-1074) - (d - 53)) 0) with 0 by lia.
  change (2 ^ 0 * 1) with 1. rewrite round_half_even_unit.
  unfold pack.
  destruct (Z.eqb_spec (Zpos mz) 0); [lia|].
  destruct (Z.ltb_spec (Zpos mz) (2 ^ 53)); [|lia].
  destruct (Z.leb_spec (d - 53 + 0) 971); [|lia].
  cbn [is_infinity]. rewrite Z.add_0_r, <- Hp, <- Hmz. reflexivity.
Qed.

Lemma of_int_zero : of_int 0 = Ok (S754_zero false).
Proof. reflexivity. Qed.

(** An integer below [2 ^ 53] times a normal float: the exact product,
    rounded at the exponent of its 53 leading bits. *)
Lemma int_times_float (z : Z) (mc : positive) (ec : Z) :
  z <> 0 -> Z.abs z < 2 ^ 53 -> 2 ^ 52 <= Zpos mc < 2 ^ 53 -> -1000 <= ec <= 800 ->
  let A := Z.abs z * Zpos mc in
  (b ← of_int z; Ok (mul b (S754_finite false mc ec))) =
    Ok (pack (z <? 0) (round_half_even A (2 ^ (Zdigits2 A - 53))) (ec + (Zdigits2 A - 53))).
Proof.
  intros Hz Hlt Hmc Hec A.
  rewrite (of_int_exact z Hz Hlt). result_simpl.
  unfold mul, SFmul. rewrite xorb_false_r.
  assert (0 < Z.abs z) as Hpos by lia.
  pose proof (Zdigits2_bounds (Z.abs z) Hpos) as Hb.
  assert (Zdigits2 (Z.abs z) = Zdigits2 z) as Hdz by (destruct z; reflexivity).
  rewrite Hdz in Hb.
  pose proof (Zdigits2_le (Z.abs z) 53 Hpos Hlt) as Hd53. rewrite Hdz in Hd53.
  pose proof (Zdigits2_pos (Z.abs z) Hpos) as Hd0. rewrite Hdz in Hd0.
  set (d := Zdigits2 z) in *.
  pose proof (Z.pow_pos_nonneg 2 (53 - d) ltac:(lia) ltac:(lia)) as Hs.
  assert (Zpos (Z.to_pos (Z.abs z * 2 ^ (53 - d)) * mc) = A * 2 ^ (53 - d)) as HM.
  { rewrite Pos2Z.inj_mul, Z2Pos.id by nia. subst A. ring. }
  assert (0 < A) as HA by (subst A; nia).
  assert (d + 51 < Zdigits2 A) as HdA.
  { apply Zdigits2_gt; [lia|]. subst A.
    assert (2 ^ (d + 51) = 2 ^ (d - 1) * 2 ^ 52) as ->
      by (rewrite <- Z.pow_add_r by lia; f_equal; lia).
    pose proof (Z.pow_pos_nonneg 2 (d - 1)). nia. }
  assert (Zdigits2 A <= d + 53) as HdA'.
  { apply Zdigits2_le; [assumption|]. subst A.
    rewrite Z.pow_add_r by lia. nia. }
  rewrite (binary_round_aux_spec (z <? 0) _ _ loc_Exact
             (Zpos (Z.to_pos (Z.abs z * 2 ^ (53 - d)) * mc)) 1)
    by (try apply shr_inv_exact; lia).
  rewrite HM, Zdigits2_shift, fexp_eq by lia.
  set (dA := Zdigits2 A) in *.
  replace (Z.max (Z.max (dA + (53 - d) + (d - 53 + ec) - 53) (-1074) - (d - 53 + ec)) 0)
    with (dA - 53 + (53 - d)) by lia.
  rewrite Z.pow_add_r, Z.mul_1_r by lia.
  rewrite round_half_even_scale by (try apply Z.pow_pos_nonneg; lia).
  do 2 f_equal. lia.
Qed.

(** The comparison of a rounded positive value with an integer. *)
Lemma compare_int_pack (m1 e n : Z) :
  0 < m1 <= 2 ^ 53 -> e < 0 ->
  compare_int (pack false m1 e) n = Some (m1 ?= n * 2 ^ (- e)).
Proof.
  intros Hm He. unfold pack.
  destruct (Z.eqb_spec m1 0); [lia|].
  destruct (Z.ltb_spec m1 (2 ^ 53)) as [Hlt|Hge].
  - destruct (Z.leb_spec e 971); [|lia].
    cbn [compare_int cond_Zopp]. destruct (Z.leb_spec 0 e); [lia|].
    rewrite Z2Pos.id by lia. reflexivity.
  - assert (m1 = 2 ^ 53) as -> by lia.
    destruct (Z.leb_spec (e + 1) 971); [|lia].
    cbn [compare_int cond_Zopp]. rewrite Z2Pos.id by lia.
    assert (2 ^ (- e) = 2 ^ (- (e + 1)) * 2) as ->.
    { replace (- e) with (- (e + 1) + 1) by lia. rewrite Z.pow_add_r by lia. reflexivity. }
    change (2 ^ 53) with (2 ^ 52 * 2). rewrite Z.mul_assoc, compare_scale by lia.
    destruct (Z.leb_spec 0 (e + 1)); [|reflexivity].
    replace (e + 1) with 0 by lia. cbn [Z.opp]. rewrite Z.pow_0_r. f_equal. f_equal; lia.
Qed.

(** A negative float is below every integer that is not negative. *)
Lemma compare_int_negative (p : positive) (e n : Z) :
  0 <= n -> compare_int (S754_finite true p e) n = Some Lt.
Proof.
  intros Hn. cbn [compare_int cond_Zopp]. f_equal.
  destruct (Z.leb_spec 0 e); apply Z.compare_lt_iff.
  - pose proof (Z.pow_pos_nonneg 2 e). nia.
  - pose proof (Z.pow_pos_nonneg 2 (- e)). nia.
Qed.

Lemma compare_int_pack_neg (m1 e n : Z) :
  0 < m1 <= 2 ^ 53 -> e < 0 -> 0 <= n ->
  compare_int (pack true m1 e) n = Some Lt.
Proof.
  intros Hm He Hn. unfold pack.
  destruct (Z.eqb_spec m1 0); [lia|].
  destruct (m1 <? 2 ^ 53).
  - destruct (Z.leb_spec e 971); [|lia]. apply compare_int_negative, Hn.
  - destruct (Z.leb_spec (e + 1) 971); [|lia]. apply compare_int_negative, Hn.
Qed.

Lemma rounded_mantissa_bounds (A : Z) :
  0 < A -> 53 <= Zdigits2 A ->
  2 ^ 52 <= round_half_even A (2 ^ (Zdigits2 A - 53)) <= 2 ^ 53.
Proof.
  intros HA Hd. pose proof (Zdigits2_bounds A HA) as [Hlo Hhi].
  set (j := Zdigits2 A - 53) in *.
  pose proof (Z.pow_pos_nonneg 2 j ltac:(lia) ltac:(lia)) as HQ.
  assert (2 ^ (Zdigits2 A - 1) = 2 ^ 52 * 2 ^ j) as E1
    by (rewrite <- Z.pow_add_r by lia; f_equal; lia).
  assert (2 ^ Zdigits2 A = 2 ^ 53 * 2 ^ j) as E2
    by (rewrite <- Z.pow_add_r by lia; f_equal; lia).
  pose proof (round_half_even_bounds A (2 ^ j) HQ ltac:(lia)) as [B1 B2].
  assert (2 ^ 52 <= A / 2 ^ j) by (apply Z.div_le_lower_bound; lia).
  assert (A / 2 ^ j < 2 ^ 53) by (apply Z.div_lt_upper_bound; lia).
  lia.
Qed.

(** A positive integer [z] times the double nearest to [1/N], which is
    [(2 ^ w + r) / (N * 2 ^ w)], compared with an integer [n]: as long as
    [z * (N + r) <= 2 ^ w], the rounded product is below [n] exactly when
    [z / N] is. *)
Lemma int_times_literal_compare (z : Z) (mc : positive) (w N r n : Z) :
  0 < z < 2 ^ 53 -> 2 ^ 52 <= Zpos mc < 2 ^ 53 -> 54 <= w <= 1000 ->
  0 < N -> 0 <= r -> N * Zpos mc = 2 ^ w + r -> z * (N + r) <= 2 ^ w ->
  exists c,
    (b ← of_int z; Ok (compare_int (mul b (S754_finite false mc (- w))) n)) = Ok (Some c)
    /\ (c = Lt <-> z < N * n).
Proof.
  intros Hz Hmc Hw HN Hr HNmc Hbound.
  pose proof (int_times_float z mc (- w) ltac:(lia) ltac:(lia) Hmc ltac:(lia)) as HT.
  cbv zeta in HT. replace (Z.abs z) with z in HT by lia.
  destruct (Z.ltb_spec z 0) as [|_]; [lia|].
  set (A := z * Zpos mc) in *.
  assert (0 < A) as HA by (subst A; nia).
  pose proof (Zdigits2_bounds A HA) as [Hlo Hhi].
  assert (53 <= Zdigits2 A) as Hd53.
  { assert (52 < Zdigits2 A); [|lia]. apply Zdigits2_gt; [lia|]. subst A. nia. }
  assert (Zdigits2 A <= 106) as Hd106.
  { apply Zdigits2_le; [assumption|]. subst A.
    change (2 ^ 106) with (2 ^ 53 * 2 ^ 53). nia. }
  pose proof (rounded_mantissa_bounds A HA Hd53) as Hm1.
  set (j := Zdigits2 A - 53) in *.
  pose proof (Z.pow_pos_nonneg 2 j ltac:(lia) ltac:(lia)) as HQ.
  pose proof (round_half_even_le A (2 ^ j) HQ) as Hle.
  pose proof (fun a => round_half_even_ge A (2 ^ j) a HQ) as Hge.
  set (m1 := round_half_even A (2 ^ j)) in *.
  exists (m1 ?= n * 2 ^ (w - j)). split.
  - destruct (of_int z) as [b|]; [|discriminate]. result_simpl.
    cbn [mbind result_bind mret result_ret] in HT. injection HT as ->.
    rewrite compare_int_pack by lia.
    replace (- (- w + j)) with (w - j) by lia. reflexivity.
  - assert (2 ^ (w - j) * 2 ^ j = 2 ^ w) as HPQ
      by (rewrite <- Z.pow_add_r by lia; f_equal; lia).
    pose proof (Z.pow_pos_nonneg 2 (w - j) ltac:(lia) ltac:(lia)) as HP.
    assert (2 ^ j * 2 ^ 52 <= A) as HQA.
    { replace (Zdigits2 A - 1) with (j + 52) in Hlo by lia.
      rewrite Z.pow_add_r in Hlo by lia. exact Hlo. }
    set (P := 2 ^ (w - j)) in *. set (Q := 2 ^ j) in *. set (W := 2 ^ w) in *.
    rewrite Z.compare_lt_iff. split.
    + (* the product is below [n]: then [z < N * n] *)
      intros Hlt. destruct (Z.lt_ge_cases z (N * n)) as [|Hcontra]; [assumption|].
      exfalso. specialize (Hge (n * P)).
      assert (n * P * Q <= A); [|lia].
      replace (n * P * Q) with (n * W) by (subst W; rewrite <- HPQ; ring).
      assert (N * (n * W) <= N * A); [|nia].
      subst A. replace (N * (z * Zpos mc)) with (z * (N * Zpos mc)) by ring.
      rewrite HNmc. nia.
    + (* [z < N * n]: then the product is below [n] *)
      intros Hlt. destruct (Z.lt_ge_cases m1 (n * P)) as [|Hcontra]; [assumption|].
      exfalso.
      assert (2 * (n * W) <= 2 * A + Q) as H1.
      { replace (n * W) with (n * P * Q) by (subst W; rewrite <- HPQ; ring). nia. }
      assert (N * (2 * (n * W)) <= 2 * (z * (W + r)) + N * Q) as H2.
      { rewrite <- HNmc. replace (z * (N * Zpos mc)) with (N * A) by (subst A; ring). nia. }
      assert (Q < 2 * z) as HQz by (subst A; nia).
      assert (2 * W <= (N * n - z) * (2 * W)) as H3 by nia.
      nia.
Qed.

(** ** Division of integers *)

Lemma new_location_inv (X Y q r : Z) :
  0 < Y -> 0 <= q -> 0 <= r < Y -> X = q * Y + r ->
  shr_inv X Y 0 (shr_record_of_loc q (new_location Y r)).
Proof.
  intros HY Hq Hr HX. unfold shr_inv, loc_ok.
  assert (shr_m (shr_record_of_loc q (new_location Y r)) = q) as ->
    by (destruct (new_location Y r) as [|[]]; reflexivity).
  change (2 ^ 0 * Y) with (1 * Y). rewrite Z.mul_1_l.
  replace (X - q * Y) with r by lia.
  split; [assumption|]. split; [assumption|].
  unfold new_location, new_location_even, new_location_odd.
  destruct (Z.even Y) eqn:Ev.
  - destruct (Z.eqb_spec r 0) as [->|Hr0]; [reflexivity|].
    destruct (Z.compare_spec (2 * r) Y); cbn; lia.
  - destruct (Z.eqb_spec r 0) as [->|Hr0]; [reflexivity|].
    assert (2 * r <> Y) as Hodd.
    { intros <-. rewrite Z.even_mul in Ev. discriminate. }
    destruct (Z.compare_spec (2 * r + 1) Y); cbn; lia.
Qed.

(** The quotient of two integers that are not zero, as [true_div] forms
    it: the numerator is shifted left until the quotient has 53 bits, and
    the exact quotient of the two is rounded. *)
Lemma SFdiv_raw (a b : Z) :
  a <> 0 -> b <> 0 ->
  let e' := Z.min (fexp prec emax (Zdigits2 a - Zdigits2 b)) 0 in
  let X := Z.abs a * 2 ^ (- e') in
  let k := Z.max (fexp prec emax (Zdigits2 (X / Z.abs b) + e') - e') 0 in
  SFdiv prec emax (raw a) (raw b) =
    pack (xorb (a <? 0) (b <? 0)) (round_half_even X (2 ^ k * Z.abs b)) (e' + k).
Proof.
  intros Ha Hb e' X k.
  assert (exists pa, raw a = S754_finite (a <? 0) pa 0 /\ Zpos pa = Z.abs a
                     /\ Zdigits2 (Zpos pa) = Zdigits2 a) as (pa & -> & Hpa & Hda)
    by (destruct a as [|p|p]; [congruence | exists p; auto | exists p; auto]).
  assert (exists pb, raw b = S754_finite (b <? 0) pb 0 /\ Zpos pb = Z.abs b
                     /\ Zdigits2 (Zpos pb) = Zdigits2 b) as (pb & -> & Hpb & Hdb)
    by (destruct b as [|p|p]; [congruence | exists p; auto | exists p; auto]).
  cbn [SFdiv]. unfold SFdiv_core_binary.
  rewrite Hda, Hdb, !Z.add_0_r, Z.sub_0_r. fold e'.
  assert (e' <= 0) as He' by (subst e'; lia).
  assert ((match 0 - e' with
           | 0 => Zpos pa
           | Zpos _ => Z.shiftl (Zpos pa) (0 - e')
           | Zneg _ => 0
           end) = X) as ->.
  { subst X. rewrite <- Hpa. replace (0 - e') with (- e') by lia.
    destruct (- e') as [|s|s] eqn:Es; try lia.
    rewrite Z.shiftl_mul_pow2 by lia. reflexivity. }
  pose proof (Z.pow_pos_nonneg 2 (- e') ltac:(lia) ltac:(lia)) as Hs.
  assert (0 <= X) as HX by (subst X; nia).
  pose proof (Z_div_mod X (Zpos pb) ltac:(lia)) as Hdm.
  unfold Z.div. destruct (Z.div_eucl X (Zpos pb)) as [q r] eqn:Eqr.
  destruct Hdm as [HXqr Hr]. cbn [fst].
  assert (0 <= q) as Hq by nia.
  rewrite (binary_round_aux_spec _ q e' _ X (Zpos pb))
    by (try apply new_location_inv; lia).
  assert (X / Z.abs b = q) as Hqd
    by (rewrite <- Hpb; unfold Z.div; rewrite Eqr; reflexivity).
  subst k. rewrite Hqd, <- Hpb. reflexivity.
Qed.

Lemma pack_finite (s : bool) (m1 e : Z) :
  e + 1 <= 971 -> is_finite (pack s m1 e) = true.
Proof.
  intros He. unfold pack. destruct (m1 =? 0); [reflexivity|].
  destruct (m1 <? 2 ^ 53).
  - destruct (Z.leb_spec e 971); [reflexivity | lia].
  - destruct (Z.leb_spec (e + 1) 971); [reflexivity | lia].
Qed.

Lemma is_finite_not_infinity (f : float) : is_finite f = true -> is_infinity f = false.
Proof. destruct f; [reflexivity | discriminate | discriminate | reflexivity]. Qed.

(** [a / b] returns a finite float when [b] is not zero and [a] is below
    [2 ^ 1000] in absolute value. *)
Lemma true_div_returns (a b : Z) :
  b <> 0 -> Z.abs a < 2 ^ 1000 ->
  exists q, true_div a b = Ok q /\ is_finite q = true.
Proof.
  intros Hb Ha. unfold true_div.
  destruct (Z.eqb_spec b 0) as [|_]; [contradiction|].
  destruct (Z.eq_dec a 0) as [->|Ha0].
  - destruct b; [congruence| |]; eexists; split; reflexivity.
  - assert (is_finite (SFdiv prec emax (raw a) (raw b)) = true) as Hfin.
    { rewrite (SFdiv_raw a b Ha0 Hb). cbv zeta. apply pack_finite.
      set (e' := Z.min (fexp prec emax (Zdigits2 a - Zdigits2 b)) 0).
      assert (e' <= 0) as He' by (subst e'; lia).
      pose proof (Z.pow_pos_nonneg 2 (- e') ltac:(lia) ltac:(lia)) as Hs.
      set (X := Z.abs a * 2 ^ (- e')).
      assert (0 < Z.abs a) as Hapos by lia. assert (0 < Z.abs b) as Hbpos by lia.
      assert (Zdigits2 (Z.abs a) = Zdigits2 a) as Hda by (destruct a; reflexivity).
      pose proof (Zdigits2_le (Z.abs a) 1000 Hapos Ha) as Hd1. rewrite Hda in Hd1.
      pose proof (Zdigits2_pos (Z.abs a) Hapos) as Hd1p. rewrite Hda in Hd1p.
      assert (Zdigits2 (X / Z.abs b) <= 1000 - e') as Hdq.
      { assert (0 <= X / Z.abs b) as Hq0 by (apply Z.div_pos; subst X; nia).
        destruct (Z.eq_dec (X / Z.abs b) 0) as [->|Hq]; [simpl; lia|].
        apply Zdigits2_le; [lia|].
        apply Z.le_lt_trans with X.
        - apply Z.div_le_upper_bound; [lia|]. subst X. nia.
        - subst X. replace (1000 - e') with (1000 + - e') by lia.
          rewrite Z.pow_add_r by lia. nia. }
      rewrite fexp_eq. lia. }
    exists (SFdiv prec emax (raw a) (raw b)).
    rewrite (is_finite_not_infinity _ Hfin). split; [reflexivity | exact Hfin].
Qed.

(** [a / b] neither overflows nor underflows between [2 ^ -1000] and
    [2 ^ 1000]: the quotient of two integers that are not zero is a float
    that is not zero, of the sign of the quotient. *)
Lemma true_div_nonzero (a b : Z) :
  a <> 0 -> b <> 0 -> Z.abs a < 2 ^ 1000 -> Z.abs b < 2 ^ 1000 ->
  exists m e, true_div a b = Ok (S754_finite (xorb (a <? 0) (b <? 0)) m e)
              /\ -1074 <= e.
Proof.
  intros Ha Hb Hla Hlb.
  destruct (true_div_returns a b Hb Hla) as (q & Hdiv & Hfin).
  assert (SFdiv prec emax (raw a) (raw b) = q) as Hq.
  { unfold true_div in Hdiv. destruct (b =? 0); [discriminate|].
    cbv zeta in Hdiv. destruct (is_infinity _); [discriminate|].
    injection Hdiv as Hdiv. exact Hdiv. }
  rewrite Hdiv. clear Hdiv.
  rewrite (SFdiv_raw a b Ha Hb) in Hq. cbv zeta in Hq.
  set (e' := Z.min (fexp prec emax (Zdigits2 a - Zdigits2 b)) 0) in *.
  set (X := Z.abs a * 2 ^ (- e')) in *.
  set (qz := X / Z.abs b) in *.
  set (k := Z.max (fexp prec emax (Zdigits2 qz + e') - e') 0) in *.
  assert (0 < Z.abs a) as Hapos by lia. assert (0 < Z.abs b) as Hbpos by lia.
  assert (Zdigits2 (Z.abs a) = Zdigits2 a) as Hda by (destruct a; reflexivity).
  assert (Zdigits2 (Z.abs b) = Zdigits2 b) as Hdb by (destruct b; reflexivity).
  pose proof (Zdigits2_bounds (Z.abs a) Hapos) as [Ha1 Ha2]. rewrite Hda in Ha1, Ha2.
  pose proof (Zdigits2_bounds (Z.abs b) Hbpos) as [Hb1 Hb2]. rewrite Hdb in Hb1, Hb2.
  pose proof (Zdigits2_pos (Z.abs a) Hapos) as Hd1. rewrite Hda in Hd1.
  pose proof (Zdigits2_pos (Z.abs b) Hbpos) as Hd2. rewrite Hdb in Hd2.
  pose proof (Zdigits2_le (Z.abs b) 1000 Hbpos Hlb) as Hd2'. rewrite Hdb in Hd2'.
  pose proof (Zdigits2_le (Z.abs a) 1000 Hapos Hla) as Hd1'. rewrite Hda in Hd1'.
  set (d1 := Zdigits2 a) in *. set (d2 := Zdigits2 b) in *.
  assert (-1074 <= e' <= 0 /\ e' <= d1 - d2 - 53) as (He' & He'')
    by (subst e'; rewrite fexp_eq; lia).
  pose proof (Z.pow_pos_nonneg 2 (- e') ltac:(lia) ltac:(lia)) as Hs.
  (* the quotient before rounding has at least 53 bits *)
  assert (2 ^ 52 * Z.abs b <= X) as HX.
  { subst X.
    assert (2 ^ (52 + d2) <= 2 ^ (d1 - 1) * 2 ^ (- e')).
    { rewrite <- Z.pow_add_r by lia. apply Z.pow_le_mono_r; lia. }
    rewrite Z.pow_add_r in H by lia. nia. }
  assert (2 ^ 52 <= qz) as Hqz by (subst qz; apply Z.div_le_lower_bound; lia).
  assert (52 < Zdigits2 qz) as Hdq by (apply Zdigits2_gt; lia).
  pose proof (Zdigits2_bounds qz ltac:(lia)) as [Hq1 _].
  assert (0 <= k <= Zdigits2 qz - 1) as Hk by (subst k; rewrite fexp_eq; lia).
  assert (-1074 <= e' + k) as Hek by lia.
  assert (2 ^ k * Z.abs b <= X) as HkX.
  { assert (2 ^ k <= 2 ^ (Zdigits2 qz - 1)) by (apply Z.pow_le_mono_r; lia).
    assert (qz * Z.abs b <= X); [|nia].
    subst qz. rewrite Z.mul_comm. apply Z.mul_div_le. lia. }
  pose proof (Z.pow_pos_nonneg 2 k ltac:(lia) ltac:(lia)) as Hpk.
  pose proof (round_half_even_ge X (2 ^ k * Z.abs b) 1 ltac:(nia) ltac:(lia)) as Hm1.
  set (m1 := round_half_even X (2 ^ k * Z.abs b)) in *.
  rewrite <- Hq in Hfin |- *. unfold pack in *.
  destruct (Z.eqb_spec m1 0); [lia|].
  destruct (m1 <? 2 ^ 53).
  - destruct (e' + k <=? 971); [|discriminate Hfin].
    eexists _, _. split; [reflexivity | lia].
  - destruct (e' + k + 1 <=? 971); [|discriminate Hfin].
    eexists _, _. split; [reflexivity | lia].
Qed.

(** A float that is not zero, of exponent above [-1080], times [100.0]
    is not zero and keeps its sign, or is the infinity of that sign. *)
Lemma times_100_sign (s : bool) (m : positive) (e : Z) :
  -1074 <= e ->
  gt_int (mul (S754_finite s m e) f100) 0 = negb s
  /\ lt_int (mul (S754_finite s m e) f100) 0 = s.
Proof.
  intros He. unfold mul.
  change f100 with (S754_finite false 7036874417766400 (-46)).
  cbn [SFmul]. rewrite xorb_false_r.
  rewrite (binary_round_aux_spec s _ _ loc_Exact (Zpos (m * 7036874417766400)) 1)
    by (try apply shr_inv_exact; lia).
  set (M := Zpos (m * 7036874417766400)).
  assert (2 ^ 52 <= M) as HM by (subst M; lia).
  assert (52 < Zdigits2 M) as Hd by (apply Zdigits2_gt; lia).
  pose proof (Zdigits2_bounds M ltac:(lia)) as [HM1 _].
  set (k := Z.max (fexp prec emax (Zdigits2 M + (e + -46)) - (e + -46)) 0).
  assert (0 <= k <= Zdigits2 M - 1) as Hk by (subst k; rewrite fexp_eq; lia).
  assert (2 ^ k <= 2 ^ (Zdigits2 M - 1)) by (apply Z.pow_le_mono_r; lia).
  pose proof (Z.pow_pos_nonneg 2 k ltac:(lia) ltac:(lia)) as Hpk.
  pose proof (round_half_even_ge M (2 ^ k * 1) 1 ltac:(lia) ltac:(lia)) as Hm1.
  set (m1 := round_half_even M (2 ^ k * 1)) in *.
  assert (forall p x, (gt_int (S754_finite s p x) 0 = negb s)
                      /\ (lt_int (S754_finite s p x) 0 = s)) as Hfin.
  { intros p x. unfold gt_int, lt_int. cbn [compare_int]. rewrite Z.mul_0_l.
    destruct (Z.leb_spec 0 x) as [Hx|Hx].
    - pose proof (Z.pow_pos_nonneg 2 x ltac:(lia) Hx) as Hpx.
      destruct s; cbn [cond_Zopp Z.opp negb].
      + assert ((- Zpos p * 2 ^ x ?= 0) = Lt) as -> by (apply Z.compare_lt_iff; nia).
        split; reflexivity.
      + assert ((Zpos p * 2 ^ x ?= 0) = Gt) as -> by (apply Z.compare_gt_iff; nia).
        split; reflexivity.
    - destruct s; split; reflexivity. }
  unfold pack. destruct (Z.eqb_spec m1 0); [lia|].
  destruct (m1 <? 2 ^ 53).
  - destruct (_ <=? 971); [apply Hfin|]. destruct s; split; reflexivity.
  - destruct (_ <=? 971); [apply Hfin|]. destruct s; split; reflexivity.
Qed.


(** ** Spending the whole budget *)

(** [a / a] is [1.0]. *)
Lemma true_div_self (a : Z) :
  a <> 0 -> true_div a a = Ok (S754_finite false 4503599627370496 (-52)).
Proof.
  intros Ha. unfold true_div. destruct (Z.eqb_spec a 0) as [|_]; [contradiction|].
  cbv zeta. rewrite (SFdiv_raw a a Ha Ha). cbv zeta.
  rewrite Z.sub_diag, fexp_eq. change (Z.min (Z.max (0 - 53) (-1074)) 0) with (-53).
  change (- -53) with 53.
  assert (0 < Z.abs a) as Hpos by lia.
  rewrite (Z.mul_comm (Z.abs a) (2 ^ 53)).
  rewrite Z.div_mul by lia. change (Zdigits2 (2 ^ 53)) with 54.
  rewrite fexp_eq. change (Z.max (Z.max (54 + -53 - 53) (-1074) - -53) 0) with 1.
  rewrite round_half_even_scale by lia.
  rewrite xorb_nilpotent. reflexivity.
Qed.

(** The double below [0.7] times an integer below [2 ^ 52] is below the
    integer. *)
Lemma seven_tenths_below (a : Z) :
  0 < a < 2 ^ 52 -> (x ← of_int a; Ok (lt_int (mul x f0_7) a)) = Ok true.
Proof.
  intros Ha.
  pose proof (int_times_float a 6305039478318694 (-53)
                ltac:(lia) ltac:(lia) ltac:(lia) ltac:(lia)) as HT.
  cbv zeta in HT. replace (Z.abs a) with a in HT by lia.
  destruct (Z.ltb_spec a 0) as [|_]; [lia|].
  change (S754_finite false 6305039478318694 (-53)) with f0_7 in HT.
  set (A := a * 6305039478318694) in *.
  assert (0 < A) as HA by (subst A; lia).
  pose proof (Zdigits2_bounds A HA) as [Hlo Hhi].
  assert (53 <= Zdigits2 A) as Hd53.
  { assert (52 < Zdigits2 A); [|lia]. apply Zdigits2_gt; [lia|]. subst A. lia. }
  assert (Zdigits2 A <= 105) as Hd105.
  { apply Zdigits2_le; [assumption|]. subst A. lia. }
  pose proof (rounded_mantissa_bounds A HA Hd53) as Hm1.
  set (j := Zdigits2 A - 53) in *.
  pose proof (Z.pow_pos_nonneg 2 j ltac:(lia) ltac:(lia)) as HQ.
  pose proof (round_half_even_le A (2 ^ j) HQ) as Hle.
  set (m1 := round_half_even A (2 ^ j)) in *.
  destruct (of_int a) as [x|]; [|discriminate]. result_simpl.
  cbn [mbind result_bind mret result_ret] in HT. injection HT as ->.
  unfold lt_int. rewrite compare_int_pack by lia.
  replace (- (-53 + j)) with (53 - j) by lia.
  assert (2 ^ (53 - j) * 2 ^ j = 2 ^ 53) as HPQ
    by (rewrite <- Z.pow_add_r by lia; f_equal; lia).
  pose proof (Z.pow_pos_nonneg 2 (53 - j) ltac:(lia) ltac:(lia)) as HP.
  assert (2 ^ j * 2 ^ 52 <= A) as HQA.
  { replace (Zdigits2 A - 1) with (j + 52) in Hlo by lia.
    rewrite Z.pow_add_r in Hlo by lia. exact Hlo. }
  assert (m1 < a * 2 ^ (53 - j)) as Hlt.
  { destruct (Z.lt_ge_cases m1 (a * 2 ^ (53 - j))) as [|Hge]; [assumption|].
    exfalso. set (P := 2 ^ (53 - j)) in *. set (Q := 2 ^ j) in *.
    assert (2 * (a * 2 ^ 53) <= 2 * A + Q).
    { rewrite <- HPQ. nia. }
    assert (Q < 2 * a) by (subst A; lia).
    subst A. lia. }
  apply Z.compare_lt_iff in Hlt. rewrite Hlt. reflexivity.
Qed.

(** With a budget spent exactly, [view_budgets] says OVER and the monthly
    report says WARNING, for every amount below [2 ^ 52]. *)
Lemma status_at_full_spend (amount : Z) :
  0 < amount < 2 ^ 52 ->
  (u ← utilization amount amount; Ok (view_budgets_status u)) = Ok OVER
  /\ report_status amount amount = Ok WARNING.
Proof.
  intros Ha. split.
  - unfold utilization. destruct (Z.ltb_spec 0 amount) as [_|]; [|lia].
    rewrite true_div_self by lia. reflexivity.
  - unfold report_status. rewrite Z.ltb_irrefl.
    pose proof (seven_tenths_below amount Ha) as H.
    destruct (of_int amount) as [x|]; [|discriminate]. result_simpl.
    cbn [mbind result_bind mret result_ret] in H. injection H as ->. reflexivity.
Qed.

(** At 70% the monthly report follows the rounding of [amount * 0.7]. *)
Example report_status_at_seventy_percent :
  report_status 7000 10000 = Ok OK /\ report_status 980 1400 = Ok WARNING.
Proof. vm_compute. split; reflexivity. Qed.

(** ** The health score *)

Lemma filter_transactions_by_month_nil (y m : Z) :
  filter_transactions_by_month [] y m = Ok [].
Proof. reflexivity. Qed.

(** C2. With an income of 100000 and expenses of 70000 in the current
    month and a single budget whose category has spent less than its
    amount, the score is 30 + 25 + 25 + 10 = 90, read as excellent. *)
Theorem health_score_example (today : datetime)
    (all_transactions current : list Transaction.t) (b : Budget.t) :
  filter_transactions_by_month all_transactions (year today) (month today) = Ok current ->
  get_total_income current = 100000 ->
  get_total_spending current = 70000 ->
  get0 (category_spending [b] all_transactions (strftime_Y_m today)) (Budget.category b)
    < Budget.amount b ->
  financial_health_score today all_transactions [b] =
    Ok (Some {| savings_score := Some 30;
                budget_adherence_score := 25;
                income_vs_expense_score := 25;
                debt_score := 10;
                score := 90;
                score_band := Excellent |}).
Proof.
  intros Hf Hi Hs Hb. unfold financial_health_score.
  destruct all_transactions as [|t ts].
  { rewrite filter_transactions_by_month_nil in Hf. injection Hf as <-.
    vm_compute in Hi. discriminate. }
  rewrite Hf. simpl. rewrite Hi, Hs.
  replace (savings_factor 100000 70000) with (Ok (Some 30) : result (option Z))
    by (vm_compute; reflexivity).
  simpl. unfold adherence_factor, over_budget_count. simpl.
  destruct (Z.ltb_spec (Budget.amount b)
              (get0 (category_spending [b] (t :: ts) (strftime_Y_m today))
                 (Budget.category b))) as [Hlt|_]; [lia|].
  simpl. reflexivity.
Qed.

Lemma health_score_example_witness :
  let today := {| year := 2024; month := 5; day := 17 |} in
  let ledger := [Transaction.mk "2024-05-01" "income" "Salary" "pay" 100000;
                 Transaction.mk "2024-05-02" "expense" "Food" "groceries" 3000;
                 Transaction.mk "2024-05-03" "expense" "Bills" "rent" 67000;
                 Transaction.mk "2024-04-20" "expense" "Food" "dinner" 9000] in
  score <$> (match financial_health_score today ledger [Budget.mk "Food" 10000] with
             | Ok r => r | Raise _ => None end) = Some 90.
Proof.
  intros today ledger.
  rewrite (health_score_example today ledger
             [Transaction.mk "2024-05-01" "income" "Salary" "pay" 100000;
              Transaction.mk "2024-05-02" "expense" "Food" "groceries" 3000;
              Transaction.mk "2024-05-03" "expense" "Bills" "rent" 67000]
             (Budget.mk "Food" 10000)).
  - reflexivity.
  - vm_compute. reflexivity.
  - vm_compute. reflexivity.
  - vm_compute. reflexivity.
  - vm_compute. reflexivity.
Defined.

Lemma savings_factor_range (i s : Z) (r : option Z) :
  savings_factor i s = Ok r -> 0 <= default 0 r <= 30.
Proof.
  unfold savings_factor. destruct (0 <? i).
  - destruct (true_div (i - s) i) as [q|]; result_simpl; [|discriminate].
    destruct (mul_int q 100) as [rate|]; result_simpl; [|discriminate].
    intros H. injection H as <-. simpl.
    destruct (ge_int rate 20), (ge_int rate 10), (gt_int rate 0); lia.
  - intros H. injection H as <-. simpl. lia.
Qed.

Lemma adherence_factor_range (today : datetime) (ts : list Transaction.t)
    (bs : list Budget.t) (a : Z) :
  adherence_factor today ts bs = Ok a -> 0 <= a <= 25.
Proof.
  unfold adherence_factor. destruct bs as [|b bs].
  - intros H. injection H as <-. lia.
  - destruct (_ =? 0).
    + intros H. injection H as <-. lia.
    + destruct (true_div _ 2) as [h|]; result_simpl; [|discriminate].
      destruct (ge_int h _); intros H; injection H as <-; lia.
Qed.

Lemma income_vs_expense_factor_range (i s : Z) :
  0 <= income_vs_expense_factor i s <= 25.
Proof.
  unfold income_vs_expense_factor.
  destruct (0 <? i), (s <? i), (i =? s); lia.
Qed.

Lemma savings_factor_returns (i s : Z) :
  Z.abs (i - s) < 2 ^ 1000 -> exists r, savings_factor i s = Ok r.
Proof.
  intros Hb. unfold savings_factor. destruct (Z.ltb_spec 0 i) as [Hi|Hi].
  - destruct (true_div_returns (i - s) i ltac:(lia) Hb) as (q & -> & _).
    result_simpl. rewrite mul_int_100. result_simpl. eexists. reflexivity.
  - eexists. reflexivity.
Qed.

Lemma adherence_factor_returns (today : datetime) (ts : list Transaction.t)
    (bs : list Budget.t) :
  Z.of_nat (length bs) < 2 ^ 1000 -> exists a, adherence_factor today ts bs = Ok a.
Proof.
  intros Hb. unfold adherence_factor. destruct bs as [|b bs]; [eexists; reflexivity|].
  destruct (_ =? 0); [eexists; reflexivity|].
  destruct (true_div_returns (Z.of_nat (length (b :: bs))) 2 ltac:(lia) ltac:(lia))
    as (h & -> & _).
  result_simpl. destruct (ge_int h _); eexists; reflexivity.
Qed.

(** C10. For a ledger that is not empty the score is never reported as
    missing, and a score that is computed lies between 10 and 90, of which
    the debt factor is always exactly 10. A score is computed whenever the
    dates of the ledger parse (and the month's balance and the number of
    budgets are below [2 ^ 1000]). *)
Theorem health_score_bounds (today : datetime)
    (all_transactions : list Transaction.t) (all_budgets : list Budget.t) :
  all_transactions <> [] ->
  match financial_health_score today all_transactions all_budgets with
  | Ok (Some r) => 10 <= score r <= 90 /\ debt_score r = 10
  | Ok None => False
  | Raise _ => True
  end
  /\ (let current :=
        List.filter (has_year_month (year today) (month today)) all_transactions in
      forallb (fun t => parseable (Transaction.date t)) all_transactions = true ->
      Z.abs (get_total_income current - get_total_spending current) < 2 ^ 1000 ->
      Z.of_nat (length all_budgets) < 2 ^ 1000 ->
      exists r, financial_health_score today all_transactions all_budgets = Ok (Some r)).
Proof.
  intros Hne. unfold financial_health_score.
  destruct all_transactions as [|t ts]; [congruence|]. split.
  - destruct (filter_transactions_by_month (t :: ts) (year today) (month today))
      as [cm|]; result_simpl; [|exact I].
    destruct (savings_factor _ _) as [sv|] eqn:Esv; result_simpl; [|exact I].
    destruct (adherence_factor _ _ _) as [ad|] eqn:Ead; result_simpl; [|exact I].
    apply savings_factor_range in Esv. apply adherence_factor_range in Ead.
    pose proof (income_vs_expense_factor_range (get_total_income cm) (get_total_spending cm)).
    cbn [score debt_score]. split; [lia | reflexivity].
  - intros Hparse Hbal Hlen.
    rewrite filter_transactions_by_month_eq, Hparse. result_simpl.
    destruct (savings_factor_returns _ _ Hbal) as (sv & ->). result_simpl.
    destruct (adherence_factor_returns today (t :: ts) all_budgets Hlen) as (ad & ->).
    result_simpl. eexists. reflexivity.
Qed.

Lemma health_score_bounds_witness :
  let today := {| year := 2024; month := 5; day := 17 |} in
  let ledger := [Transaction.mk "2024-05-02" "expense" "Food" "groceries" 3000] in
  financial_health_score today ledger [] =
    Ok (Some {| savings_score := None; budget_adherence_score := 0;
                income_vs_expense_score := 0; debt_score := 10;
                score := 10; score_band := NeedsAttention |})
  /\ match financial_health_score today ledger [] with
     | Ok (Some r) => 10 <= score r <= 90 /\ debt_score r = 10
     | Ok None => False
     | Raise _ => True
     end
  /\ exists r, financial_health_score today ledger [] = Ok (Some r).
Proof.
  intros today ledger.
  destruct (health_score_bounds today ledger [] ltac:(discriminate)) as [Hb Hr].
  split; [vm_compute; reflexivity|]. split; [exact Hb|].
  apply Hr; vm_compute; reflexivity.
Defined.

(** ** The comparison with last month *)

(** The comparison reports a direction that is the sign of the
    difference, for totals below [2 ^ 1000]. *)
Lemma compare_with_last_month_direction (current previous : Z) :
  0 < previous < 2 ^ 1000 -> Z.abs (current - previous) < 2 ^ 1000 ->
  exists p,
    percent_change current previous = Ok p
    /\ compare_with_last_month current previous =
         Ok (match current ?= previous with
             | Gt => Increased p
             | Lt => Decreased (SFabs p)
             | Eq => RemainedSame
             end).
Proof.
  intros Hp Hb. unfold compare_with_last_month, percent_change.
  destruct (Z.ltb_spec 0 previous) as [_|]; [|lia].
  destruct (Z.compare_spec current previous) as [->|Hlt|Hgt].
  - rewrite Z.sub_diag. destruct previous as [|pp|pp]; try lia.
    eexists. split; reflexivity.
  - destruct (true_div_nonzero (current - previous) previous) as (m & e & -> & He);
      try lia.
    result_simpl. rewrite mul_int_100. result_simpl.
    destruct (Z.ltb_spec (current - previous) 0); [|lia].
    destruct (Z.ltb_spec previous 0); [lia|]. cbn [xorb].
    destruct (times_100_sign true m e He) as [-> ->].
    eexists. split; reflexivity.
  - destruct (true_div_nonzero (current - previous) previous) as (m & e & -> & He);
      try lia.
    result_simpl. rewrite mul_int_100. result_simpl.
    destruct (Z.ltb_spec (current - previous) 0); [lia|].
    destruct (Z.ltb_spec previous 0); [lia|]. cbn [xorb].
    destruct (times_100_sign false m e He) as [-> ->].
    eexists. split; reflexivity.
Qed.

(** C8. With nothing spent last month the comparison divides nothing and
    returns one of the two outcomes without a baseline, by whether
    something was spent this month; with a positive total last month it
    reports the percent change [(current - previous) / previous * 100],
    and does report one when the difference of the two totals is below
    [2 ^ 1000]. *)
Theorem compare_with_last_month_spec (current previous : Z) :
  (previous = 0 ->
     compare_with_last_month current previous =
       Ok (if 0 <? current then OnlyCurrent else NeitherMonth))
  /\ (0 < previous ->
        compare_with_last_month current previous =
          (q ← true_div (current - previous) previous;
           p ← mul_int q 100;
           Ok (change_of_percent p)))
  /\ (0 < previous -> Z.abs (current - previous) < 2 ^ 1000 ->
        exists q, true_div (current - previous) previous = Ok q
                  /\ compare_with_last_month current previous =
                       Ok (change_of_percent (mul q f100))).
Proof.
  assert (0 < previous ->
          compare_with_last_month current previous =
            (q ← true_div (current - previous) previous;
             p ← mul_int q 100;
             Ok (change_of_percent p))) as Heq.
  { unfold compare_with_last_month, percent_change, change_of_percent.
    intros Hp. destruct (Z.ltb_spec 0 previous) as [_|]; [|lia].
    destruct (true_div (current - previous) previous) as [q|]; result_simpl; [|reflexivity].
    destruct (mul_int q 100) as [p|]; result_simpl; [|reflexivity].
    destruct (gt_int p 0); [reflexivity|]. destruct (lt_int p 0); reflexivity. }
  split; [|split].
  - unfold compare_with_last_month. intros ->. simpl.
    destruct (0 <? current); reflexivity.
  - exact Heq.
  - intros Hp Hb. rewrite (Heq Hp).
    destruct (true_div_returns (current - previous) previous ltac:(lia) Hb) as (q & Hq & _).
    exists q. split; [exact Hq|]. rewrite Hq. result_simpl.
    rewrite mul_int_100. reflexivity.
Qed.

Lemma compare_with_last_month_spec_witness :
  compare_with_last_month 5000 0 = Ok OnlyCurrent
  /\ compare_with_last_month 0 0 = Ok NeitherMonth
  /\ compare_with_last_month 15000 10000 = Ok (Increased (literal 50 1))
  /\ compare_with_last_month 7500 10000 = Ok (Decreased (literal 25 1))
  /\ compare_with_last_month 10000 10000 = Ok RemainedSame
  /\ exists q, true_div (15000 - 10000) 10000 = Ok q
               /\ compare_with_last_month 15000 10000 = Ok (change_of_percent (mul q f100)).
Proof.
  destruct (compare_with_last_month_spec 5000 0) as (H1 & _ & _).
  destruct (compare_with_last_month_spec 0 0) as (H2 & _ & _).
  destruct (compare_with_last_month_spec 15000 10000) as (_ & H3 & H6).
  destruct (compare_with_last_month_spec 7500 10000) as (_ & H4 & _).
  destruct (compare_with_last_month_spec 10000 10000) as (_ & H5 & _).
  rewrite (H1 eq_refl), (H2 eq_refl), H3, H4, H5 by lia.
  repeat (split; [vm_compute; reflexivity|]).
  apply H6; [lia | vm_compute; reflexivity].
Defined.

(** ** Income stability *)

Lemma in_band_Z (t0 ti : Z) : in_band t0 ti <-> 10 * Z.abs (ti - t0) <= t0.
Proof.
  unfold in_band, Qle, Qmult, inject_Z. cbn [Qnum Qden Pos.mul].
  rewrite Pos2Z.inj_mul. lia.
Qed.

Lemma f0_1_eq : f0_1 = S754_finite false 7205759403792794 (- 56).
Proof. reflexivity. Qed.

Lemma f0_20_eq : f0_20 = S754_finite false 7205759403792794 (- 55).
Proof. reflexivity. Qed.

Lemma within_tenth_exact (t0 x : Z) :
  Z.abs t0 < 2 ^ 52 ->
  within_tenth t0 x = Ok (10 * Z.abs (x - t0) <=? t0).
Proof.
  intros Hb. unfold within_tenth.
  destruct (Z.lt_trichotomy t0 0) as [Hneg|[->|Hpos]].
  - (* a negative base: the product is negative *)
    pose proof (int_times_float t0 7205759403792794 (- 56)
                  ltac:(lia) ltac:(lia) ltac:(lia) ltac:(lia)) as HT.
    cbv zeta in HT. rewrite <- f0_1_eq in HT.
    destruct (Z.ltb_spec t0 0) as [_|]; [|lia].
    set (A := Z.abs t0 * 7205759403792794) in *.
    assert (0 < A) as HA by (subst A; lia).
    assert (53 <= Zdigits2 A) as Hd53.
    { assert (52 < Zdigits2 A); [|lia]. apply Zdigits2_gt; [lia|]. subst A. lia. }
    assert (Zdigits2 A <= 106) as Hd106.
    { apply Zdigits2_le; [assumption|]. subst A. lia. }
    pose proof (rounded_mantissa_bounds A HA Hd53) as Hm1.
    destruct (of_int t0) as [b|]; [|discriminate]. result_simpl.
    cbn [mbind result_bind mret result_ret] in HT. injection HT as ->.
    unfold ge_int. rewrite compare_int_pack_neg by lia.
    destruct (Z.leb_spec (10 * Z.abs (x - t0)) t0); [lia | reflexivity].
  - (* a base of zero *)
    rewrite of_int_zero. result_simpl. unfold ge_int, mul. rewrite f0_1_eq.
    cbn [SFmul xorb compare_int]. rewrite Z.sub_0_r.
    destruct (Z.compare_spec 0 (Z.abs x)), (Z.leb_spec (10 * Z.abs x) 0);
      try lia; reflexivity.
  - destruct (int_times_literal_compare t0 7205759403792794 56 10 4 (Z.abs (x - t0)))
      as (c & Hc & Hiff); try lia.
    change (S754_finite false 7205759403792794 (Z.opp 56)) with f0_1 in Hc.
    destruct (of_int t0) as [b|]; [|discriminate]. result_simpl.
    cbn [mbind result_bind mret result_ret] in Hc. injection Hc as Hc.
    unfold ge_int. rewrite Hc.
    destruct (Z.leb_spec (10 * Z.abs (x - t0)) t0) as [Hle|Hgt].
    + destruct c; try reflexivity. exfalso. apply proj1 in Hiff.
      specialize (Hiff eq_refl). lia.
    + apply proj2 in Hiff. rewrite (Hiff ltac:(lia)). reflexivity.
Qed.

(** C3, as the code has it. For three totals whose first is below
    [2 ^ 52] in absolute value, the classification is STABLE exactly when
    both later totals are within a tenth of the first, and FLUCTUATING
    otherwise; from a first total of 0, STABLE exactly when the two others
    are 0. The classification is computed without a division. *)
Theorem income_stability_spec (t0 t1 t2 : Z) :
  Z.abs t0 < 2 ^ 52 ->
  exists s,
    income_stability [t0; t1; t2] = Ok s
    /\ (s = STABLE \/ s = FLUCTUATING)
    /\ (s = STABLE <-> in_band t0 t1 /\ in_band t0 t2)
    /\ (t0 = 0 -> (s = STABLE <-> t1 = 0 /\ t2 = 0)).
Proof.
  intros Hb. unfold income_stability.
  rewrite (within_tenth_exact t0 t1 Hb). result_simpl.
  destruct (Z.leb_spec (10 * Z.abs (t1 - t0)) t0) as [H1|H1].
  - rewrite (within_tenth_exact t0 t2 Hb). result_simpl.
    destruct (Z.leb_spec (10 * Z.abs (t2 - t0)) t0) as [H2|H2].
    + exists STABLE. rewrite !in_band_Z.
      repeat split; auto; intros; lia.
    + exists FLUCTUATING. rewrite !in_band_Z.
      repeat split; auto; try discriminate; intros; lia.
  - result_simpl. exists FLUCTUATING. rewrite !in_band_Z.
    repeat split; auto; try discriminate; intros; lia.
Qed.

Lemma income_stability_spec_witness :
  income_stability [1000; 1050; 950] = Ok STABLE
  /\ income_stability [1000; 1200; 900] = Ok FLUCTUATING
  /\ income_stability [0; 0; 0] = Ok STABLE
  /\ income_stability [0; 50; 0] = Ok FLUCTUATING
  /\ exists s, income_stability [1000; 1050; 950] = Ok s
               /\ (s = STABLE <-> in_band 1000 1050 /\ in_band 1000 950).
Proof.
  repeat (split; [vm_compute; reflexivity|]).
  destruct (income_stability_spec 1000 1050 950 ltac:(vm_compute; reflexivity))
    as (s & Hs & _ & Hiff & _).
  exists s. split; assumption.
Defined.

(** C3, as the claim has it, fails on totals that a double cannot hold:
    [10^17 - 1] becomes [1e17], a tenth of which admits a rise of
    [10^16], which is more than a tenth of [10^17 - 1]. *)
Lemma income_stability_large_totals :
  income_stability [10 ^ 17 - 1; 10 ^ 17 - 1 + 10 ^ 16; 10 ^ 17 - 1] = Ok STABLE
  /\ ~ in_band (10 ^ 17 - 1) (10 ^ 17 - 1 + 10 ^ 16).
Proof.
  split; [vm_compute; reflexivity|].
  rewrite in_band_Z. vm_compute. intros H. apply H. reflexivity.
Qed.

(** ** Large transactions *)










(** ** Conversion to paisa *)

Lemma round_is_nearest_even (p : float) :
  is_finite p = true -> exists n, round p = Ok n /\ nearest_even n (to_Q p).
Proof.
  destruct p as [s|s| |s m e]; try discriminate; intros _.
  - exists 0. split; [reflexivity|]. split; [vm_compute; discriminate|].
    vm_compute. discriminate.
  - cbn [round to_Q]. set (sm := cond_Zopp s (Zpos m)).
    destruct (Z.leb_spec 0 e) as [He|He].
    + exists (sm * 2 ^ e). split; [reflexivity|].
      unfold nearest_even, Qminus.
      assert (inject_Z (sm * 2 ^ e) + - inject_Z (sm * 2 ^ e) == 0)%Q as E
        by apply Qplus_opp_r.
      split.
      * rewrite E. vm_compute. discriminate.
      * rewrite E. vm_compute. discriminate.
    + exists (round_half_even sm (2 ^ (- e))). split; [reflexivity|].
      pose proof (Z.pow_pos_nonneg 2 (- e) ltac:(lia) ltac:(lia)) as HD.
      pose proof (round_half_even_near sm (2 ^ (- e)) HD) as [Hn Hev].
      set (n := round_half_even sm (2 ^ (- e))) in *.
      unfold nearest_even, Qle, Qeq, Qabs, Qminus, Qplus, Qopp, inject_Z.
      cbn [Qnum Qden]. rewrite !Pos2Z.inj_mul, !Z2Pos.id by lia.
      split.
      * replace (n * 2 ^ (- e) + - sm * 1) with (n * 2 ^ (- e) - sm) by ring. lia.
      * replace (n * 2 ^ (- e) + - sm * 1) with (n * 2 ^ (- e) - sm) by ring.
        intros H. apply Hev. lia.
Qed.

(** C4, as the code has it. [to_paisa] returns an integer nearest to the
    double product [amount * 100], and the even one when the product is
    halfway between two integers; it raises when the product is not
    finite. *)
Theorem to_paisa_nearest_even (amount : float) :
  let product := mul amount f100 in
  match product with
  | S754_nan => to_paisa amount = Raise ValueError
  | S754_infinity _ => to_paisa amount = Raise OverflowError
  | _ => exists n, to_paisa amount = Ok n /\ nearest_even n (to_Q product)
  end.
Proof.
  intros product. unfold to_paisa. rewrite mul_int_100. result_simpl.
  fold product. destruct product as [s|s| |s m e] eqn:Ep; try reflexivity.
  - apply (round_is_nearest_even (S754_zero s)). reflexivity.
  - apply (round_is_nearest_even (S754_finite s m e)). reflexivity.
Qed.

(** C4, as the claim has it, fails at its own examples: half a paisa is
    rounded to 0, not away from zero, as 12.5 paisa is rounded to 12. *)
Lemma to_paisa_half_is_not_away_from_zero :
  to_paisa (literal 5 1000) = Ok 0
  /\ to_paisa (literal (-5) 1000) = Ok 0
  /\ to_paisa (literal 125 1000) = Ok 12
  /\ (to_Q (mul (literal 5 1000) f100) == 1 # 2)%Q
  /\ (to_Q (mul (literal 125 1000) f100) == 25 # 2)%Q.
Proof. vm_compute. repeat split. Qed.

(** * The rest of the code *)

(** ** The spending of the budgeted categories *)

Lemma budget_keys_lookup (budgets : list Budget.t) (d : gmap string Z) (c : string) :
  fold_left (fun (d : gmap string Z) b => <[Budget.category b := 0]> d) budgets d !! c
  = if budgeted budgets c then Some 0 else d !! c.
Proof.
  revert d. induction budgets as [|b bs IH]; intros d; simpl; [reflexivity|].
  rewrite IH. fold (budgeted bs c).
  destruct (String.eqb_spec (Budget.category b) c) as [->|Hne]; simpl.
  - rewrite lookup_insert_eq. destruct (budgeted bs c); reflexivity.
  - rewrite lookup_insert_ne by exact Hne. reflexivity.
Qed.

Lemma total_cons (t : Transaction.t) (ts : list Transaction.t) :
  total (t :: ts) = Transaction.amount t + total ts.
Proof. unfold total. simpl. apply sum_cons. Qed.

Lemma month_spending_lookup (ts : list Transaction.t) (m c : string) (d : gmap string Z) :
  fold_left
    (fun (d : gmap string Z) t =>
       if startswith (Transaction.date t) m && is_expense t
       then match d !! Transaction.category t with
            | Some v => <[Transaction.category t := v + Transaction.amount t]> d
            | None => d
            end
       else d) ts d !! c
  = match d !! c with
    | Some v => Some (v + total (of_category (month_expense m) c ts))
    | None => None
    end.
Proof.
  revert d. induction ts as [|t ts IH]; intros d; simpl.
  - destruct (d !! c); [f_equal; unfold total, sum; simpl; lia | reflexivity].
  - rewrite IH. unfold of_category, month_expense. simpl.
    destruct (startswith (Transaction.date t) m && is_expense t); simpl; [|reflexivity].
    destruct (String.eqb_spec (Transaction.category t) c) as [->|Hne].
    + destruct (d !! c) as [v|] eqn:Hc.
      * rewrite lookup_insert_eq. f_equal.
        change (List.filter _ ts) with (of_category (month_expense m) c ts).
        rewrite total_cons. unfold of_category, month_expense. lia.
      * rewrite Hc. reflexivity.
    + destruct (d !! Transaction.category t); [|reflexivity].
      rewrite lookup_insert_ne by exact Hne. reflexivity.
Qed.

Lemma category_spending_eq (budgets : list Budget.t) (ts : list Transaction.t)
    (m c : string) :
  category_spending budgets ts m !! c =
  if budgeted budgets c then Some (total (of_category (month_expense m) c ts)) else None.
Proof.
  unfold category_spending. rewrite month_spending_lookup, budget_keys_lookup.
  rewrite lookup_empty. destruct (budgeted budgets c); [f_equal; lia | reflexivity].
Qed.

Lemma budgeted_In (budgets : list Budget.t) (b : Budget.t) :
  In b budgets -> budgeted budgets (Budget.category b) = true.
Proof.
  intros Hin. unfold budgeted. apply existsb_exists. exists b.
  split; [exact Hin | apply String.eqb_refl].
Qed.

(** X1. The dictionary that the budget views build has one entry for each
    category that has a budget and no other; the entry is the total of the
    expenses of that category whose date starts with the month. Looking up
    the category of a budget, as the alerts and the recommendations do,
    never raises KeyError. *)
Theorem category_spending_lookup (budgets : list Budget.t) (ts : list Transaction.t)
    (m : string) :
  (forall c, category_spending budgets ts m !! c =
             if budgeted budgets c
             then Some (total (of_category (month_expense m) c ts))
             else None)
  /\ Forall (fun b => getitem (category_spending budgets ts m) (Budget.category b)
                      = Ok (total (of_category (month_expense m) (Budget.category b) ts)))
       budgets.
Proof.
  split; [apply category_spending_eq|].
  apply List.Forall_forall. intros b Hin. unfold getitem.
  rewrite category_spending_eq, (budgeted_In budgets b Hin). reflexivity.
Qed.

Lemma grouped_lookup (keep : Transaction.t -> bool) (ts : list Transaction.t)
    (c : string) (d : gmap string Z) :
  fold_left
    (fun (d : gmap string Z) t =>
       if keep t then add_to (Transaction.category t) (Transaction.amount t) d else d)
    ts d !! c
  = match of_category keep c ts with
    | [] => d !! c
    | l => Some (default 0 (d !! c) + total l)
    end.
Proof.
  revert d. induction ts as [|t ts IH]; intros d; simpl; [reflexivity|].
  rewrite IH. unfold of_category. simpl.
  destruct (keep t); simpl; [|reflexivity].
  fold (of_category keep c ts). unfold add_to.
  destruct (String.eqb_spec (Transaction.category t) c) as [->|Hne].
  - rewrite lookup_insert_eq. rewrite total_cons. simpl.
    destruct (of_category keep c ts) as [|x l] eqn:E.
    + f_equal. unfold total, sum. simpl. lia.
    + f_equal. lia.
  - rewrite lookup_insert_ne by exact Hne. reflexivity.
Qed.

(** X2. The grouped dictionaries have a key for exactly the categories
    that occur in an expense (in an income, for the sources), also when
    the amounts are zero, and each value is the total of that category. *)
Theorem grouped_by_category_lookup (ts : list Transaction.t) (c : string) :
  get_monthly_spending_by_category ts !! c =
    match of_category is_expense c ts with
    | [] => None
    | l => Some (total l)
    end
  /\ get_monthly_income_by_source ts !! c =
    match of_category is_income c ts with
    | [] => None
    | l => Some (total l)
    end.
Proof.
  unfold get_monthly_spending_by_category, get_monthly_income_by_source.
  rewrite !grouped_lookup, lookup_empty. simpl.
  split; destruct (of_category _ c ts); reflexivity.
Qed.

Lemma income_fold_total (ts : list Transaction.t) (d : gmap string Z) :
  sum_values
    (fold_left
       (fun (d : gmap string Z) t =>
          if is_income t
          then add_to (Transaction.category t) (Transaction.amount t) d
          else d) ts d)
  = sum_values d + get_total_income ts.
Proof.
  unfold get_total_income. revert d.
  induction ts as [|t ts IH]; intros d; simpl.
  - unfold sum. simpl. lia.
  - rewrite IH. destruct (is_income t); simpl.
    + rewrite sum_values_add_to, sum_cons. lia.
    + reflexivity.
Qed.

(** X3. The incomes grouped by source add up to the total income, which
    is what [income_analysis] prints as the total of the month. *)
Theorem income_by_source_adds_up (transactions : list Transaction.t) :
  sum_values (get_monthly_income_by_source transactions)
  = get_total_income transactions.
Proof.
  unfold get_monthly_income_by_source.
  rewrite income_fold_total, sum_values_empty. lia.
Qed.

(** ** Alerts, overview and report on the same budget *)

Lemma ge_int_mono (f : float) (z1 z2 : Z) :
  z1 <= z2 -> ge_int f z2 = true -> ge_int f z1 = true.
Proof.
  intros Hz. unfold ge_int, compare_int.
  destruct f as [s|s| |s m e]; try (intros H; exact H).
  - destruct (Z.compare_spec 0 z2); try discriminate;
      destruct (Z.compare_spec 0 z1); try reflexivity; lia.
  - set (sm := cond_Zopp s (Zpos m)).
    destruct (Z.leb_spec 0 e) as [He|He].
    + destruct (Z.compare_spec (sm * 2 ^ e) z2); try discriminate;
        destruct (Z.compare_spec (sm * 2 ^ e) z1); try reflexivity; lia.
    + pose proof (Z.pow_pos_nonneg 2 (- e) ltac:(lia) ltac:(lia)) as Hp.
      destruct (Z.compare_spec sm (z2 * 2 ^ (- e))); try discriminate;
        destruct (Z.compare_spec sm (z1 * 2 ^ (- e))); try reflexivity; nia.
Qed.

Lemma number_ge_mono (u : number) (z1 z2 : Z) :
  z1 <= z2 -> number_ge u z2 = true -> number_ge u z1 = true.
Proof.
  intros Hz. destruct u as [a|f]; simpl.
  - intros H. apply Z.leb_le in H. apply Z.leb_le. lia.
  - apply ge_int_mono, Hz.
Qed.

Lemma number_lt_not_ge (u : number) (z : Z) :
  number_lt u z = true -> number_ge u z = false.
Proof.
  destruct u as [a|f]; simpl.
  - intros H. apply Z.ltb_lt in H. apply Z.leb_gt. exact H.
  - unfold lt_int, ge_int. destruct (compare_int f z) as [[]|]; congruence.
Qed.

Lemma number_ge_not_lt (u : number) (z : Z) :
  number_ge u z = true -> number_lt u z = false.
Proof.
  intros H. destruct (number_lt u z) eqn:E; [|reflexivity].
  apply number_lt_not_ge in E. congruence.
Qed.

Lemma alert_utilization_eq (spending : gmap string Z) (b : Budget.t) (v : Z) :
  spending !! Budget.category b = Some v ->
  alert_utilization spending b = utilization v (Budget.amount b)
  /\ get0 spending (Budget.category b) = v.
Proof.
  intros Hv. unfold alert_utilization, utilization, getitem, get0. rewrite Hv.
  split; reflexivity.
Qed.

Lemma budget_alert_of_status (spending : gmap string Z) (b : Budget.t) (v : Z)
    (r : budget_row) :
  spending !! Budget.category b = Some v ->
  view_budgets_row spending b = Ok r ->
  exists alerts,
    budget_alert spending b = Ok alerts
    /\ (row_status r = OVER <->
        alerts = [Exceeded (Budget.category b) (row_utilization r)])
    /\ (row_status r = OK -> alerts = [])
    /\ (forall c u, In (Approaching c u) alerts -> row_status r = WARNING).
Proof.
  intros Hv Hrow. destruct (alert_utilization_eq spending b v Hv) as [Ha Hg].
  unfold view_budgets_row in Hrow. rewrite Hg in Hrow.
  unfold budget_alert. rewrite Ha.
  destruct (utilization v (Budget.amount b)) as [u|]; [|discriminate].
  cbn [mbind result_bind mret result_ret] in Hrow |- *.
  injection Hrow as <-. cbn [row_status row_utilization].
  unfold view_budgets_status.
  destruct (number_ge u 100) eqn:E100.
  - rewrite (number_ge_not_lt u 100 E100), andb_false_r.
    eexists. split; [reflexivity|]. split; [tauto|].
    split; [discriminate|]. intros c u' [H|[]]. discriminate.
  - destruct (number_ge u 70) eqn:E70.
    + destruct (number_ge u 80 && number_lt u 100);
        eexists; (split; [reflexivity|]); (split; [split; discriminate|]);
        (split; [discriminate|]); reflexivity.
    + assert (number_ge u 80 = false) as ->.
      { destruct (number_ge u 80) eqn:E80; [|reflexivity].
        apply (number_ge_mono u 70 80) in E80; [congruence | lia]. }
      eexists. split; [reflexivity|]. split; [split; discriminate|].
      split; [reflexivity|]. intros c u' [].
Qed.

(** X4. For a budget of the list, the alert of [get_spending_alerts] and
    the row of [view_budgets] are computed from the same utilization and
    agree: the budget is reported as exceeded exactly when its row is
    OVER, a row that is OK gives no alert, and an alert of approaching the
    limit is only given for a row in WARNING. *)
Theorem alerts_agree_with_view (budgets : list Budget.t) (ts : list Transaction.t)
    (today : datetime) (b : Budget.t) (r : budget_row) :
  In b budgets ->
  view_budgets_row (category_spending budgets ts (strftime_Y_m today)) b = Ok r ->
  exists alerts,
    budget_alert (category_spending budgets ts (strftime_Y_m today)) b = Ok alerts
    /\ (row_status r = OVER <->
        alerts = [Exceeded (Budget.category b) (row_utilization r)])
    /\ (row_status r = OK -> alerts = [])
    /\ (forall c u, In (Approaching c u) alerts -> row_status r = WARNING).
Proof.
  intros Hin Hrow.
  apply (budget_alert_of_status _ b
           (total (of_category (month_expense (strftime_Y_m today)) (Budget.category b) ts)));
    [|exact Hrow].
  rewrite category_spending_eq, (budgeted_In budgets b Hin). reflexivity.
Qed.

Lemma alerts_agree_with_view_witness :
  let today := {| year := 2024; month := 5; day := 17 |} in
  let food := Budget.mk "Food" 10000 in
  let ts := [Transaction.mk "2024-05-03" "expense" "Food" "groceries" 8500] in
  exists r alerts,
    view_budgets_row (category_spending [food] ts (strftime_Y_m today)) food = Ok r
    /\ budget_alert (category_spending [food] ts (strftime_Y_m today)) food = Ok alerts
    /\ (row_status r = OK -> alerts = []).
Proof.
  intros today food ts.
  destruct (view_budgets_row (category_spending [food] ts (strftime_Y_m today)) food)
    as [r|] eqn:Er; [|vm_compute in Er; discriminate].
  destruct (alerts_agree_with_view [food] ts today food r) as (alerts & Ha & _ & Hok & _).
  - cbn [In]. auto.
  - exact Er.
  - exists r, alerts. auto.
Defined.

(** ** A budget that the report marks OVER *)

Lemma Zdigits2_mono (a b : Z) : 0 < b <= a -> Zdigits2 b <= Zdigits2 a.
Proof.
  intros H. pose proof (Zdigits2_bounds b ltac:(lia)) as [Hb _].
  pose proof (Zdigits2_bounds a ltac:(lia)) as [_ Ha].
  pose proof (Zdigits2_pos b ltac:(lia)).
  destruct (Z.le_gt_cases (Zdigits2 b) (Zdigits2 a)) as [|Hgt]; [assumption|].
  assert (2 ^ Zdigits2 a <= 2 ^ (Zdigits2 b - 1)) by (apply Z.pow_le_mono_r; lia).
  lia.
Qed.

(** The quotient of two positive integers, the first at least the second,
    is a float that is at least one. *)
Lemma true_div_ge_one (a b : Z) (q : float) :
  0 < b <= a -> true_div a b = Ok q ->
  exists m e, q = S754_finite false m e /\ -1074 <= e
              /\ (e < 0 -> 2 ^ (- e) <= Zpos m).
Proof.
  intros Hab Hdiv.
  assert (SFdiv prec emax (raw a) (raw b) = q /\ is_infinity q = false) as [Hq Hfin].
  { unfold true_div in Hdiv. destruct (b =? 0); [discriminate|].
    cbv zeta in Hdiv. destruct (is_infinity _) eqn:Ei; [discriminate|].
    injection Hdiv as Hdiv. subst q. split; [reflexivity | exact Ei]. }
  rewrite (SFdiv_raw a b ltac:(lia) ltac:(lia)) in Hq. cbv zeta in Hq.
  replace (Z.abs a) with a in Hq by lia. replace (Z.abs b) with b in Hq by lia.
  destruct (Z.ltb_spec a 0) as [|_]; [lia|].
  destruct (Z.ltb_spec b 0) as [|_]; [lia|]. cbn [xorb] in Hq.
  set (e' := Z.min (fexp prec emax (Zdigits2 a - Zdigits2 b)) 0) in *.
  set (X := a * 2 ^ (- e')) in *.
  set (qz := X / b) in *.
  set (k := Z.max (fexp prec emax (Zdigits2 qz + e') - e') 0) in *.
  pose proof (Zdigits2_mono a b Hab) as Hmono.
  pose proof (Zdigits2_bounds a ltac:(lia)) as [Ha1 Ha2].
  pose proof (Zdigits2_bounds b ltac:(lia)) as [Hb1 Hb2].
  pose proof (Zdigits2_pos a ltac:(lia)) as Hd1.
  pose proof (Zdigits2_pos b ltac:(lia)) as Hd2.
  set (d1 := Zdigits2 a) in *. set (d2 := Zdigits2 b) in *.
  assert (-53 <= e' <= 0 /\ e' <= d1 - d2 - 53) as (He' & He'')
    by (subst e'; rewrite fexp_eq; lia).
  pose proof (Z.pow_pos_nonneg 2 (- e') ltac:(lia) ltac:(lia)) as Hs.
  assert (2 ^ 52 * b <= X) as HX.
  { subst X.
    assert (2 ^ (52 + d2) <= 2 ^ (d1 - 1) * 2 ^ (- e')) as H.
    { rewrite <- Z.pow_add_r by lia. apply Z.pow_le_mono_r; lia. }
    rewrite Z.pow_add_r in H by lia. nia. }
  assert (2 ^ 52 <= qz) as Hqz by (subst qz; apply Z.div_le_lower_bound; lia).
  assert (52 < Zdigits2 qz) as Hdq by (apply Zdigits2_gt; lia).
  assert (0 <= k /\ e' + k = Z.max (Zdigits2 qz + e' - 53) e') as [Hk HE]
    by (subst k; rewrite fexp_eq; lia).
  pose proof (Z.pow_pos_nonneg 2 k ltac:(lia) ltac:(lia)) as Hpk.
  assert (e' + k < 0 -> 2 ^ (- (e' + k)) <= round_half_even X (2 ^ k * b)) as Hone.
  { intros Hneg. apply round_half_even_ge; [nia|].
    rewrite Z.mul_assoc, <- Z.pow_add_r by lia.
    replace (- (e' + k) + k) with (- e') by lia. subst X. nia. }
  assert (1 <= round_half_even X (2 ^ k * b)) as Hm1.
  { apply round_half_even_ge; [nia|].
    pose proof (Zdigits2_bounds qz ltac:(lia)) as [Hq1 _].
    assert (2 ^ k <= 2 ^ (Zdigits2 qz - 1)) by (apply Z.pow_le_mono_r; lia).
    assert (qz * b <= X); [|nia].
    subst qz. rewrite Z.mul_comm. apply Z.mul_div_le. lia. }
  set (m1 := round_half_even X (2 ^ k * b)) in *.
  subst q. unfold pack in *.
  destruct (Z.eqb_spec m1 0); [lia|].
  destruct (m1 <? 2 ^ 53).
  - destruct (e' + k <=? 971); [|discriminate Hfin].
    eexists _, _. split; [reflexivity|]. split; [lia|].
    intros Hneg. rewrite Z2Pos.id by lia. apply Hone, Hneg.
  - destruct (e' + k + 1 <=? 971); [|discriminate Hfin].
    eexists _, _. split; [reflexivity|]. split; [lia|].
    intros Hneg. rewrite Z2Pos.id by lia.
    apply Z.pow_le_mono_r; lia.
Qed.

(** A float that is at least one, times [100.0], is at least 100. *)
Lemma times_100_ge_100 (m : positive) (e : Z) :
  -1074 <= e -> (e < 0 -> 2 ^ (- e) <= Zpos m) ->
  ge_int (mul (S754_finite false m e) f100) 100 = true.
Proof.
  intros He Hone. unfold mul.
  change f100 with (S754_finite false 7036874417766400 (-46)).
  cbn [SFmul xorb].
  rewrite (binary_round_aux_spec false _ _ loc_Exact (Zpos (m * 7036874417766400)) 1)
    by (try apply shr_inv_exact; lia).
  set (M := Zpos (m * 7036874417766400)).
  assert (M = Zpos m * (100 * 2 ^ 46)) as HMeq by (subst M; lia).
  assert (0 < M) as HMpos by (subst M; lia).
  assert (53 <= Zdigits2 M) as Hd.
  { assert (52 < Zdigits2 M); [|lia]. apply Zdigits2_gt; lia. }
  assert (e < 0 -> 52 - e < Zdigits2 M) as Hd'.
  { intros Hneg. apply Zdigits2_gt; [lia|].
    replace (52 - e) with (52 + - e) by lia. rewrite Z.pow_add_r, HMeq by lia.
    specialize (Hone Hneg). nia. }
  set (k := Z.max (fexp prec emax (Zdigits2 M + (e + -46)) - (e + -46)) 0).
  assert (k = Zdigits2 M - 53) as Hk by (subst k; rewrite fexp_eq; lia).
  pose proof (Z.pow_pos_nonneg 2 k ltac:(lia) ltac:(lia)) as Hpk.
  pose proof (rounded_mantissa_bounds M HMpos Hd) as Hm1. rewrite <- Hk in Hm1.
  rewrite Z.mul_1_r.
  assert (e + -46 + k < 0 ->
          100 * 2 ^ (- (e + -46 + k)) <= round_half_even M (2 ^ k)) as Hbig.
  { intros Hneg. apply round_half_even_ge; [lia|].
    rewrite <- Z.mul_assoc, <- Z.pow_add_r by lia.
    replace (- (e + -46 + k) + k) with (46 - e) by lia. rewrite HMeq.
    destruct (Z.lt_ge_cases e 0) as [He0|He0].
    - replace (46 - e) with (46 + - e) by lia. rewrite Z.pow_add_r by lia.
      specialize (Hone He0). nia.
    - assert (2 ^ (46 - e) <= 2 ^ 46) by (apply Z.pow_le_mono_r; lia). nia. }
  set (m1 := round_half_even M (2 ^ k)) in *.
  set (E := e + -46 + k) in *.
  unfold pack, ge_int.
  destruct (Z.eqb_spec m1 0); [lia|].
  destruct (Z.ltb_spec m1 (2 ^ 53)).
  - destruct (E <=? 971); [|reflexivity].
    cbn [compare_int cond_Zopp]. rewrite Z2Pos.id by lia.
    destruct (Z.leb_spec 0 E) as [HE|HE].
    + pose proof (Z.pow_pos_nonneg 2 E ltac:(lia) HE).
      destruct (Z.compare_spec (m1 * 2 ^ E) 100); try reflexivity. nia.
    + specialize (Hbig HE).
      destruct (Z.compare_spec m1 (100 * 2 ^ (- E))); try reflexivity. lia.
  - destruct (E + 1 <=? 971); [|reflexivity].
    cbn [compare_int cond_Zopp]. rewrite Z2Pos.id by lia.
    destruct (Z.leb_spec 0 (E + 1)) as [HE|HE].
    + pose proof (Z.pow_pos_nonneg 2 (E + 1) ltac:(lia) HE).
      destruct (Z.compare_spec (2 ^ 52 * 2 ^ (E + 1)) 100); try reflexivity. nia.
    + specialize (Hbig ltac:(lia)).
      replace (- E) with (- (E + 1) + 1) in Hbig by lia.
      rewrite Z.pow_add_r in Hbig by lia.
      destruct (Z.compare_spec (2 ^ 52) (100 * 2 ^ (- (E + 1)))); try reflexivity. lia.
Qed.

Lemma report_status_over (spent amount : Z) :
  report_status spent amount = Ok OVER <-> amount < spent.
Proof.
  unfold report_status. destruct (Z.ltb_spec amount spent) as [H|H].
  - tauto.
  - split; [|lia]. destruct (of_int amount) as [a|]; result_simpl; [|discriminate].
    destruct (lt_int _ _); discriminate.
Qed.

(** X5. A budget with a positive amount that the monthly report marks
    OVER is OVER in [view_budgets] as well, whatever the sizes: the
    quotient of the two integers is at least one and its product with 100
    at least 100. With an amount that is not positive the two part: the
    report says OVER as soon as something was spent, [view_budgets] says
    OK. *)
Theorem report_over_is_view_over (spent amount : Z) :
  report_status spent amount = Ok OVER ->
  (0 < amount ->
   forall u, utilization spent amount = Ok u -> view_budgets_status u = OVER)
  /\ (amount <= 0 ->
      (u ← utilization spent amount; Ok (view_budgets_status u)) = Ok OK).
Proof.
  intros Hover. apply report_status_over in Hover. split.
  - intros Hpos u Hu. unfold utilization in Hu.
    destruct (Z.ltb_spec 0 amount) as [_|]; [|lia].
    destruct (true_div spent amount) as [q|] eqn:Eq; [|discriminate].
    cbn [mbind result_bind mret result_ret] in Hu.
    rewrite mul_int_100 in Hu. cbn [mbind result_bind mret result_ret] in Hu.
    injection Hu as <-.
    destruct (true_div_ge_one spent amount q ltac:(lia) Eq) as (m & e & -> & He & Hone).
    unfold view_budgets_status. cbn [number_ge].
    rewrite (times_100_ge_100 m e He Hone). reflexivity.
  - intros Hle. unfold utilization.
    destruct (Z.ltb_spec 0 amount) as [|_]; [lia|]. reflexivity.
Qed.

Lemma report_over_is_view_over_witness :
  (exists u, utilization 10001 10000 = Ok u /\ view_budgets_status u = OVER)
  /\ (u ← utilization 1 0; Ok (view_budgets_status u)) = Ok OK.
Proof.
  destruct (report_over_is_view_over 10001 10000 eq_refl) as [H _].
  destruct (report_over_is_view_over 1 0 eq_refl) as [_ H0].
  split.
  - destruct (utilization 10001 10000) as [u|] eqn:Eu; [|vm_compute in Eu; discriminate].
    exists u. split; [reflexivity|]. apply H; [lia | reflexivity].
  - apply H0. lia.
Defined.

(** ** The health score without income, and without budgets *)

Lemma savings_factor_none (i s : Z) :
  savings_factor i s = Ok None -> (0 <? i) = false.
Proof.
  unfold savings_factor. destruct (0 <? i); [|reflexivity].
  destruct (true_div (i - s) i) as [q|]; result_simpl; [|discriminate].
  destruct (mul_int q 100) as [rate|]; result_simpl; discriminate.
Qed.

(** X6. When the month has no income (the savings factor reads N/A), the
    score is the budget adherence plus the 10 points of the debt factor:
    at most 35, which is read as needing attention, whatever the
    expenses and the budgets are. *)
Theorem health_score_without_income (today : datetime)
    (ts : list Transaction.t) (bs : list Budget.t) (r : health_report) :
  financial_health_score today ts bs = Ok (Some r) ->
  savings_score r = None ->
  income_vs_expense_score r = 0
  /\ score r = budget_adherence_score r + 10
  /\ score r <= 35
  /\ score_band r = NeedsAttention.
Proof.
  unfold financial_health_score. destruct ts as [|t ts]; [discriminate|].
  destruct (filter_transactions_by_month (t :: ts) (year today) (month today))
    as [cm|]; result_simpl; [|discriminate].
  destruct (savings_factor _ _) as [sv|] eqn:Esv; result_simpl; [|discriminate].
  destruct (adherence_factor _ _ _) as [ad|] eqn:Ead; result_simpl; [|discriminate].
  intros H Hsv. injection H as <-. cbn in Hsv |- *. subst sv.
  apply savings_factor_none in Esv. apply adherence_factor_range in Ead.
  unfold income_vs_expense_factor. rewrite Esv. cbn [default].
  assert (interpretation (0 + ad + 0 + 10) = NeedsAttention) as ->.
  { unfold interpretation.
    destruct (Z.leb_spec 80 (0 + ad + 0 + 10)); [lia|].
    destruct (Z.leb_spec 60 (0 + ad + 0 + 10)); [lia|].
    destruct (Z.leb_spec 40 (0 + ad + 0 + 10)); [lia|]. reflexivity. }
  repeat split; lia.
Qed.

Lemma health_score_without_income_witness :
  let today := {| year := 2024; month := 5; day := 17 |} in
  let ledger := [Transaction.mk "2024-05-02" "expense" "Food" "groceries" 3000] in
  exists r, financial_health_score today ledger [Budget.mk "Food" 10000] = Ok (Some r)
            /\ score r = 35 /\ score_band r = NeedsAttention.
Proof.
  intros today ledger.
  destruct (financial_health_score today ledger [Budget.mk "Food" 10000])
    as [[r|]|] eqn:E; try (vm_compute in E; discriminate).
  exists r.
  destruct (health_score_without_income today ledger [Budget.mk "Food" 10000] r E)
    as (_ & Hs & _ & Hb).
  - vm_compute in E. injection E as <-. reflexivity.
  - split; [reflexivity|]. split; [|exact Hb].
    rewrite Hs. vm_compute in E. injection E as <-. reflexivity.
Defined.

(** X7. Without budgets the adherence factor is 0, so the score is at
    most 65 and is never read as excellent. *)
Theorem health_score_without_budgets (today : datetime)
    (ts : list Transaction.t) (r : health_report) :
  financial_health_score today ts [] = Ok (Some r) ->
  budget_adherence_score r = 0
  /\ score r <= 65
  /\ score_band r <> Excellent.
Proof.
  unfold financial_health_score. destruct ts as [|t ts]; [discriminate|].
  destruct (filter_transactions_by_month (t :: ts) (year today) (month today))
    as [cm|]; result_simpl; [|discriminate].
  destruct (savings_factor _ _) as [sv|] eqn:Esv; result_simpl; [|discriminate].
  intros H. injection H as <-. cbn.
  apply savings_factor_range in Esv.
  pose proof (income_vs_expense_factor_range (get_total_income cm) (get_total_spending cm))
    as Hiv.
  split; [reflexivity|]. split; [lia|].
  unfold interpretation.
  destruct (Z.leb_spec 80 (default 0 sv + 0 +
              income_vs_expense_factor (get_total_income cm) (get_total_spending cm) + 10));
    [lia|].
  destruct (_ <=? _); [discriminate|]. destruct (_ <=? _); discriminate.
Qed.

Lemma health_score_without_budgets_witness :
  let today := {| year := 2024; month := 5; day := 17 |} in
  let ledger := [Transaction.mk "2024-05-01" "income" "Salary" "pay" 100000;
                 Transaction.mk "2024-05-02" "expense" "Food" "groceries" 3000] in
  exists r, financial_health_score today ledger [] = Ok (Some r)
            /\ score r = 65 /\ score_band r <> Excellent.
Proof.
  intros today ledger.
  destruct (financial_health_score today ledger []) as [[r|]|] eqn:E;
    try (vm_compute in E; discriminate).
  exists r. split; [reflexivity|].
  destruct (health_score_without_budgets today ledger r E) as (_ & _ & Hb).
  split; [|exact Hb]. vm_compute in E. injection E as <-. reflexivity.
Defined.

(** The savings factor gives points exactly when the income is above the
    spending. *)
Lemma savings_factor_positive (i s : Z) (sv : option Z) :
  i < 2 ^ 1000 -> Z.abs (i - s) < 2 ^ 1000 ->
  savings_factor i s = Ok sv ->
  (0 < default 0 sv <-> 0 < i /\ s < i).
Proof.
  intros Hi Hb. unfold savings_factor.
  destruct (Z.ltb_spec 0 i) as [Hpos|Hneg].
  - destruct (Z.compare_spec (i - s) 0) as [Heq|Hlt|Hgt].
    + rewrite Heq. destruct i as [|p|p]; try lia.
      intros H. vm_compute in H. injection H as <-. cbn. lia.
    + destruct (true_div_nonzero (i - s) i) as (m & e & -> & He); try lia.
      result_simpl. rewrite mul_int_100. result_simpl.
      destruct (Z.ltb_spec (i - s) 0); [|lia].
      destruct (Z.ltb_spec i 0); [lia|]. cbn [xorb].
      destruct (times_100_sign true m e He) as [Hg Hl].
      assert (forall z, 0 <= z -> ge_int (mul (S754_finite true m e) f100) z = false) as Hge.
      { intros z Hz. destruct (ge_int _ z) eqn:E; [|reflexivity].
        apply (ge_int_mono _ 0 z Hz) in E. unfold lt_int, ge_int in *.
        destruct (compare_int _ 0) as [[]|]; discriminate. }
      rewrite !Hge, Hg by lia. intros Hsv. injection Hsv as <-. cbn. lia.
    + destruct (true_div_nonzero (i - s) i) as (m & e & -> & He); try lia.
      result_simpl. rewrite mul_int_100. result_simpl.
      destruct (Z.ltb_spec (i - s) 0); [lia|].
      destruct (Z.ltb_spec i 0); [lia|]. cbn [xorb].
      destruct (times_100_sign false m e He) as [Hg _].
      rewrite Hg. intros Hsv. injection Hsv as <-. cbn.
      destruct (ge_int _ 20); [lia|]. destruct (ge_int _ 10); cbn; lia.
  - intros H. injection H as <-. cbn. lia.
Qed.

(** X8. The two factors of the score that read the month's totals agree:
    points for saving (10, 20 or 30) are given exactly when the income
    versus expenses factor has its full 25 points, that is when the month
    has an income and it is above the spending. *)
Theorem savings_and_cash_flow_agree (today : datetime)
    (ts current : list Transaction.t) (bs : list Budget.t) (r : health_report) :
  filter_transactions_by_month ts (year today) (month today) = Ok current ->
  get_total_income current < 2 ^ 1000 ->
  Z.abs (get_total_income current - get_total_spending current) < 2 ^ 1000 ->
  financial_health_score today ts bs = Ok (Some r) ->
  (0 < default 0 (savings_score r) <-> income_vs_expense_score r = 25)
  /\ (income_vs_expense_score r = 25 <->
      0 < get_total_income current
      /\ get_total_spending current < get_total_income current).
Proof.
  intros Hf Hi Hb. unfold financial_health_score.
  destruct ts as [|t ts]; [discriminate|]. rewrite Hf. result_simpl.
  destruct (savings_factor _ _) as [sv|] eqn:Esv; result_simpl; [|discriminate].
  destruct (adherence_factor _ _ _) as [ad|]; result_simpl; [|discriminate].
  intros H. injection H as <-. cbn [savings_score income_vs_expense_score].
  rewrite (savings_factor_positive _ _ sv Hi Hb Esv).
  unfold income_vs_expense_factor.
  destruct (Z.ltb_spec 0 (get_total_income current));
    destruct (Z.ltb_spec (get_total_spending current) (get_total_income current));
    destruct (Z.eqb_spec (get_total_income current) (get_total_spending current));
    intuition (try lia; try discriminate).
Qed.

Lemma savings_and_cash_flow_agree_witness :
  let today := {| year := 2024; month := 5; day := 17 |} in
  let ledger := [Transaction.mk "2024-05-01" "income" "Salary" "pay" 100000;
                 Transaction.mk "2024-05-02" "expense" "Food" "groceries" 99999] in
  exists r, financial_health_score today ledger [] = Ok (Some r)
            /\ 0 < default 0 (savings_score r)
            /\ income_vs_expense_score r = 25.
Proof.
  intros today ledger.
  destruct (financial_health_score today ledger []) as [[r|]|] eqn:E;
    try (vm_compute in E; discriminate).
  exists r. split; [reflexivity|].
  destruct (savings_and_cash_flow_agree today ledger ledger [] r) as [H1 H2].
  - vm_compute. reflexivity.
  - vm_compute. reflexivity.
  - vm_compute. reflexivity.
  - exact E.
  - assert (income_vs_expense_score r = 25) as H25
      by (apply H2; vm_compute; split; reflexivity).
    split; [apply H1, H25 | exact H25].
Defined.

(** ** What the budget views can raise *)







(** ** The recommendations *)

(** The comprehension of recommendation 1 finds every key it looks up. *)
Lemma over_budget_filter (budgets : list Budget.t) (ts : list Transaction.t)
    (m : string) (l : list Budget.t) :
  (forall b, In b l -> In b budgets) ->
  filter_result
    (fun b => spent ← getitem (category_spending budgets ts m) (Budget.category b);
              Ok (Budget.amount b <? spent)) l
  = Ok (List.filter
          (fun b => Budget.amount b <? get0 (category_spending budgets ts m) (Budget.category b))
          l).
Proof.
  induction l as [|b l IH]; intros Hsub; [reflexivity|].
  cbn [filter_result List.filter].
  rewrite IH by (intros b' Hb'; apply Hsub; right; exact Hb').
  pose proof (category_spending_eq budgets ts m (Budget.category b)) as Hb.
  rewrite (budgeted_In budgets b (Hsub b (or_introl eq_refl))) in Hb.
  set (over := List.filter _ l). unfold getitem, get0. rewrite Hb. reflexivity.
Qed.

Lemma over_budget_recommendation_eq (today : datetime) (ts : list Transaction.t)
    (bs : list Budget.t) :
  over_budget_recommendation today ts bs =
  Ok (match List.filter
              (fun b => Budget.amount b <?
                        get0 (category_spending bs ts (strftime_Y_m today)) (Budget.category b))
              bs with
      | [] => []
      | over => [OverBudget (map Budget.category over)]
      end).
Proof.
  unfold over_budget_recommendation. destruct bs as [|b bs]; [reflexivity|].
  cbv zeta. rewrite over_budget_filter by auto. result_simpl.
  destruct (List.filter _ (b :: bs)); reflexivity.
Qed.

(** X10. The recommendation on overspending and the health score read the
    budgets alike: with budgets set, nothing is recommended about
    overspending exactly when the score gives the full 25 points for
    budget adherence; and the recommendation itself never fails. *)
Theorem no_overspending_is_full_adherence (today : datetime)
    (ts : list Transaction.t) (bs : list Budget.t) :
  bs <> [] ->
  (exists r, over_budget_recommendation today ts bs = Ok r)
  /\ (over_budget_recommendation today ts bs = Ok [] <->
      adherence_factor today ts bs = Ok 25).
Proof.
  intros Hne. rewrite over_budget_recommendation_eq.
  split; [eexists; reflexivity|].
  unfold adherence_factor, over_budget_count.
  destruct bs as [|b bs]; [congruence|]. cbv zeta.
  destruct (List.filter _ (b :: bs)) as [|o over]; cbn [length].
  - cbn. tauto.
  - destruct (Z.eqb_spec (Z.of_nat (S (length over))) 0) as [|_]; [lia|].
    split; [discriminate|].
    destruct (true_div _ 2) as [h|]; result_simpl; [|discriminate].
    destruct (ge_int h _); discriminate.
Qed.

Lemma no_overspending_is_full_adherence_witness :
  let today := {| year := 2024; month := 5; day := 17 |} in
  let ts := [Transaction.mk "2024-05-03" "expense" "Food" "groceries" 8500] in
  over_budget_recommendation today ts [Budget.mk "Food" 10000] = Ok []
  /\ adherence_factor today ts [Budget.mk "Food" 10000] = Ok 25.
Proof.
  intros today ts.
  destruct (no_overspending_is_full_adherence today ts [Budget.mk "Food" 10000]
              ltac:(discriminate)) as [_ H].
  assert (over_budget_recommendation today ts [Budget.mk "Food" 10000] = Ok []) as E
    by (vm_compute; reflexivity).
  split; [exact E | apply H, E].
Defined.

Lemma low_savings_recommendation_shape (i s : Z) (r : list recommendation) :
  low_savings_recommendation i s = Ok r ->
  r = [] \/ exists rate, r = [LowSavingsRate rate].
Proof.
  unfold low_savings_recommendation. destruct (0 <? i).
  - destruct (true_div (i - s) i) as [q|]; result_simpl; [|discriminate].
    destruct (mul_int q 100) as [rate|]; result_simpl; [|discriminate].
    destruct (lt_int rate 10); intros H; injection H as <-; eauto.
  - intros H. injection H as <-. auto.
Qed.

Lemma smart_recommendations_shape (today : datetime)
    (ts : list Transaction.t) (bs : list Budget.t) (out : recommendations_output) :
  smart_recommendations today ts bs = Ok out ->
  exists l, out = Listed l /\ l <> []
            /\ (In NoBudgets l <-> bs = [])
            /\ (In GoodPerformance l -> l = [GoodPerformance] /\ bs <> []).
Proof.
  unfold smart_recommendations. rewrite over_budget_recommendation_eq. result_simpl.
  destruct (filter_transactions_by_month ts (year today) (month today)) as [cm|];
    result_simpl; [|discriminate].
  destruct (low_savings_recommendation _ _) as [r2|] eqn:E2; result_simpl; [|discriminate].
  apply low_savings_recommendation_shape in E2.
  intros H. injection H as <-.
  destruct bs as [|b bs].
  - cbn [List.filter app].
    destruct E2 as [->|[rate ->]]; eexists; (split; [reflexivity|]);
      (split; [discriminate|]); cbn [In app]; intuition congruence.
  - destruct (List.filter _ (b :: bs)) as [|o over];
      destruct E2 as [->|[rate ->]]; cbn [app]; eexists; (split; [reflexivity|]);
      (split; [discriminate|]); cbn [In]; intuition congruence.
Qed.

(** X11. [smart_recommendations] always has something to print: its last
    branch, that there is nothing specific to recommend, is never taken.
    The advice to set budgets is given exactly when there are none, and
    the praise is only given alone, and only with budgets set. *)
Theorem smart_recommendations_never_silent (today : datetime)
    (ts : list Transaction.t) (bs : list Budget.t) (out : recommendations_output) :
  smart_recommendations today ts bs = Ok out ->
  exists l, out = Listed l /\ l <> []
            /\ (In NoBudgets l <-> bs = [])
            /\ (In GoodPerformance l -> l = [GoodPerformance] /\ bs <> []).
Proof. apply smart_recommendations_shape. Qed.

Lemma smart_recommendations_never_silent_witness :
  let today := {| year := 2024; month := 5; day := 17 |} in
  let ts := [Transaction.mk "2024-05-01" "income" "Salary" "pay" 100000;
             Transaction.mk "2024-05-03" "expense" "Food" "groceries" 8500] in
  smart_recommendations today ts [Budget.mk "Food" 10000] = Ok (Listed [GoodPerformance])
  /\ exists l, Listed [GoodPerformance] = Listed l /\ l <> [].
Proof.
  intros today ts.
  assert (smart_recommendations today ts [Budget.mk "Food" 10000]
          = Ok (Listed [GoodPerformance])) as E by (vm_compute; reflexivity).
  split; [exact E|].
  destruct (smart_recommendations_never_silent today ts [Budget.mk "Food" 10000] _ E)
    as (l & Hl & Hne & _).
  exists l. split; assumption.
Defined.




(** ** The periods of the trends *)

Lemma prev_day_mid (y m d : Z) :
  1 < d -> prev_day {| year := y; month := m; day := d |}
           = Ok {| year := y; month := m; day := d - 1 |}.
Proof.
  intros H. unfold prev_day. cbn [year month day].
  destruct (Z.ltb_spec 1 d); [reflexivity | lia].
Qed.

Lemma prev_day_first (y m : Z) :
  1 < m -> prev_day {| year := y; month := m; day := 1 |}
           = Ok {| year := y; month := m - 1; day := days_in_month y (m - 1) |}.
Proof.
  intros H. unfold prev_day. cbn [year month day].
  destruct (Z.ltb_spec 1 m); [reflexivity | lia].
Qed.

Lemma prev_day_new_year (y : Z) :
  1 < y -> prev_day {| year := y; month := 1; day := 1 |}
           = Ok {| year := y - 1; month := 12; day := 31 |}.
Proof.
  intros H. unfold prev_day. cbn [year month day].
  destruct (Z.ltb_spec 1 y); [reflexivity | lia].
Qed.

Lemma days_in_month_not_feb (y m : Z) :
  m <> 2 -> days_in_month y m = days_in_month 2001 m.
Proof.
  intros H. unfold days_in_month. destruct (Z.eqb_spec m 2); [contradiction | reflexivity].
Qed.

Lemma days_in_month_feb (y : Z) :
  days_in_month y 2 = if is_leap y then 29 else 28.
Proof. reflexivity. Qed.

(** Evaluates the closed integers of the date under the cursor. *)
Ltac date_norm :=
  repeat match goal with
  | |- context [days_in_month 2001 ?m] =>
      let v := eval vm_compute in (days_in_month 2001 m) in
      change (days_in_month 2001 m) with v
  | |- context [Z.sub (Zpos ?a) (Zpos ?b)] =>
      let v := eval vm_compute in (Z.sub (Zpos a) (Zpos b)) in
      change (Z.sub (Zpos a) (Zpos b)) with v
  | |- context [Z.add (Zpos ?a) (Zpos ?b)] =>
      let v := eval vm_compute in (Z.add (Zpos a) (Zpos b)) in
      change (Z.add (Zpos a) (Zpos b)) with v
  end.

Ltac back_one El :=
  cbn [minus_days];
  first [ rewrite prev_day_new_year by lia
        | rewrite prev_day_first by lia
        | rewrite prev_day_mid by lia ];
  result_simpl; date_norm;
  try rewrite days_in_month_feb, El;
  try (rewrite days_in_month_not_feb by lia); date_norm.

Lemma month_date_periods (y m dd : Z) :
  2 <= y -> 1 <= m <= 12 ->
  exists d0 d1 d2 dl,
    month_date {| year := y; month := m; day := dd |} 0 = Ok d0
    /\ month_date {| year := y; month := m; day := dd |} 1 = Ok d1
    /\ month_date {| year := y; month := m; day := dd |} 2 = Ok d2
    /\ last_month_date {| year := y; month := m; day := dd |} = Ok dl
    /\ year_month d0 = (y, m)
    /\ year_month dl = month_before (y, m)
    /\ year_month d1 = (if m =? 3 then (y, 1) else month_before (y, m))
    /\ year_month d2 =
         (if m =? 3 then (if is_leap y then (y, 1) else (y - 1, 12))
          else if (m =? 4) && negb (is_leap y) then (y, 1)
          else month_before (month_before (y, m))).
Proof.
  intros Hy Hm. unfold month_date, last_month_date, replace_day_1.
  cbn [year month day Nat.mul Nat.add].
  assert (m = 1 \/ m = 2 \/ m = 3 \/ m = 4 \/ m = 5 \/ m = 6 \/ m = 7 \/ m = 8
          \/ m = 9 \/ m = 10 \/ m = 11 \/ m = 12) as Hcases by lia.
  destruct (is_leap y) eqn:El;
    repeat (destruct Hcases as [->|Hcases]); try subst m;
    eexists _, _, _, _;
    (split; [reflexivity|]);
    (split; [do 30 back_one El; reflexivity|]);
    (split; [do 60 back_one El; reflexivity|]);
    (split; [back_one El; reflexivity|]);
    cbn; repeat split; f_equal; lia.
Qed.

(** X13. The comparison with last month reads the month before the
    current one, but the three periods of the trends, taken 30 days apart
    from the first of the month, are not always the last three months: in
    March the second period is January, and the third is January again in
    a leap year and December otherwise; in April of a year that is not
    leap the third period is January. February is then left out, and a
    trend or the stability of the income is read from other months. *)
Theorem trend_periods (today : datetime) :
  2 <= year today -> 1 <= month today <= 12 ->
  exists d0 d1 d2 dl,
    month_date today 0 = Ok d0
    /\ month_date today 1 = Ok d1
    /\ month_date today 2 = Ok d2
    /\ last_month_date today = Ok dl
    /\ year_month d0 = year_month today
    /\ year_month dl = month_before (year_month today)
    /\ year_month d1 =
         (if month today =? 3 then (year today, 1)
          else month_before (year_month today))
    /\ year_month d2 =
         (if month today =? 3
          then (if is_leap (year today) then (year today, 1) else (year today - 1, 12))
          else if (month today =? 4) && negb (is_leap (year today))
               then (year today, 1)
               else month_before (month_before (year_month today))).
Proof.
  destruct today as [y m dd]. cbn [year month]. unfold year_month at 2 3 5 7.
  cbn [year month]. apply month_date_periods.
Qed.

Lemma trend_periods_witness :
  exists d0 d1 d2 dl,
    month_date {| year := 2023; month := 3; day := 17 |} 0 = Ok d0
    /\ month_date {| year := 2023; month := 3; day := 17 |} 1 = Ok d1
    /\ month_date {| year := 2023; month := 3; day := 17 |} 2 = Ok d2
    /\ last_month_date {| year := 2023; month := 3; day := 17 |} = Ok dl
    /\ year_month d0 = (2023, 3)
    /\ year_month dl = (2023, 2)
    /\ year_month d1 = (2023, 1)
    /\ year_month d2 = (2022, 12).
Proof.
  apply (trend_periods {| year := 2023; month := 3; day := 17 |}).
  - cbn. lia.
  - cbn. lia.
Defined.

Lemma map_result_length {A B : Type} (f : A -> result B) (l : list A) (r : list B) :
  map_result f l = Ok r -> length r = length l.
Proof.
  revert r. induction l as [|a l IH]; intros r; cbn [map_result].
  - intros H. injection H as <-. reflexivity.
  - destruct (f a) as [b|]; result_simpl; [|discriminate].
    destruct (map_result f l) as [bs|]; result_simpl; [|discriminate].
    intros H. injection H as <-. cbn [length]. f_equal. apply IH. reflexivity.
Qed.

Lemma over_months_length {A : Type} (value : list Transaction.t -> A)
    (today : datetime) (ts : list Transaction.t) (l : list (datetime * A)) :
  over_months value today ts = Ok l -> length l = 3%nat.
Proof.
  unfold over_months.
  destruct (map_result _ _) as [r|] eqn:E; result_simpl; [|discriminate].
  intros H. injection H as <-. rewrite length_rev.
  apply map_result_length in E. exact E.
Qed.

(** X14. [income_analysis] always has its three months to compare: the
    stability of the income is reported as stable or as fluctuating, and
    the two other messages, of not enough data and of no data, are never
    printed. *)
Theorem income_stability_always_assessed (today : datetime)
    (ts : list Transaction.t) (s : stability) :
  income_analysis_stability today ts = Ok s ->
  (exists t0 t1 t2, income_over_months today ts = Ok [t0; t1; t2])
  /\ (s = STABLE \/ s = FLUCTUATING).
Proof.
  unfold income_analysis_stability, income_over_months.
  destruct (over_months get_total_income today ts) as [l|] eqn:E; result_simpl;
    [|discriminate].
  apply over_months_length in E.
  destruct l as [|[d0 t0] [|[d1 t1] [|[d2 t2] [|x l]]]]; try discriminate E.
  cbn [map snd]. intros H. split; [eauto|].
  unfold income_stability in H.
  destruct (within_tenth t0 t1) as [ok1|]; [|discriminate].
  cbn [mbind result_bind mret result_ret] in H.
  destruct (if ok1 then within_tenth t0 t2 else Ok false) as [ok2|]; [|discriminate].
  cbn [mbind result_bind mret result_ret] in H.
  injection H as <-. destruct ok2; auto.
Qed.

Lemma income_stability_always_assessed_witness :
  let today := {| year := 2024; month := 5; day := 17 |} in
  let ts := [Transaction.mk "2024-05-01" "income" "Salary" "pay" 100000] in
  income_analysis_stability today ts = Ok FLUCTUATING
  /\ exists t0 t1 t2, income_over_months today ts = Ok [t0; t1; t2].
Proof.
  intros today ts.
  assert (income_analysis_stability today ts = Ok FLUCTUATING) as E
    by (vm_compute; reflexivity).
  split; [exact E|].
  apply (income_stability_always_assessed today ts FLUCTUATING E).
Defined.

(** ** The days of the month in the daily check *)

Lemma next_day_mid (y m d : Z) :
  d < days_in_month y m ->
  next_day {| year := y; month := m; day := d |}
  = Ok {| year := y; month := m; day := d + 1 |}.
Proof.
  intros H. unfold next_day. cbn [year month day].
  destruct (Z.ltb_spec d (days_in_month y m)); [reflexivity | lia].
Qed.

Lemma next_day_last (y m d : Z) :
  days_in_month y m <= d -> m < 12 ->
  next_day {| year := y; month := m; day := d |}
  = Ok {| year := y; month := m + 1; day := 1 |}.
Proof.
  intros H Hm. unfold next_day. cbn [year month day].
  destruct (Z.ltb_spec d (days_in_month y m)); [lia|].
  destruct (Z.ltb_spec m 12); [reflexivity | lia].
Qed.

Lemma next_day_new_year (y d : Z) :
  31 <= d -> y < 9999 ->
  next_day {| year := y; month := 12; day := d |}
  = Ok {| year := y + 1; month := 1; day := 1 |}.
Proof.
  intros H Hy. unfold next_day. cbn [year month day].
  change (days_in_month y 12) with 31.
  destruct (Z.ltb_spec d 31); [lia|]. cbn.
  destruct (Z.ltb_spec y 9999); [reflexivity | lia].
Qed.

Lemma next_day_overflow (d : Z) :
  31 <= d -> next_day {| year := 9999; month := 12; day := d |} = Raise OverflowError.
Proof.
  intros H. unfold next_day. cbn [year month day].
  change (days_in_month 9999 12) with 31.
  destruct (Z.ltb_spec d 31); [lia | reflexivity].
Qed.

Ltac days_solve El :=
  try rewrite days_in_month_feb, El;
  try (rewrite days_in_month_not_feb by lia); date_norm; lia.

Ltac forward_one El :=
  cbn [plus_days];
  first [ rewrite next_day_mid by days_solve El
        | rewrite next_day_last by days_solve El
        | rewrite next_day_new_year by lia ];
  result_simpl; date_norm.

Lemma days_in_month_of_eq (y m dd : Z) :
  1 <= y <= 9999 -> 1 <= m <= 12 ->
  days_in_month_of {| year := y; month := m; day := dd |} =
  if (y =? 9999) && (m =? 12) then Raise OverflowError else Ok (days_in_month y m).
Proof.
  intros Hy Hm. unfold days_in_month_of, replace_day_1. cbn [year month day].
  assert (m = 1 \/ m = 2 \/ m = 3 \/ m = 4 \/ m = 5 \/ m = 6 \/ m = 7 \/ m = 8
          \/ m = 9 \/ m = 10 \/ m = 11 \/ m = 12) as Hcases by lia.
  destruct (Z.eqb_spec y 9999) as [->|Hy9].
  - destruct Hcases as [->|[->|[->|[->|[->|[->|[->|[->|[->|[->|[->| ->]]]]]]]]]]];
      vm_compute; reflexivity.
  - cbn [andb].
    destruct (is_leap y) eqn:El;
      repeat (destruct Hcases as [->|Hcases]); try subst m;
      do 32 forward_one El; cbn [plus_days]; result_simpl;
      cbn [year month day minus_days];
      (first [ rewrite prev_day_new_year by lia | rewrite prev_day_first by lia ]);
      result_simpl; cbn [day]; date_norm; reflexivity.
Qed.

(** X15. The number of days that [daily_financial_check] divides the
    monthly budget by is the length of the current month, in every month
    of every year, leap years included; in December 9999 the date 32 days
    after the first of the month does not exist and the check stops on an
    OverflowError. *)
Theorem days_in_month_of_spec (today : datetime) :
  1 <= year today <= 9999 -> 1 <= month today <= 12 ->
  days_in_month_of today =
  if (year today =? 9999) && (month today =? 12)
  then Raise OverflowError
  else Ok (days_in_month (year today) (month today)).
Proof.
  destruct today as [y m dd]. cbn [year month]. apply days_in_month_of_eq.
Qed.

Lemma days_in_month_of_spec_witness :
  days_in_month_of {| year := 2024; month := 2; day := 17 |} = Ok 29
  /\ days_in_month_of {| year := 2023; month := 2; day := 28 |} = Ok 28
  /\ days_in_month_of {| year := 9999; month := 12; day := 5 |} = Raise OverflowError.
Proof.
  split; [|split].
  - apply (days_in_month_of_spec {| year := 2024; month := 2; day := 17 |}); cbn; lia.
  - apply (days_in_month_of_spec {| year := 2023; month := 2; day := 28 |}); cbn; lia.
  - apply (days_in_month_of_spec {| year := 9999; month := 12; day := 5 |}); cbn; lia.
Defined.

(** ** Dates as strings *)

Lemma digit_value_digit_char (k : Z) : digit_value (digit_char k) = Some (k mod 10).
Proof.
  unfold digit_value, digit_char.
  pose proof (Z.mod_pos_bound k 10 ltac:(lia)) as Hb.
  rewrite N_ascii_embedding.
  - rewrite Z2N.id by lia.
    destruct (Z.leb_spec 48 (48 + k mod 10)); [|lia].
    destruct (Z.leb_spec (48 + k mod 10) 57); [|lia].
    cbn [andb]. f_equal. lia.
  - apply N2Z.inj_lt. rewrite Z2N.id by lia. change (Z.of_N 256) with 256. lia.
Qed.

Lemma digit_char_cases (k : Z) :
  In (digit_char k) ["0"; "1"; "2"; "3"; "4"; "5"; "6"; "7"; "8"; "9"]%char.
Proof.
  unfold digit_char. pose proof (Z.mod_pos_bound k 10 ltac:(lia)) as Hb.
  assert (k mod 10 = 0 \/ k mod 10 = 1 \/ k mod 10 = 2 \/ k mod 10 = 3 \/ k mod 10 = 4
          \/ k mod 10 = 5 \/ k mod 10 = 6 \/ k mod 10 = 7 \/ k mod 10 = 8 \/ k mod 10 = 9)
    as H by lia.
  repeat (destruct H as [->|H]); try rewrite H; cbn; tauto.
Qed.

Lemma digit_char_not_dash (k : Z) : Ascii.eqb (digit_char k) "-" = false.
Proof.
  pose proof (digit_char_cases k) as H. cbn [In] in H.
  repeat (destruct H as [<-|H]); try reflexivity. contradiction.
Qed.

Lemma month_field_digits (m : Z) :
  1 <= m <= 12 -> month_field [digit_char (m / 10); digit_char m] = Some m.
Proof.
  intros H.
  assert (m = 1 \/ m = 2 \/ m = 3 \/ m = 4 \/ m = 5 \/ m = 6 \/ m = 7 \/ m = 8
          \/ m = 9 \/ m = 10 \/ m = 11 \/ m = 12) as Hc by lia.
  repeat (destruct Hc as [->|Hc]); try subst m; reflexivity.
Qed.

Lemma day_field_digits (d : Z) :
  1 <= d <= 31 -> day_field [digit_char (d / 10); digit_char d] = Some d.
Proof.
  intros H.
  assert (d = 1 \/ d = 2 \/ d = 3 \/ d = 4 \/ d = 5 \/ d = 6 \/ d = 7 \/ d = 8
          \/ d = 9 \/ d = 10 \/ d = 11 \/ d = 12 \/ d = 13 \/ d = 14 \/ d = 15
          \/ d = 16 \/ d = 17 \/ d = 18 \/ d = 19 \/ d = 20 \/ d = 21 \/ d = 22
          \/ d = 23 \/ d = 24 \/ d = 25 \/ d = 26 \/ d = 27 \/ d = 28 \/ d = 29
          \/ d = 30 \/ d = 31) as Hc by lia.
  repeat (destruct Hc as [->|Hc]); try subst d; reflexivity.
Qed.

Lemma days_in_month_le_31 (y m : Z) : days_in_month y m <= 31.
Proof.
  unfold days_in_month.
  destruct (m =? 2); [destruct (is_leap y); lia|].
  destruct (_ || _); lia.
Qed.

Lemma year_of_digits (y : Z) :
  1000 <= y <= 9999 ->
  1000 * ((y / 1000) mod 10) + 100 * ((y / 100) mod 10)
  + 10 * ((y / 10) mod 10) + y mod 10 = y.
Proof. intros H. Z.div_mod_to_equations. lia. Qed.

Lemma strptime_strftime (d : datetime) :
  valid_date d -> strptime (strftime_Y_m_d d) = Ok d.
Proof.
  intros (Hy & Hm & Hd). destruct d as [y m dd]. cbn [year month day] in *.
  pose proof (days_in_month_le_31 y m) as H31.
  unfold strptime, strftime_Y_m_d. cbn [year month day].
  rewrite list_ascii_of_string_of_list_ascii. cbv beta iota.
  rewrite !digit_value_digit_char. cbn [split_dash Ascii.eqb Bool.eqb].
  rewrite !digit_char_not_dash.
  rewrite month_field_digits, day_field_digits by lia.
  rewrite year_of_digits by lia.
  destruct (Z.leb_spec 1 y); [|lia].
  destruct (Z.leb_spec dd (days_in_month y m)); [|lia].
  reflexivity.
Qed.

(** X16. The date that [get_valid_date] offers as its default, today's
    date written with [strftime("%Y-%m-%d")], is always accepted: parsing
    it gives the date back, for every date of the calendar with a year of
    four digits. *)
Theorem default_date_is_accepted (today : datetime) (rest : list string) :
  valid_date today ->
  strptime (strftime_Y_m_d today) = Ok today
  /\ get_valid_date (strftime_Y_m_d today :: rest) = Ok (Some (strftime_Y_m_d today)).
Proof.
  intros Hv. pose proof (strptime_strftime today Hv) as H.
  split; [exact H|]. cbn [get_valid_date]. rewrite H. reflexivity.
Qed.

Lemma default_date_is_accepted_witness :
  strptime (strftime_Y_m_d {| year := 2024; month := 2; day := 29 |})
  = Ok {| year := 2024; month := 2; day := 29 |}
  /\ get_valid_date [strftime_Y_m_d {| year := 2024; month := 2; day := 29 |}]
     = Ok (Some "2024-02-29").
Proof.
  apply (default_date_is_accepted {| year := 2024; month := 2; day := 29 |} []).
  repeat split; vm_compute; discriminate.
Defined.

Lemma prefix_app (p : list ascii) (s : string) :
  String.prefix (string_of_list_ascii p) s = true <->
  exists r, list_ascii_of_string s = p ++ r.
Proof.
  revert s. induction p as [|a p IH]; intros s; cbn [string_of_list_ascii String.prefix].
  - split; [intros _; exists (list_ascii_of_string s); reflexivity|].
    intros _. destruct s; reflexivity.
  - destruct s as [|b s]; cbn [list_ascii_of_string].
    + split; [discriminate | intros [r Hr]; discriminate].
    + simpl String.prefix. destruct (ascii_dec a b) as [->|Hne].
      * rewrite IH. split; intros [r Hr]; exists r.
        -- cbn [app]. f_equal. exact Hr.
        -- cbn [app] in Hr. injection Hr as Hr. exact Hr.
      * split; [discriminate|]. intros [r Hr]. cbn [app] in Hr. congruence.
Qed.

Lemma month_of_digits (m m' : Z) (cs : list ascii) :
  1 <= m <= 12 ->
  month_field (digit_char (m / 10) :: digit_char m :: cs) = Some m' -> m' = m.
Proof.
  intros Hm. destruct cs as [|c cs].
  - rewrite month_field_digits by exact Hm. congruence.
  - cbn [month_field]. discriminate.
Qed.

(** A date string that parses and starts with the month of today, as
    [strftime("%Y-%m")] writes it, is a date of that month. *)
Lemma prefix_of_parsed_date (s : string) (d today : datetime) :
  1000 <= year today <= 9999 -> 1 <= month today <= 12 ->
  strptime s = Ok d ->
  startswith s (strftime_Y_m today) = true ->
  year d = year today /\ month d = month today.
Proof.
  intros Hy Hm Hparse Hpre. unfold startswith, strftime_Y_m in Hpre.
  apply prefix_app in Hpre. destruct Hpre as [r Hr].
  unfold strptime in Hparse. rewrite Hr in Hparse. cbn [app] in Hparse.
  rewrite !digit_value_digit_char in Hparse.
  cbn [Ascii.eqb Bool.eqb split_dash] in Hparse.
  rewrite !digit_char_not_dash in Hparse.
  destruct (split_dash r) as [[ms ds]|]; [|discriminate].
  destruct (month_field _) as [m'|] eqn:Em; [|discriminate].
  apply month_of_digits in Em; [|exact Hm]. subst m'.
  destruct (day_field ds) as [dd|]; [|discriminate].
  rewrite year_of_digits in Hparse by exact Hy.
  destruct (_ && _); [|discriminate].
  injection Hparse as <-. cbn [year month]. split; reflexivity.
Qed.

Lemma has_year_month_of_prefix (today : datetime) (t : Transaction.t) :
  1000 <= year today <= 9999 -> 1 <= month today <= 12 ->
  parseable (Transaction.date t) = true ->
  in_month_by_prefix today t = true ->
  has_year_month (year today) (month today) t = true.
Proof.
  intros Hy Hm Hp Hpre. unfold parseable in Hp. unfold has_year_month.
  destruct (strptime (Transaction.date t)) as [d|] eqn:E; [|discriminate].
  destruct (prefix_of_parsed_date _ d today Hy Hm E Hpre) as [-> ->].
  rewrite !Z.eqb_refl. reflexivity.
Qed.

(** X17. What the budget views, the alerts and [display_balance] take for
    the current month, the transactions whose date string starts with
    [strftime("%Y-%m")] of today, is part of what
    [filter_transactions_by_month] returns for the reports, in the same
    order, whenever the filter returns. *)
Theorem prefix_month_within_parsed_month (today : datetime)
    (ts current : list Transaction.t) :
  1000 <= year today <= 9999 -> 1 <= month today <= 12 ->
  filter_transactions_by_month ts (year today) (month today) = Ok current ->
  List.filter (in_month_by_prefix today) ts
  = List.filter (in_month_by_prefix today) current
  /\ forall t, In t ts -> in_month_by_prefix today t = true -> In t current.
Proof.
  intros Hy Hm. rewrite filter_transactions_by_month_eq.
  destruct (forallb _ ts) eqn:Hall; [|discriminate].
  intros H. injection H as <-. rewrite forallb_forall in Hall. split.
  - induction ts as [|t ts IH]; [reflexivity|].
    assert (forall x, In x ts -> parseable (Transaction.date x) = true) as Hts
      by (intros x Hx; apply Hall; right; exact Hx).
    cbn [List.filter].
    destruct (in_month_by_prefix today t) eqn:Ep.
    + rewrite (has_year_month_of_prefix today t Hy Hm (Hall t (or_introl eq_refl)) Ep).
      cbn [List.filter]. rewrite Ep. f_equal. apply IH, Hts.
    + destruct (has_year_month (year today) (month today) t).
      * cbn [List.filter]. rewrite Ep. apply IH, Hts.
      * apply IH, Hts.
  - intros t Hin Hpre. apply filter_In. split; [exact Hin|].
    apply has_year_month_of_prefix; auto.
Qed.

Lemma prefix_month_within_parsed_month_witness :
  let today := {| year := 2024; month := 5; day := 17 |} in
  let a := Transaction.mk "2024-05-01" "expense" "Food" "lunch" 3000 in
  let b := Transaction.mk "2024-5-9" "expense" "Food" "dinner" 4000 in
  filter_transactions_by_month [a; b] 2024 5 = Ok [a; b]
  /\ List.filter (in_month_by_prefix today) [a; b] = [a]
  /\ In a [a; b].
Proof.
  intros today a b.
  assert (filter_transactions_by_month [a; b] 2024 5 = Ok [a; b]) as E
    by (vm_compute; reflexivity).
  destruct (prefix_month_within_parsed_month today [a; b] [a; b]) as [H1 H2].
  - cbn. lia.
  - cbn. lia.
  - exact E.
  - split; [exact E|]. split; [vm_compute; reflexivity|].
    apply H2; [cbn [In]; auto | vm_compute; reflexivity].
Defined.

Lemma canonical_prefix (d today : datetime) :
  valid_date d -> 1000 <= year today <= 9999 -> 1 <= month today <= 12 ->
  startswith (strftime_Y_m_d d) (strftime_Y_m today)
  = (year d =? year today) && (month d =? month today).
Proof.
  intros Hv Hy Hm.
  destruct (startswith (strftime_Y_m_d d) (strftime_Y_m today)) eqn:E.
  - destruct (prefix_of_parsed_date _ d today Hy Hm (strptime_strftime d Hv) E) as [-> ->].
    rewrite !Z.eqb_refl. reflexivity.
  - destruct (Z.eqb_spec (year d) (year today)) as [Ey|]; [|reflexivity].
    destruct (Z.eqb_spec (month d) (month today)) as [Em|]; [|reflexivity].
    exfalso. revert E. apply not_false_iff_true.
    unfold startswith, strftime_Y_m, strftime_Y_m_d. apply prefix_app.
    rewrite list_ascii_of_string_of_list_ascii, Ey, Em.
    eexists. cbn [app]. reflexivity.
Qed.

Lemma canonical_parseable (s : string) : canonical_date s -> parseable s = true.
Proof.
  intros (d & Hv & ->). unfold parseable. rewrite strptime_strftime by exact Hv.
  reflexivity.
Qed.

Lemma canonical_has_year_month (today : datetime) (t : Transaction.t) :
  1000 <= year today <= 9999 -> 1 <= month today <= 12 ->
  canonical_date (Transaction.date t) ->
  has_year_month (year today) (month today) t = in_month_by_prefix today t.
Proof.
  intros Hy Hm (d & Hv & Hd). unfold has_year_month, in_month_by_prefix.
  rewrite Hd, strptime_strftime, canonical_prefix by assumption. reflexivity.
Qed.

Lemma of_category_filter (keep sel : Transaction.t -> bool) (c : string)
    (ts : list Transaction.t) :
  of_category keep c (List.filter sel ts)
  = of_category (fun t => sel t && keep t) c ts.
Proof.
  unfold of_category. induction ts as [|t ts IH]; [reflexivity|].
  cbn [List.filter]. destruct (sel t); cbn [List.filter andb]; rewrite IH; reflexivity.
Qed.

Lemma get0_grouped (ts : list Transaction.t) (c : string) :
  get0 (get_monthly_spending_by_category ts) c = total (of_category is_expense c ts).
Proof.
  unfold get0, get_monthly_spending_by_category.
  rewrite grouped_lookup, lookup_empty.
  destruct (of_category is_expense c ts); reflexivity.
Qed.

(** X18. On a ledger whose dates are all written as [strftime] writes them
    (YYYY-MM-DD with the zeros), the two readings of the current month
    are the same: [filter_transactions_by_month] returns exactly the
    transactions whose date string starts with the month. What a budget
    view takes as spent in a budgeted category is then what the monthly
    report lists for that category in its expense summary. *)
Theorem canonical_ledger_one_month (today : datetime) (ts : list Transaction.t) :
  1000 <= year today <= 9999 -> 1 <= month today <= 12 ->
  Forall (fun t => canonical_date (Transaction.date t)) ts ->
  filter_transactions_by_month ts (year today) (month today)
  = Ok (List.filter (in_month_by_prefix today) ts)
  /\ forall bs c,
       budgeted bs c = true ->
       getitem (category_spending bs ts (strftime_Y_m today)) c
       = Ok (get0 (get_monthly_spending_by_category
                     (List.filter (in_month_by_prefix today) ts)) c).
Proof.
  intros Hy Hm Hall. split.
  - rewrite filter_transactions_by_month_eq.
    assert (forallb (fun t => parseable (Transaction.date t)) ts = true) as ->.
    { apply forallb_forall. intros t Hin. apply canonical_parseable.
      rewrite List.Forall_forall in Hall. apply Hall, Hin. }
    f_equal. apply filter_ext_in. intros t Hin.
    apply canonical_has_year_month; [assumption | assumption |].
    rewrite List.Forall_forall in Hall. apply Hall, Hin.
  - intros bs c Hb. unfold getitem.
    rewrite category_spending_eq, Hb, get0_grouped, of_category_filter.
    reflexivity.
Qed.

Lemma canonical_ledger_one_month_witness :
  let today := {| year := 2024; month := 5; day := 17 |} in
  let a := Transaction.mk (strftime_Y_m_d {| year := 2024; month := 5; day := 1 |})
             "expense" "Food" "lunch" 3000 in
  let b := Transaction.mk (strftime_Y_m_d {| year := 2024; month := 4; day := 30 |})
             "expense" "Food" "dinner" 4000 in
  filter_transactions_by_month [a; b] 2024 5 = Ok [a]
  /\ getitem (category_spending [Budget.mk "Food" 10000] [a; b] "2024-05") "Food" = Ok 3000.
Proof.
  intros today a b.
  destruct (canonical_ledger_one_month today [a; b]) as [H1 H2].
  - cbn. lia.
  - cbn. lia.
  - repeat constructor.
    + exists {| year := 2024; month := 5; day := 1 |}.
      split; [repeat split; vm_compute; discriminate | reflexivity].
    + exists {| year := 2024; month := 4; day := 30 |}.
      split; [repeat split; vm_compute; discriminate | reflexivity].
  - split; [exact H1|].
    apply (H2 [Budget.mk "Food" 10000] "Food"). reflexivity.
Defined.

(** * The rest of the reports *)

(** ** The top expenses *)

Lemma insert_desc_perm {A : Type} (key : A -> Z) (t : A) (l : list A) :
  Permutation (t :: l) (insert_desc key t l).
Proof.
  induction l as [|u l IH]; cbn [insert_desc]; [reflexivity|].
  destruct (key t <? key u); [|reflexivity].
  rewrite perm_swap. apply perm_skip, IH.
Qed.

Lemma sorted_desc_perm {A : Type} (key : A -> Z) (l : list A) :
  Permutation l (sorted_desc key l).
Proof.
  unfold sorted_desc. induction l as [|t l IH]; cbn [fold_right]; [reflexivity|].
  rewrite <- insert_desc_perm. apply perm_skip, IH.
Qed.

Lemma insert_desc_descending {A : Type} (key : A -> Z) (t : A) (l : list A) :
  descending key l -> descending key (insert_desc key t l).
Proof.
  induction l as [|u l IH]; cbn [insert_desc descending].
  - intros _. split; [constructor | exact I].
  - intros [Hu Hl]. destruct (Z.ltb_spec (key t) (key u)) as [Hlt|Hge]; cbn [descending].
    + split; [|apply IH, Hl].
      rewrite <- insert_desc_perm. constructor; [lia | exact Hu].
    + split; [|split; assumption].
      constructor; [lia|]. revert Hu. apply List.Forall_impl. intros x Hx. lia.
Qed.

Lemma sorted_desc_descending {A : Type} (key : A -> Z) (l : list A) :
  descending key (sorted_desc key l).
Proof.
  unfold sorted_desc. induction l as [|t l IH]; cbn [fold_right]; [exact I|].
  apply insert_desc_descending, IH.
Qed.

Lemma firstn_In {A : Type} (n : nat) (l : list A) (x : A) : In x (firstn n l) -> In x l.
Proof.
  intros H. rewrite <- (firstn_skipn n l). apply in_or_app. left. exact H.
Qed.

Lemma skipn_In {A : Type} (n : nat) (l : list A) (x : A) : In x (skipn n l) -> In x l.
Proof.
  intros H. rewrite <- (firstn_skipn n l). apply in_or_app. right. exact H.
Qed.

Lemma descending_firstn {A : Type} (key : A -> Z) (n : nat) (l : list A) :
  descending key l ->
  descending key (firstn n l)
  /\ Forall (fun r => Forall (fun u => key r <= key u) (firstn n l)) (skipn n l).
Proof.
  revert l. induction n as [|n IH]; intros l Hl; cbn [firstn skipn].
  - split; [exact I|]. apply List.Forall_forall. intros r _. constructor.
  - destruct l as [|t l]; [split; [exact I | constructor]|].
    destruct Hl as [Ht Hl]. destruct (IH l Hl) as [H1 H2].
    cbn [descending firstn skipn]. split.
    + split; [|exact H1]. rewrite List.Forall_forall in Ht |- *.
      intros u Hu. apply Ht. apply (firstn_In _ _ _ Hu).
    + rewrite List.Forall_forall in H2, Ht |- *. intros r Hr.
      constructor; [apply Ht, (skipn_In _ _ _ Hr) | apply H2, Hr].
Qed.

(** X19. The top expenses of the monthly report are at most five
    expenses of the month, all of them when there are five or fewer, in
    order of amount with the largest first, and no expense that is left
    out is larger than one that is shown. *)
Theorem top_expenses_spec (current : list Transaction.t) :
  length (top_expenses current)
  = Nat.min 5 (length (List.filter is_expense current))
  /\ descending Transaction.amount (top_expenses current)
  /\ exists rest,
       Permutation (top_expenses current ++ rest) (List.filter is_expense current)
       /\ Forall (fun r => Forall (fun u => Transaction.amount r <= Transaction.amount u)
                             (top_expenses current)) rest.
Proof.
  unfold top_expenses.
  set (expenses := List.filter is_expense current).
  pose proof (sorted_desc_perm Transaction.amount expenses) as Hperm.
  pose proof (sorted_desc_descending Transaction.amount expenses) as Hdesc.
  destruct (descending_firstn Transaction.amount 5 _ Hdesc) as [H1 H2].
  split; [|split; [exact H1|]].
  - rewrite length_firstn, <- (Permutation_length Hperm). reflexivity.
  - exists (skipn 5 (sorted_desc Transaction.amount expenses)).
    split; [|exact H2]. rewrite firstn_skipn. symmetry. exact Hperm.
Qed.

(** ** Balances *)

Lemma total_app (l1 l2 : list Transaction.t) : total (l1 ++ l2) = total l1 + total l2.
Proof.
  induction l1 as [|t l1 IH]; [unfold total, sum; cbn; lia|].
  cbn [app]. rewrite !total_cons, IH. lia.
Qed.

Lemma total_filter (p : Transaction.t -> bool) (l : list Transaction.t) :
  total l = total (List.filter p l) + total (List.filter (fun t => negb (p t)) l).
Proof.
  induction l as [|t l IH]; [reflexivity|]. cbn [List.filter].
  destruct (p t); cbn [negb]; rewrite !total_cons, IH; lia.
Qed.

Lemma balance_fold (sel inc : Transaction.t -> bool) (l : list Transaction.t) (i e : Z) :
  fold_left
    (fun (acc : Z * Z) t =>
       if sel t
       then if inc t
            then (fst acc + Transaction.amount t, snd acc)
            else (fst acc, snd acc + Transaction.amount t)
       else acc) l (i, e)
  = (i + total (List.filter inc (List.filter sel l)),
     e + total (List.filter (fun t => negb (inc t)) (List.filter sel l))).
Proof.
  revert i e. induction l as [|t l IH]; intros i e; cbn [fold_left List.filter].
  - unfold total, sum. cbn. f_equal; lia.
  - destruct (sel t); cbn [List.filter].
    + destruct (inc t); cbn [fst snd negb]; rewrite IH, total_cons; f_equal; lia.
    + apply IH.
Qed.

Lemma footer_fold (l : list Transaction.t) (i e : Z) :
  fold_left
    (fun (acc : Z * Z) t =>
       if is_expense t
       then (fst acc, snd acc + Transaction.amount t)
       else (fst acc + Transaction.amount t, snd acc)) l (i, e)
  = (i + total (List.filter (fun t => negb (is_expense t)) l),
     e + total (List.filter is_expense l)).
Proof.
  revert i e. induction l as [|t l IH]; intros i e; cbn [fold_left List.filter].
  - unfold total, sum. cbn. f_equal; lia.
  - destruct (is_expense t); cbn [fst snd negb]; rewrite IH, total_cons; f_equal; lia.
Qed.

Lemma typed_not_income (l : list Transaction.t) :
  typed l = true ->
  List.filter (fun t => negb (is_income t)) l = List.filter is_expense l
  /\ List.filter (fun t => negb (is_expense t)) l = List.filter is_income l.
Proof.
  unfold typed. intros H. rewrite forallb_forall in H.
  split; apply filter_ext_in; intros t Hin; specialize (H t Hin);
    unfold is_income, is_expense in *;
    destruct (String.eqb_spec (Transaction.type t) "income") as [E1|E1];
    destruct (String.eqb_spec (Transaction.type t) "expense") as [E2|E2];
    try reflexivity; try discriminate; congruence.
Qed.

Lemma typed_filter (p : Transaction.t -> bool) (l : list Transaction.t) :
  typed l = true -> typed (List.filter p l) = true.
Proof.
  unfold typed. rewrite !forallb_forall. intros H t Ht.
  apply filter_In in Ht. apply H, Ht.
Qed.

(** X20. [display_balance] and the footer of [list_transactions] never
    lose an amount, but they read a transaction that is neither an income
    nor an expense differently: [display_balance] takes everything of the
    month that is not an income for an expense, the footer takes
    everything that is not an expense for an income. On a ledger that has
    only incomes and expenses both give the totals of [get_total_income]
    and [get_total_spending]. *)
Theorem balances_spec (today : datetime) (transactions : list Transaction.t) :
  (match display_balance today transactions with
   | None => transactions = []
   | Some b =>
       let month := List.filter (in_month_by_prefix today) transactions in
       total_income b = get_total_income month
       /\ total_expense b = total month - get_total_income month
       /\ total_balance b = total_income b - total_expense b
       /\ (typed transactions = true -> total_expense b = get_total_spending month)
   end)
  /\ total_expense (list_footer transactions) = get_total_spending transactions
  /\ total_income (list_footer transactions)
     = total transactions - get_total_spending transactions
  /\ (typed transactions = true ->
      total_income (list_footer transactions) = get_total_income transactions).
Proof.
  assert (forall l, get_total_income l = total (List.filter is_income l)) as Hi by reflexivity.
  assert (forall l, get_total_spending l = total (List.filter is_expense l)) as He by reflexivity.
  split; [|split; [|split]].
  - unfold display_balance. destruct transactions as [|t ts]; [reflexivity|].
    cbv zeta. rewrite (balance_fold (fun t => startswith (Transaction.date t) (strftime_Y_m today))
                         is_income).
    cbn [total_income total_expense total_balance fst snd].
    change (fun t0 => startswith (Transaction.date t0) (strftime_Y_m today))
      with (in_month_by_prefix today).
    set (month := List.filter (in_month_by_prefix today) (t :: ts)).
    rewrite !Hi. split; [lia|]. split; [rewrite (total_filter is_income month); lia|].
    split; [reflexivity|]. intros Ht.
    rewrite (proj1 (typed_not_income month (typed_filter _ _ Ht))), He. lia.
  - unfold list_footer. cbv zeta. rewrite footer_fold.
    cbn [total_expense snd]. rewrite He. lia.
  - unfold list_footer. cbv zeta. rewrite footer_fold.
    cbn [total_income fst]. rewrite He, (total_filter is_expense transactions). lia.
  - intros Ht. unfold list_footer. cbv zeta. rewrite footer_fold.
    cbn [total_income fst].
    rewrite (proj2 (typed_not_income transactions Ht)), Hi. lia.
Qed.

Lemma balances_spec_witness :
  let today := {| year := 2024; month := 5; day := 17 |} in
  let ts := [Transaction.mk "2024-05-01" "income" "Salary" "pay" 100000;
             Transaction.mk "2024-05-02" "expense" "Food" "groceries" 3000;
             Transaction.mk "2024-04-30" "expense" "Food" "dinner" 4000] in
  exists b, display_balance today ts = Some b
            /\ total_expense b = 3000
            /\ total_income (list_footer ts) = 100000.
Proof.
  intros today ts.
  destruct (balances_spec today ts) as (Hd & _ & _ & Hf).
  destruct (display_balance today ts) as [b|] eqn:E; [|discriminate Hd].
  exists b. split; [reflexivity|].
  destruct Hd as (_ & _ & _ & He).
  split; [rewrite He by reflexivity | rewrite Hf by reflexivity]; reflexivity.
Defined.

(** ** The list of the transactions *)

Lemma days_before_next_year (y : Z) :
  1 <= y -> days_before_year (y + 1) = days_before_year y + 365 + (if is_leap y then 1 else 0).
Proof.
  intros Hy. unfold days_before_year, is_leap.
  replace (y + 1 - 1) with y by lia.
  destruct (Z.eqb_spec (y mod 4) 0); destruct (Z.eqb_spec (y mod 100) 0);
    destruct (Z.eqb_spec (y mod 400) 0); cbn [andb orb negb];
    Z.div_mod_to_equations; lia.
Qed.

Lemma days_before_next_month (y m : Z) :
  1 <= m < 12 -> days_before_month y (m + 1) = days_before_month y m + days_in_month y m.
Proof.
  intros Hm.
  assert (m = 1 \/ m = 2 \/ m = 3 \/ m = 4 \/ m = 5 \/ m = 6 \/ m = 7 \/ m = 8
          \/ m = 9 \/ m = 10 \/ m = 11) as Hc by lia.
  unfold days_before_month, days_in_month.
  repeat (destruct Hc as [->|Hc]); try subst m; destruct (is_leap y); reflexivity.
Qed.

Lemma days_of_year (y : Z) :
  days_before_month y 12 + 31 = 365 + (if is_leap y then 1 else 0).
Proof. unfold days_before_month. destruct (is_leap y); reflexivity. Qed.

Lemma days_in_month_pos (y m : Z) : 28 <= days_in_month y m.
Proof.
  unfold days_in_month. destruct (m =? 2); [destruct (is_leap y); lia|].
  destruct (_ || _); lia.
Qed.

Lemma prev_day_ordinal (d d' : datetime) :
  calendar_date d -> prev_day d = Ok d' ->
  toordinal d' = toordinal d - 1 /\ calendar_date d'.
Proof.
  destruct d as [y m dd]. unfold calendar_date, prev_day, toordinal.
  cbn [year month day]. intros (Hy & Hm & Hd).
  destruct (Z.ltb_spec 1 dd).
  - intros Hr. injection Hr as <-. cbn [year month day]. split; lia.
  - destruct (Z.ltb_spec 1 m).
    + intros Hr. injection Hr as <-. cbn [year month day].
      pose proof (days_before_next_month y (m - 1) ltac:(lia)) as Hn.
      replace (m - 1 + 1) with m in Hn by lia.
      pose proof (days_in_month_pos y (m - 1)). split; lia.
    + destruct (Z.ltb_spec 1 y); [|discriminate].
      intros Hr. injection Hr as <-. cbn [year month day].
      pose proof (days_before_next_year (y - 1) ltac:(lia)) as Hn.
      replace (y - 1 + 1) with y in Hn by lia.
      pose proof (days_of_year (y - 1)) as Hy1.
      assert (m = 1) as -> by lia. assert (dd = 1) as -> by lia.
      change (days_before_month y 1) with 0.
      change (days_in_month (y - 1) 12) with 31. split; lia.
Qed.

Lemma next_day_ordinal (d d' : datetime) :
  calendar_date d -> next_day d = Ok d' ->
  toordinal d' = toordinal d + 1 /\ calendar_date d'.
Proof.
  destruct d as [y m dd]. unfold calendar_date, next_day, toordinal.
  cbn [year month day]. intros (Hy & Hm & Hd).
  destruct (Z.ltb_spec dd (days_in_month y m)).
  - intros Hr. injection Hr as <-. cbn [year month day]. split; lia.
  - destruct (Z.ltb_spec m 12).
    + intros Hr. injection Hr as <-. cbn [year month day].
      pose proof (days_before_next_month y m ltac:(lia)) as Hn.
      pose proof (days_in_month_pos y (m + 1)). split; lia.
    + destruct (Z.ltb_spec y 9999); [|discriminate].
      intros Hr. injection Hr as <-. cbn [year month day].
      pose proof (days_before_next_year y Hy) as Hn.
      pose proof (days_of_year y) as Hy1.
      assert (m = 12) as -> by lia.
      change (days_in_month y 12) with 31 in *.
      change (days_before_month (y + 1) 1) with 0.
      change (days_in_month (y + 1) 1) with 31. split; lia.
Qed.

Lemma minus_days_ordinal (n : nat) (d d' : datetime) :
  calendar_date d -> minus_days d n = Ok d' ->
  toordinal d' = toordinal d - Z.of_nat n /\ calendar_date d'.
Proof.
  revert d. induction n as [|n IH]; intros d Hd; cbn [minus_days].
  - intros H. injection H as <-. split; [lia | exact Hd].
  - destruct (prev_day d) as [d1|] eqn:E; result_simpl; [|discriminate].
    destruct (prev_day_ordinal d d1 Hd E) as [H1 Hd1].
    intros Hr. destruct (IH d1 Hd1 Hr) as [H2 Hd']. split; [lia | exact Hd'].
Qed.

Lemma plus_days_ordinal (n : nat) (d d' : datetime) :
  calendar_date d -> plus_days d n = Ok d' ->
  toordinal d' = toordinal d + Z.of_nat n /\ calendar_date d'.
Proof.
  revert d. induction n as [|n IH]; intros d Hd; cbn [plus_days].
  - intros H. injection H as <-. split; [lia | exact Hd].
  - destruct (next_day d) as [d1|] eqn:E; result_simpl; [|discriminate].
    destruct (next_day_ordinal d d1 Hd E) as [H1 Hd1].
    intros Hr. destruct (IH d1 Hd1 Hr) as [H2 Hd']. split; [lia | exact Hd'].
Qed.


(** X21. The filter "Last 7 Days" of [list_transactions] shows the
    transactions of eight days, today and the seven days before it, and
    every transaction that is dated after today; a transaction dated
    eight days ago or more is not shown. *)
Theorem last_seven_days (today d : datetime) (t : Transaction.t) (k : nat) :
  calendar_date today ->
  strptime (Transaction.date t) = Ok d ->
  (minus_days today k = Ok d ->
   include today Last7Days t = Ok (Nat.leb k 7))
  /\ (plus_days today k = Ok d -> include today Last7Days t = Ok true).
Proof.
  intros Htoday Hparse. unfold include. rewrite Hparse. result_simpl. split; intros Hk.
  - destruct (minus_days_ordinal k today d Htoday Hk) as [Ho _]. f_equal.
    destruct (Z.ltb_spec 7 (toordinal today - toordinal d));
      destruct (Nat.leb_spec k 7); try reflexivity; lia.
  - destruct (plus_days_ordinal k today d Htoday Hk) as [Ho _]. f_equal.
    destruct (Z.ltb_spec 7 (toordinal today - toordinal d)); [lia | reflexivity].
Qed.

Lemma last_seven_days_witness :
  let today := {| year := 2024; month := 3; day := 5 |} in
  include today Last7Days (Transaction.mk "2024-02-27" "expense" "Food" "lunch" 3000) = Ok true
  /\ include today Last7Days (Transaction.mk "2024-02-26" "expense" "Food" "lunch" 3000)
     = Ok false
  /\ include today Last7Days (Transaction.mk "2024-12-25" "expense" "Food" "lunch" 3000)
     = Ok true.
Proof.
  intros today.
  assert (calendar_date today) as Hc by (repeat split; vm_compute; discriminate).
  split; [|split].
  - apply (proj1 (last_seven_days today {| year := 2024; month := 2; day := 27 |}
                    (Transaction.mk "2024-02-27" "expense" "Food" "lunch" 3000) 7 Hc
                    ltac:(vm_compute; reflexivity))).
    vm_compute. reflexivity.
  - apply (proj1 (last_seven_days today {| year := 2024; month := 2; day := 26 |}
                    (Transaction.mk "2024-02-26" "expense" "Food" "lunch" 3000) 8 Hc
                    ltac:(vm_compute; reflexivity))).
    vm_compute. reflexivity.
  - apply (proj2 (last_seven_days today {| year := 2024; month := 12; day := 25 |}
                    (Transaction.mk "2024-12-25" "expense" "Food" "lunch" 3000) 295 Hc
                    ltac:(vm_compute; reflexivity))).
    vm_compute. reflexivity.
Defined.








(** * Persistence *)

(** ** The model on some inputs *)

Example persistence_examples :
  int_of_string (list_ascii_of_string " 1_000 ") = Ok 1000
  /\ int_of_string (list_ascii_of_string "-42") = Ok (-42)
  /\ int_of_string (list_ascii_of_string "+007") = Ok 7
  /\ int_of_string (list_ascii_of_string "1__0") = Raise ValueError
  /\ int_of_string (list_ascii_of_string "_1") = Raise ValueError
  /\ int_of_string (list_ascii_of_string "1_") = Raise ValueError
  /\ int_of_string (list_ascii_of_string "- 1") = Raise ValueError
  /\ int_of_string (list_ascii_of_string "") = Raise ValueError
  /\ int_of_string (list_ascii_of_string "12.5") = Raise ValueError
  /\ str_int 0 = Ok (list_ascii_of_string "0")
  /\ str_int (-1250) = Ok (list_ascii_of_string "-1250")
  /\ split_comma 1 (list_ascii_of_string "a,b,c") = [list_ascii_of_string "a"; list_ascii_of_string "b,c"]
  /\ split_comma 4 (list_ascii_of_string "a,b") = [list_ascii_of_string "a"; list_ascii_of_string "b"]
  /\ strip (list_ascii_of_string "  a b  ") = list_ascii_of_string "a b"
  /\ readlines (list_ascii_of_string "a") = [list_ascii_of_string "a"]
  /\ load_budgets None = Ok []
  /\ load_budgets (Some (list_ascii_of_string "Food,10000")) = Ok [Budget.mk "Food" 10000]
  /\ load_budgets (Some (LF :: list_ascii_of_string "Food, 1_0" ++ CR :: LF :: list_ascii_of_string "oops" ++ LF :: list_ascii_of_string "a,b,3" ++ [CR]))
     = Ok [Budget.mk "Food" 10]
  /\ save_budgets [Budget.mk "Food" 10000; Budget.mk "Bills" 5]
     = (Some (list_ascii_of_string "Food,10000" ++ LF :: list_ascii_of_string "Bills,5" ++ [LF]), Ok tt)
  /\ fst (set_budget "Food" 7 (Some (list_ascii_of_string "Food,10000" ++ LF :: list_ascii_of_string "junk" ++ [LF])))
     = Some (list_ascii_of_string "Food,7" ++ [LF])
  /\ fst (add_expense 1250 "Food" "Coffee, with friends" "2024-05-17" None)
     = Some (list_ascii_of_string "2024-05-17,expense,Food,Coffee, with friends,1250" ++ [LF])
  /\ load_transactions (fst (add_expense 1250 "Food" "Coffee, with friends" "2024-05-17" None))
     = Ok []
  /\ load_transactions (fst (add_expense 1250 "Food" "Coffee" "2024-05-17" None))
     = Ok [Transaction.mk "2024-05-17" "expense" "Food" "Coffee" 1250].
Proof. vm_compute. repeat split. Qed.

(** ** Integers as text *)

Lemma uint_value_split (u : Decimal.uint) (acc : Z) :
  uint_value acc u = acc * 10 ^ Z.of_nat (Decimal.nb_digits u) + uint_value 0 u
  /\ 0 <= uint_value 0 u < 10 ^ Z.of_nat (Decimal.nb_digits u).
Proof.
  revert acc.
  induction u as [|r IH|r IH|r IH|r IH|r IH|r IH|r IH|r IH|r IH|r IH]; intros acc;
    cbn [uint_value Decimal.nb_digits];
    [ cbn; lia | .. ];
    rewrite Nat2Z.inj_succ, Z.pow_succ_r by lia;
    destruct (IH (10 * acc + 0)) as [E0 _]; destruct (IH (10 * acc + 1)) as [E1 _];
    destruct (IH (10 * acc + 2)) as [E2 _]; destruct (IH (10 * acc + 3)) as [E3 _];
    destruct (IH (10 * acc + 4)) as [E4 _]; destruct (IH (10 * acc + 5)) as [E5 _];
    destruct (IH (10 * acc + 6)) as [E6 _]; destruct (IH (10 * acc + 7)) as [E7 _];
    destruct (IH (10 * acc + 8)) as [E8 _]; destruct (IH (10 * acc + 9)) as [E9 _];
    destruct (IH (10 * 0 + 0)) as [F0 B]; destruct (IH (10 * 0 + 1)) as [F1 _];
    destruct (IH (10 * 0 + 2)) as [F2 _]; destruct (IH (10 * 0 + 3)) as [F3 _];
    destruct (IH (10 * 0 + 4)) as [F4 _]; destruct (IH (10 * 0 + 5)) as [F5 _];
    destruct (IH (10 * 0 + 6)) as [F6 _]; destruct (IH (10 * 0 + 7)) as [F7 _];
    destruct (IH (10 * 0 + 8)) as [F8 _]; destruct (IH (10 * 0 + 9)) as [F9 _];
    set (P := 10 ^ Z.of_nat (Decimal.nb_digits r)) in *; lia.
Qed.

Lemma uint_value_of_uint_acc (u : Decimal.uint) (acc : positive) :
  uint_value (Zpos acc) u = Zpos (Pos.of_uint_acc u acc).
Proof.
  revert acc.
  induction u as [|r IH|r IH|r IH|r IH|r IH|r IH|r IH|r IH|r IH|r IH]; intros acc;
    cbn [uint_value Pos.of_uint_acc]; [reflexivity | ..];
    rewrite <- IH; f_equal; lia.
Qed.

Lemma uint_value_of_uint (u : Decimal.uint) : uint_value 0 u = Z.of_N (Pos.of_uint u).
Proof.
  induction u as [|r IH|r IH|r IH|r IH|r IH|r IH|r IH|r IH|r IH|r IH];
    cbn [uint_value Pos.of_uint]; [reflexivity | exact IH | ..];
    cbn [Z.mul Z.add Z.of_N]; apply uint_value_of_uint_acc.
Qed.

Lemma int_digits_uint (u : Decimal.uint) (acc n : Z) :
  int_digits (list_ascii_of_string (DecimalString.NilEmpty.string_of_uint u)) acc n
  = Some (uint_value acc u, n + Z.of_nat (Decimal.nb_digits u)).
Proof.
  revert acc n.
  induction u as [|r IH|r IH|r IH|r IH|r IH|r IH|r IH|r IH|r IH|r IH]; intros acc n;
    cbn [DecimalString.NilEmpty.string_of_uint list_ascii_of_string int_digits
         uint_value Decimal.nb_digits];
    [ f_equal; f_equal; cbn; lia | .. ];
    match goal with
    | |- context [digit_value ?c] =>
        let v := eval vm_compute in (digit_value c) in
        change (digit_value c) with v
    end;
    cbn [Ascii.eqb Bool.eqb andb]; rewrite IH; f_equal; f_equal; lia.
Qed.

Lemma int_literal_uint (u : Decimal.uint) :
  u <> Decimal.Nil ->
  int_literal (list_ascii_of_string (DecimalString.NilEmpty.string_of_uint u))
  = Some (uint_value 0 u, Z.of_nat (Decimal.nb_digits u)).
Proof.
  intros Hne. unfold int_literal.
  destruct u as [|r|r|r|r|r|r|r|r|r|r]; [congruence | ..];
    cbn [DecimalString.NilEmpty.string_of_uint list_ascii_of_string
         uint_value Decimal.nb_digits];
    match goal with
    | |- context [digit_value ?c] =>
        let v := eval vm_compute in (digit_value c) in
        change (digit_value c) with v
    end;
    cbv beta iota; rewrite int_digits_uint; f_equal; f_equal; lia.
Qed.


(** A character of a number as [str] writes it: a digit or the sign. *)
Lemma number_char (c : ascii) :
  45 <= Z.of_N (N_of_ascii c) <= 57 -> isspace c = false /\ plain c = true.
Proof.
  intros H. split.
  - unfold isspace.
    destruct (Z.leb_spec 9 (Z.of_N (N_of_ascii c))); [|lia].
    destruct (Z.leb_spec (Z.of_N (N_of_ascii c)) 13); [lia|].
    destruct (Z.leb_spec 28 (Z.of_N (N_of_ascii c))); [|lia].
    destruct (Z.leb_spec (Z.of_N (N_of_ascii c)) 32); [lia|].
    destruct (Z.eqb_spec (Z.of_N (N_of_ascii c)) 133); [lia|].
    destruct (Z.eqb_spec (Z.of_N (N_of_ascii c)) 160); [lia|]. reflexivity.
  - unfold plain, LF, CR.
    destruct (Ascii.eqb_spec c ","); [subst c; cbn in H; lia|].
    destruct (Ascii.eqb_spec c "010"); [subst c; cbn in H; lia|].
    destruct (Ascii.eqb_spec c "013"); [subst c; cbn in H; lia|]. reflexivity.
Qed.

Lemma uint_chars (u : Decimal.uint) :
  Forall (fun c => 45 <= Z.of_N (N_of_ascii c) <= 57)
    (list_ascii_of_string (DecimalString.NilEmpty.string_of_uint u)).
Proof.
  induction u as [|r IH|r IH|r IH|r IH|r IH|r IH|r IH|r IH|r IH|r IH];
    cbn [DecimalString.NilEmpty.string_of_uint list_ascii_of_string];
    [constructor | ..]; (constructor; [cbn; lia | exact IH]).
Qed.

Lemma to_uint_head (p : positive) :
  match Pos.to_uint p with
  | Decimal.Nil | Decimal.D0 _ => False
  | _ => True
  end.
Proof.
  pose proof (DecimalPos.Unsigned.to_of (Pos.to_uint p)) as Hn.
  rewrite DecimalPos.Unsigned.of_to in Hn. cbn [N.to_uint] in Hn.
  pose proof (DecimalPos.Unsigned.to_uint_nonnil p) as Hnil.
  pose proof (DecimalPos.Unsigned.to_uint_nonzero p) as Hz.
  destruct (Pos.to_uint p) as [|r|r|r|r|r|r|r|r|r|r]; try exact I; [congruence|].
  rewrite DecimalFacts.unorm_D0 in Hn.
  destruct (Decimal.uint_eq_dec r Decimal.Nil) as [->|Hr]; [congruence|].
  pose proof (DecimalFacts.nb_digits_unorm r Hr) as Hle.
  rewrite <- Hn in Hle. cbn [Decimal.nb_digits] in Hle. lia.
Qed.

Lemma uint_value_head (u : Decimal.uint) :
  match u with Decimal.Nil | Decimal.D0 _ => False | _ => True end ->
  10 ^ (Z.of_nat (Decimal.nb_digits u) - 1) <= uint_value 0 u.
Proof.
  destruct u as [|r|r|r|r|r|r|r|r|r|r]; try contradiction; intros _;
    cbn [uint_value Decimal.nb_digits];
    rewrite Nat2Z.inj_succ;
    replace (Z.succ (Z.of_nat (Decimal.nb_digits r)) - 1)
      with (Z.of_nat (Decimal.nb_digits r)) by lia;
    match goal with
    | |- _ <= uint_value ?a r => destruct (uint_value_split r a) as [-> [Hlo _]]
    end;
    pose proof (Z.pow_pos_nonneg 10 (Z.of_nat (Decimal.nb_digits r)) ltac:(lia) ltac:(lia));
    lia.
Qed.

Lemma to_uint_digits (p : positive) :
  Zpos p < digits_limit -> Z.of_nat (Decimal.nb_digits (Pos.to_uint p)) <= 4300.
Proof.
  intros Hp. pose proof (uint_value_head _ (to_uint_head p)) as Hv.
  rewrite uint_value_of_uint, DecimalPos.Unsigned.of_to in Hv. cbn [Z.of_N] in Hv.
  destruct (Z.le_gt_cases (Z.of_nat (Decimal.nb_digits (Pos.to_uint p))) 4300) as [|Hgt];
    [assumption|].
  assert (digits_limit <= 10 ^ (Z.of_nat (Decimal.nb_digits (Pos.to_uint p)) - 1))
    by (unfold digits_limit; apply Z.pow_le_mono_r; lia).
  lia.
Qed.

Lemma lstrip_id (l : list ascii) :
  match l with c :: _ => isspace c = false | [] => True end -> lstrip l = l.
Proof. destruct l as [|c l]; [reflexivity|]. cbn [lstrip]. intros ->. reflexivity. Qed.

Lemma rstrip_id (l : list ascii) :
  match rev l with c :: _ => isspace c = false | [] => True end -> rstrip l = l.
Proof. intros H. unfold rstrip. rewrite lstrip_id by exact H. apply rev_involutive. Qed.

Lemma rstrip_LF (l : list ascii) : rstrip (l ++ [LF]) = rstrip l.
Proof. unfold rstrip. rewrite rev_app_distr. reflexivity. Qed.

(** A text that neither begins nor ends with white space is left as it
    is by [strip], with or without the end of its line. *)
Lemma strip_id (l : list ascii) :
  match l with c :: _ => isspace c = false | [] => True end ->
  match rev l with c :: _ => isspace c = false | [] => True end ->
  strip l = l /\ strip (l ++ [LF]) = l.
Proof.
  intros Hh Hl. unfold strip. split.
  - rewrite lstrip_id by exact Hh. apply rstrip_id, Hl.
  - destruct l as [|c l].
    + reflexivity.
    + cbn [app lstrip]. rewrite Hh. change (c :: l ++ [LF]) with ((c :: l) ++ [LF]).
      rewrite rstrip_LF. apply rstrip_id, Hl.
Qed.

(** What [str] writes for an integer of at most 4300 digits is read back
    by [int]; it has no white space, no comma and no end of line. *)
Lemma int_of_str (z : Z) :
  printable z = true ->
  exists a, str_int z = Ok a
            /\ int_of_string a = Ok z
            /\ a <> []
            /\ Forall (fun c => 45 <= Z.of_N (N_of_ascii c) <= 57) a.
Proof.
  unfold printable. intros Hp. apply Z.ltb_lt in Hp.
  assert (forall p, Zpos p < digits_limit ->
            exists d, list_ascii_of_string
                        (DecimalString.NilZero.string_of_uint (Pos.to_uint p)) = d
                      /\ int_literal d = Some (Zpos p, Z.of_nat (Decimal.nb_digits (Pos.to_uint p)))
                      /\ d <> []
                      /\ Forall (fun c => 45 <= Z.of_N (N_of_ascii c) <= 57) d
                      /\ (4300 <? Z.of_nat (Decimal.nb_digits (Pos.to_uint p))) = false)
    as Hpos.
  { intros p Hlt. eexists. split; [reflexivity|].
    pose proof (DecimalPos.Unsigned.to_uint_nonnil p) as Hnil.
    assert (DecimalString.NilZero.string_of_uint (Pos.to_uint p)
            = DecimalString.NilEmpty.string_of_uint (Pos.to_uint p)) as ->
      by (destruct (Pos.to_uint p); [congruence | reflexivity ..]).
    rewrite int_literal_uint by exact Hnil.
    rewrite uint_value_of_uint, DecimalPos.Unsigned.of_to. cbn [Z.of_N].
    split; [reflexivity|]. split.
    - destruct (Pos.to_uint p); [congruence | discriminate ..].
    - split; [apply uint_chars|]. apply Z.ltb_ge, to_uint_digits, Hlt. }
  assert (forall d, d <> [] -> Forall (fun c => 45 <= Z.of_N (N_of_ascii c) <= 57) d ->
                    strip d = d) as Hstrip.
  { intros d Hne Hd. apply strip_id.
    - destruct d as [|c d]; [exact I|]. inversion Hd; subst. apply number_char; assumption.
    - assert (Forall (fun c => 45 <= Z.of_N (N_of_ascii c) <= 57) (rev d)) as Hr
        by (apply Forall_rev, Hd).
      destruct (rev d) as [|c r]; [exact I|]. inversion Hr; subst.
      apply number_char; assumption. }
  destruct z as [|p|p].
  - eexists. split; [reflexivity|]. split; [reflexivity|]. split; [discriminate|].
    repeat constructor; cbn; lia.
  - destruct (Hpos p Hp) as (d & Hd & Hlit & Hne & Hch & Hn).
    exists d. unfold str_int. cbn [Z.to_int DecimalString.NilZero.string_of_int].
    rewrite Hn, Hd. split; [reflexivity|]. split; [|split; assumption].
    unfold int_of_string. rewrite (Hstrip d Hne Hch).
    destruct d as [|c d]; [congruence|].
    inversion Hch as [|? ? Hc _]; subst.
    assert (Ascii.eqb c "-" = false) as ->.
    { destruct (Ascii.eqb_spec c "-") as [->|]; [|reflexivity].
      cbn in Hlit. discriminate. }
    assert (Ascii.eqb c "+" = false) as ->
      by (destruct (Ascii.eqb_spec c "+") as [->|]; [cbn in Hc; lia | reflexivity]).
    cbn [fst snd]. rewrite Hlit, Hn. reflexivity.
  - destruct (Hpos p Hp) as (d & Hd & Hlit & Hne & Hch & Hn).
    exists ("-"%char :: d). unfold str_int.
    cbn [Z.to_int DecimalString.NilZero.string_of_int list_ascii_of_string].
    rewrite Hn, Hd. split; [reflexivity|]. split; [|split; [discriminate|]].
    + unfold int_of_string.
      rewrite (Hstrip ("-"%char :: d));
        [|discriminate | constructor; [cbn; lia | exact Hch]].
      cbn [Ascii.eqb Bool.eqb andb fst snd]. rewrite Hlit, Hn. reflexivity.
    + constructor; [cbn; lia | exact Hch].
Qed.

(** ** Lines *)

Lemma plain_spec (c : ascii) :
  plain c = true <-> c <> ","%char /\ c <> LF /\ c <> CR.
Proof.
  unfold plain.
  destruct (Ascii.eqb_spec c ","), (Ascii.eqb_spec c LF), (Ascii.eqb_spec c CR);
    cbn; intuition congruence.
Qed.

Lemma decode_newlines_no_CR (l : list ascii) :
  Forall (fun c => c <> CR) l -> decode_newlines false l = l.
Proof.
  induction 1 as [|c l Hc _ IH]; [reflexivity|].
  cbn [decode_newlines]. destruct (Ascii.eqb_spec c CR); [contradiction|].
  rewrite andb_false_r, IH. reflexivity.
Qed.



Lemma readlines_line (l rest : list ascii) :
  Forall (fun c => c <> LF) l ->
  readlines (l ++ LF :: rest) = (l ++ [LF]) :: readlines rest.
Proof.
  induction 1 as [|c l Hc _ IH]; cbn [app readlines].
  - change (Ascii.eqb LF LF) with true. reflexivity.
  - destruct (Ascii.eqb_spec c LF); [contradiction|]. rewrite IH. reflexivity.
Qed.



(** ** Fields *)

Lemma partition_comma_field (a b : list ascii) :
  forallb plain a = true -> partition_comma (a ++ ","%char :: b) = Some (a, b).
Proof.
  induction a as [|c a IH]; cbn [app partition_comma forallb]; [reflexivity|].
  intros H. apply andb_prop in H. destruct H as [Hc Ha].
  apply plain_spec in Hc. destruct (Ascii.eqb_spec c ","); [tauto|].
  rewrite (IH Ha). reflexivity.
Qed.

Lemma split_comma_field (n : nat) (a b : list ascii) :
  forallb plain a = true ->
  split_comma (S n) (a ++ ","%char :: b) = a :: split_comma n b.
Proof. intros H. cbn [split_comma]. rewrite partition_comma_field by exact H. reflexivity. Qed.

Lemma field_chars (s : string) :
  field_ok s = true ->
  forallb plain (list_ascii_of_string s) = true
  /\ Forall (fun c => c <> LF) (list_ascii_of_string s)
  /\ Forall (fun c => c <> CR) (list_ascii_of_string s).
Proof.
  unfold field_ok. intros H. split; [exact H|].
  rewrite forallb_forall in H.
  split; apply List.Forall_forall; intros c Hc; apply H, plain_spec in Hc; tauto.
Qed.

Lemma number_chars (a : list ascii) :
  Forall (fun c => 45 <= Z.of_N (N_of_ascii c) <= 57) a ->
  Forall (fun c => c <> LF) a /\ Forall (fun c => c <> CR) a
  /\ Forall (fun c => isspace c = false) a.
Proof.
  intros H. repeat split; apply List.Forall_forall; intros c Hc;
    rewrite List.Forall_forall in H; specialize (H c Hc);
    destruct (number_char c H) as [Hs Hp]; apply plain_spec in Hp; tauto.
Qed.

(** The line of a budget, as [save_budgets] writes it. *)
Lemma budget_line_spec (b : Budget.t) :
  first_field_ok (Budget.category b) = true -> printable (Budget.amount b) = true ->
  exists body,
    budget_line b = Ok (body ++ [LF])
    /\ Forall (fun c => c <> LF) body /\ Forall (fun c => c <> CR) body
    /\ parse_budget (body ++ [LF]) = Ok b
    /\ parse_budget body = Ok b.
Proof.
  intros Hf Hp. unfold first_field_ok in Hf. apply andb_prop in Hf. destruct Hf as [Hf Hh].
  destruct (field_chars _ Hf) as (Hplain & HLF & HCR).
  destruct (int_of_str _ Hp) as (a & Hstr & Hint & Hne & Hch).
  destruct (number_chars a Hch) as (HaLF & HaCR & Hasp).
  set (cat := list_ascii_of_string (Budget.category b)) in *.
  exists (cat ++ ","%char :: a).
  unfold budget_line. rewrite Hstr. result_simpl. fold cat.
  split; [rewrite <- app_assoc; reflexivity|].
  split; [apply Forall_app; split; [exact HLF | constructor; [discriminate | exact HaLF]]|].
  split; [apply Forall_app; split; [exact HCR | constructor; [discriminate | exact HaCR]]|].
  assert (strip (cat ++ ","%char :: a) = cat ++ ","%char :: a
          /\ strip ((cat ++ ","%char :: a) ++ [LF]) = cat ++ ","%char :: a) as [Hs1 Hs2].
  { apply strip_id.
    - destruct cat as [|c cat]; [reflexivity|]. cbn [app].
      apply negb_true_iff in Hh. exact Hh.
    - rewrite rev_app_distr. cbn [rev]. rewrite <- app_assoc.
      assert (Forall (fun c => isspace c = false) (rev a)) as Hr by (apply Forall_rev, Hasp).
      destruct (rev a) as [|c r] eqn:E.
      + apply (f_equal (@rev ascii)) in E. rewrite rev_involutive in E. contradiction.
      + inversion Hr; subst. cbn [app]. assumption. }
  assert (forall l, strip l = cat ++ ","%char :: a -> parse_budget l = Ok b) as Hparse.
  { intros l Hl. unfold parse_budget. rewrite Hl, split_comma_field by exact Hplain.
    cbn [split_comma]. rewrite Hint. result_simpl. subst cat.
    rewrite string_of_list_ascii_of_string. destruct b; reflexivity. }
  split; apply Hparse; assumption.
Qed.

(** ** The file of the budgets *)

Lemma write_budgets_spec (bs : list Budget.t) (written : list ascii) :
  forallb (fun b => first_field_ok (Budget.category b)) bs = true ->
  forallb (fun b => printable (Budget.amount b)) bs = true ->
  exists text,
    write_budgets bs written = (written ++ text, Ok tt)
    /\ Forall (fun c => c <> CR) text
    /\ load_lines parse_budget (readlines text) = Ok bs.
Proof.
  revert written. induction bs as [|b bs IH]; intros written Hf Hp; cbn [forallb] in Hf, Hp.
  - exists []. rewrite app_nil_r. repeat split. constructor.
  - apply andb_prop in Hf. destruct Hf as [Hf1 Hf2].
    apply andb_prop in Hp. destruct Hp as [Hp1 Hp2].
    destruct (budget_line_spec b Hf1 Hp1) as (body & Hline & HLF & HCR & Hparse & _).
    destruct (IH (written ++ body ++ [LF]) Hf2 Hp2) as (text & Hw & Htext & Hload).
    exists ((body ++ [LF]) ++ text). cbn [write_budgets]. rewrite Hline, Hw.
    split; [rewrite !app_assoc; reflexivity|]. split.
    + repeat (apply Forall_app; split); try assumption. constructor; [discriminate | constructor].
    + rewrite <- app_assoc. cbn [app]. rewrite readlines_line by exact HLF.
      cbn [load_lines]. rewrite Hparse, Hload. reflexivity.
Qed.

(** X23. Budgets that are saved are the budgets that are loaded, in
    their order, when no category holds a comma or an end of line or
    begins with white space (and no amount has more than 4300 digits):
    [save_budgets] then completes and [load_budgets] reads the list back. *)
Theorem budgets_round_trip (budgets : list Budget.t) :
  forallb (fun b => first_field_ok (Budget.category b)) budgets = true ->
  forallb (fun b => printable (Budget.amount b)) budgets = true ->
  exists text,
    save_budgets budgets = (Some text, Ok tt)
    /\ load_budgets (Some text) = Ok budgets.
Proof.
  intros Hf Hp. destruct (write_budgets_spec budgets [] Hf Hp) as (text & Hw & HCR & Hload).
  exists text. unfold save_budgets. rewrite Hw. split; [reflexivity|].
  unfold load_budgets, load_file, translate_newlines.
  rewrite decode_newlines_no_CR by exact HCR. exact Hload.
Qed.

Lemma budgets_round_trip_witness :
  exists text,
    save_budgets [Budget.mk "Food" 10000; Budget.mk "Eating out" (-5)] = (Some text, Ok tt)
    /\ load_budgets (Some text) = Ok [Budget.mk "Food" 10000; Budget.mk "Eating out" (-5)].
Proof.
  apply (budgets_round_trip [Budget.mk "Food" 10000; Budget.mk "Eating out" (-5)]).
  - vm_compute. reflexivity.
  - vm_compute. reflexivity.
Defined.

(** *** What a file can hold *)





















Lemma find_app_first {A : Type} (f : A -> bool) (l1 l2 : list A) :
  find f (l1 ++ l2) = match find f l1 with Some x => Some x | None => find f l2 end.
Proof.
  induction l1 as [|x l1 IH]; [reflexivity|]. cbn [app find].
  destruct (f x); [reflexivity | exact IH].
Qed.

Lemma find_replace_budget (c c' : string) (a : Z) (bs l : list Budget.t) :
  replace_budget c a bs = Some l ->
  find (fun b => String.eqb (Budget.category b) c') l
  = if String.eqb c c' then Some (Budget.mk c a)
    else find (fun b => String.eqb (Budget.category b) c') bs.
Proof.
  revert l. induction bs as [|b bs IH]; intros l; cbn [replace_budget]; [discriminate|].
  destruct (String.eqb_spec (Budget.category b) c) as [Hb|Hb].
  - intros H. injection H as <-. cbn [find Budget.category]. rewrite Hb.
    destruct (String.eqb c c'); reflexivity.
  - destruct (replace_budget c a bs) as [l'|]; [|discriminate].
    intros H. injection H as <-. cbn [find]. rewrite (IH l' eq_refl).
    destruct (String.eqb_spec c c') as [<-|Hc].
    + destruct (String.eqb_spec (Budget.category b) c); [contradiction | reflexivity].
    + reflexivity.
Qed.

Lemma replace_budget_none (c : string) (a : Z) (bs : list Budget.t) :
  replace_budget c a bs = None <-> budgeted bs c = false.
Proof.
  unfold budgeted. induction bs as [|b bs IH]; cbn [replace_budget existsb]; [tauto|].
  destruct (String.eqb (Budget.category b) c); cbn [orb]; [split; discriminate|].
  destruct (replace_budget c a bs); rewrite <- IH; split; congruence.
Qed.

Lemma replace_budget_categories (c : string) (a : Z) (bs l : list Budget.t) :
  replace_budget c a bs = Some l -> map Budget.category l = map Budget.category bs.
Proof.
  revert l. induction bs as [|b bs IH]; intros l; cbn [replace_budget]; [discriminate|].
  destruct (String.eqb_spec (Budget.category b) c) as [Hb|Hb].
  - intros H. injection H as <-. cbn [map Budget.category]. rewrite Hb. reflexivity.
  - destruct (replace_budget c a bs) as [l'|]; [|discriminate].
    intros H. injection H as <-. cbn [map]. rewrite (IH l' eq_refl). reflexivity.
Qed.

Lemma budgeted_map (bs : list Budget.t) (c : string) :
  budgeted bs c = true <-> In c (map Budget.category bs).
Proof.
  unfold budgeted. rewrite existsb_exists, in_map_iff.
  split; intros (b & H1 & H2); exists b.
  - apply String.eqb_eq in H2. tauto.
  - split; [tauto|]. apply String.eqb_eq. tauto.
Qed.

(** X25. What [set_budget] does to the list: afterwards the category has
    the new amount, every other category has the amount it had, the
    categories are those of before with the new one added at the end if
    it had no budget, and a list without two budgets of one category stays
    such a list. *)
Theorem updated_budgets_spec (category : string) (amount : Z)
    (current_budgets : list Budget.t) :
  budget_of (updated_budgets category amount current_budgets) category = Some amount
  /\ (forall c, c <> category ->
        budget_of (updated_budgets category amount current_budgets) c
        = budget_of current_budgets c)
  /\ map Budget.category (updated_budgets category amount current_budgets)
     = (if budgeted current_budgets category
        then map Budget.category current_budgets
        else map Budget.category current_budgets ++ [category])
  /\ (List.NoDup (map Budget.category current_budgets) ->
      List.NoDup (map Budget.category (updated_budgets category amount current_budgets))).
Proof.
  assert (map Budget.category (updated_budgets category amount current_budgets)
          = (if budgeted current_budgets category
             then map Budget.category current_budgets
             else map Budget.category current_budgets ++ [category])) as Hmap.
  { unfold updated_budgets.
    destruct (replace_budget category amount current_budgets) as [l|] eqn:E.
    - rewrite (replace_budget_categories _ _ _ _ E).
      destruct (budgeted current_budgets category) eqn:Eb; [reflexivity|].
      apply (replace_budget_none category amount) in Eb. congruence.
    - apply replace_budget_none in E. rewrite E, map_app. reflexivity. }
  assert (forall c, budget_of (updated_budgets category amount current_budgets) c
                    = if String.eqb category c then Some amount
                      else budget_of current_budgets c) as Hfind.
  { intros c. unfold budget_of, updated_budgets.
    destruct (replace_budget category amount current_budgets) as [l|] eqn:E.
    - rewrite (find_replace_budget _ c _ _ _ E).
      destruct (String.eqb category c); reflexivity.
    - apply replace_budget_none in E.
      destruct (String.eqb_spec category c) as [<-|Hc].
      + assert (find (fun b => String.eqb (Budget.category b) category) current_budgets = None)
          as Hn.
        { destruct (find _ current_budgets) as [b|] eqn:Ef; [|reflexivity].
          apply find_some in Ef. unfold budgeted in E.
          assert (existsb (fun b => String.eqb (Budget.category b) category) current_budgets
                  = true) by (apply existsb_exists; exists b; exact Ef).
          congruence. }
        rewrite find_app_first, Hn. cbn [find Budget.category]. rewrite String.eqb_refl. reflexivity.
      + rewrite find_app_first. destruct (find _ current_budgets); [reflexivity|].
        cbn [find Budget.category].
        destruct (String.eqb_spec category c); [contradiction | reflexivity]. }
  split; [rewrite Hfind, String.eqb_refl; reflexivity|].
  split.
  - intros c Hc. rewrite Hfind.
    destruct (String.eqb_spec category c); [congruence | reflexivity].
  - split; [exact Hmap|]. intros Hnd. rewrite Hmap.
    destruct (budgeted current_budgets category) eqn:Eb; [exact Hnd|].
    apply List.NoDup_app; [exact Hnd | |].
    + apply List.NoDup_cons; [intros [] | apply List.NoDup_nil].
    + intros c Hin [<-|[]]. apply budgeted_map in Hin. congruence.
Qed.

Lemma updated_budgets_spec_witness :
  List.NoDup (map Budget.category
           (updated_budgets "Bills" 7500 [Budget.mk "Food" 10000; Budget.mk "Bills" 5000])).
Proof.
  apply (updated_budgets_spec "Bills" 7500 [Budget.mk "Food" 10000; Budget.mk "Bills" 5000]).
  repeat constructor; cbn; intuition discriminate.
Defined.

(** ** The file of the transactions *)







(** *** A comma in a field *)














(** *** What [add_expense] and [add_income] save *)











